(** * RSU Gabon mobile surveyor: scoring services and offline synchronisation

    Shallow embedding of
    - the five-dimension scoring service ("SCORING SERVICE COMPLET",
      class ScoringService with WEIGHTS / THRESHOLDS),
    - the four-dimension scoring service backed by the Django API
      (class ScoringService with DEFAULT_WEIGHTING_PROFILE / RISK_THRESHOLDS),
    - the useOffline hook (src/hooks/useOffline.js),
    - the queue drain of the sync service.

    Conventions.  A JavaScript number is an exact rational ([Q]); the
    binary64 rounding of each arithmetic operation is not modelled.  Count
    fields that the source reads through [parseInt] are integers ([Z]).  A
    field that may be absent is an [option]; a field only tested for
    truthiness is a [bool].  Strings are byte strings, and case conversion
    acts on the ASCII letters.  A function that can throw returns a
    [Result]. *)

From Stdlib Require Import ZArith QArith Qround Lia Lqa Bool List.
From Stdlib Require Import Ascii String.
From stdpp Require Import base option list strings gmap.

Local Open Scope Z_scope.

(** ** JavaScript helpers *)

Module JS.

(** Values thrown by the code under study. *)
Inductive JSError : Type :=
| ReferenceError (identifier : string)
| Error (message : string).

Inductive Result (A : Type) : Type :=
| Ok (value : A)
| Throw (error : JSError).
Arguments Ok {A} value.
Arguments Throw {A} error.

Definition bind {A B : Type} (r : Result A) (k : A -> Result B) : Result B :=
  match r with
  | Ok v => k v
  | Throw e => Throw e
  end.

(** [try { body } catch (error) { handler(error) }] *)
Definition try_catch {A : Type} (body : Result A) (handler : JSError -> Result A)
  : Result A :=
  match body with
  | Ok v => Ok v
  | Throw e => handler e
  end.

Definition returns {A : Type} (r : Result A) : Prop := exists v, r = Ok v.

(** *** Strings *)

Definition lower_ascii (c : ascii) : ascii :=
  let n := nat_of_ascii c in
  if (Nat.leb 65 n && Nat.leb n 90)%bool then ascii_of_nat (n + 32) else c.

Definition upper_ascii (c : ascii) : ascii :=
  let n := nat_of_ascii c in
  if (Nat.leb 97 n && Nat.leb n 122)%bool then ascii_of_nat (n - 32) else c.

Fixpoint map_string (f : ascii -> ascii) (s : string) : string :=
  match s with
  | EmptyString => EmptyString
  | String c rest => String (f c) (map_string f rest)
  end.

Definition toLowerCase : string -> string := map_string lower_ascii.
Definition toUpperCase : string -> string := map_string upper_ascii.

(** [haystack.includes(needle)] *)
Fixpoint includes (haystack needle : string) : bool :=
  if String.prefix needle haystack then true
  else match haystack with
       | EmptyString => false
       | String _ rest => includes rest needle
       end.

(** [field?.toLowerCase() || ''] *)
Definition lowered_or_empty (field : option string) : string :=
  match field with
  | Some s => toLowerCase s
  | None => EmptyString
  end.

(** [field?.includes(needle)], used as a condition: [undefined] is falsy. *)
Definition opt_includes (field : option string) (needle : string) : bool :=
  match field with
  | Some s => includes s needle
  | None => false
  end.

(** [field === literal] *)
Definition str_is (field : option string) (literal : string) : bool :=
  match field with
  | Some s => String.eqb s literal
  | None => false
  end.

(** *** Numbers *)

Definition Qltb (x y : Q) : bool := negb (Qle_bool y x).
Definition Qgeb (x y : Q) : bool := Qle_bool y x.

(** [x || d] on a numeric field: [undefined], [null] and [0] are falsy. *)
Definition num_or (field : option Q) (d : Q) : Q :=
  match field with
  | Some x => if Qeq_bool x 0 then d else x
  | None => d
  end.

Definition int_or (field : option Z) (d : Z) : Z :=
  match field with
  | Some x => if Z.eqb x 0 then d else x
  | None => d
  end.

(** [Math.round(x)]: nearest integer, a tie goes towards +infinity. *)
Definition Math_round (x : Q) : Z := Qfloor (x + (1 # 2))%Q.

(** [parseFloat(x.toFixed(2))]: nearest multiple of 1/100; the sign is
    split off first, so a tie goes away from zero. *)
Definition toFixed2 (x : Q) : Q :=
  if Qltb x 0
  then (- (inject_Z (Qfloor ((- x) * 100 + (1 # 2))) / 100))%Q
  else (inject_Z (Qfloor (x * 100 + (1 # 2))) / 100)%Q.

Definition Math_min (a b : Z) : Z := Z.min a b.

End JS.

Import JS.

(** Risk levels, shared by the two services (the strings 'CRITICAL', 'HIGH',
    'MODERATE' and 'LOW'). *)
Inductive RiskLevel : Type := LOW | MODERATE | HIGH | CRITICAL.

Definition rank (l : RiskLevel) : Z :=
  match l with
  | LOW => 0
  | MODERATE => 1
  | HIGH => 2
  | CRITICAL => 3
  end.

(** The four numbers of [THRESHOLDS] / [RISK_THRESHOLDS]. *)
Record Thresholds : Type := {
  th_CRITICAL : Q;
  th_HIGH : Q;
  th_MODERATE : Q;
  th_LOW : Q
}.

(** ** Five-dimension service (scoringService.js, "SCORING SERVICE COMPLET") *)

Module ScoringComplete.

(** A yes/no answer of the form, stored as a boolean or as text. *)
Inductive Answer : Type :=
| Absent
| BoolAnswer (b : bool)
| TextAnswer (s : string).

Definition truthy (a : Answer) : bool :=
  match a with
  | Absent => false
  | BoolAnswer b => b
  | TextAnswer s => negb (String.eqb s "")
  end.

Definition is_text (a : Answer) (literal : string) : bool :=
  match a with
  | TextAnswer s => String.eqb s literal
  | _ => false
  end.

(** [person.birthDate], as [new Date(birthDate)] reads it. *)
Inductive BirthDate : Type :=
| NoBirthDate                          (* falsy: undefined, null, '' *)
| InvalidDate                          (* getFullYear() is NaN *)
| BirthOn (year month day : Z).        (* getFullYear(), getMonth(), getDate() *)

(** [new Date()]: the calendar fields read by [calculateAge] and the text
    of [toISOString()]. *)
Record Clock : Type := {
  fullYear : Z;
  month : Z;
  date : Z;
  isoString : string
}.

Module Person.
Record t : Type := {
  occupationStatus : option string;
  educationLevel : option string;
  isIlliterate : bool;
  hasChronicIllness : bool;
  hasDisability : bool;
  birthDate : BirthDate
}.
End Person.

Module Household.
Record t : Type := {
  monthlyIncome : option Q;
  householdSize : option Z;
  dependents : option Z;
  hasSavings : bool;
  housingType : option string;
  hasElectricity : Answer;
  hasRunningWater : Answer;
  numberOfRooms : option Z;
  hasToilet : bool;
  hasChronicIllness : bool;
  hasDisability : bool;
  hasHealthInsurance : bool;
  hasMalnutrition : bool;
  healthCenterDistance : option Z;
  childrenOutOfSchool : option Z;
  hasUnpaidSchoolFees : bool;
  isSociallyIsolated : bool;
  isSingleParent : bool;
  hasFamilySupport : bool
}.
End Household.

Record Weights : Type := {
  w_economic : Q;
  w_housing : Q;
  w_health : Q;
  w_education : Q;
  w_social : Q
}.

(** [this.WEIGHTS], set in the constructor. *)
Definition WEIGHTS : Weights := {|
  w_economic := 0.30;
  w_housing := 0.25;
  w_health := 0.20;
  w_education := 0.15;
  w_social := 0.10
|}.

(** [this.THRESHOLDS], set in the constructor. *)
Definition THRESHOLDS : Thresholds := {|
  th_CRITICAL := 75;
  th_HIGH := 50;
  th_MODERATE := 25;
  th_LOW := 0
|}.

Record DimensionScores : Type := {
  economic : Q;
  housing : Q;
  health : Q;
  education : Q;
  social : Q
}.

Record Score : Type := {
  score : Z;
  level : RiskLevel;
  dimensions : DimensionScores;
  factors : list string;
  recommendations : list string;
  calculatedAt : string
}.

(** DIMENSION 1 *)
Definition calculateEconomicScore (person : Person.t) (household : Household.t) : Z :=
  let score := 0 in
  let income := num_or (Household.monthlyIncome household) 0 in
  let householdSize := int_or (Household.householdSize household) 1 in
  let incomePerPerson := (income / inject_Z householdSize)%Q in
  let POVERTY_LINE := 150000%Q in
  let VULNERABILITY_LINE := 300000%Q in
  let score :=
    if Qeq_bool incomePerPerson 0 then score + 40
    else if Qltb incomePerPerson POVERTY_LINE then score + 35
    else if Qltb incomePerPerson VULNERABILITY_LINE then score + 25
    else score + 10 in
  let occupation := lowered_or_empty (Person.occupationStatus person) in
  let score :=
    if includes occupation "chomeur" || includes occupation "unemployed" then score + 25
    else if includes occupation "informel" || includes occupation "informal" then score + 15
    else if includes occupation "journalier" || includes occupation "daily" then score + 20
    else score + 5 in
  let dependents := int_or (Household.dependents household) 0 in
  let score :=
    if 5 <=? dependents then score + 20
    else if 3 <=? dependents then score + 15
    else if 1 <=? dependents then score + 10
    else score in
  let score := if negb (Household.hasSavings household) then score + 15 else score in
  Math_min 100 score.

(** DIMENSION 2 *)
Definition calculateHousingScore (household : Household.t) : Z :=
  let score := 0 in
  let housingType := lowered_or_empty (Household.housingType household) in
  let score :=
    if includes housingType "precaire" || includes housingType "precarious" then score + 30
    else if includes housingType "case" || includes housingType "traditional" then score + 20
    else if includes housingType "location" || includes housingType "rent" then score + 15
    else score + 5 in
  let score :=
    if negb (truthy (Household.hasElectricity household))
       || is_text (Household.hasElectricity household) "no"
    then score + 20 else score in
  let score :=
    if negb (truthy (Household.hasRunningWater household))
       || is_text (Household.hasRunningWater household) "no"
    then score + 20 else score in
  let householdSize := int_or (Household.householdSize household) 1 in
  let rooms := int_or (Household.numberOfRooms household) 1 in
  let personsPerRoom := (inject_Z householdSize / inject_Z rooms)%Q in
  let score :=
    if Qgeb personsPerRoom 4 then score + 15
    else if Qgeb personsPerRoom 3 then score + 10
    else if Qgeb personsPerRoom 2 then score + 5
    else score in
  let score := if negb (Household.hasToilet household) then score + 15 else score in
  Math_min 100 score.

(** DIMENSION 3 *)
Definition calculateHealthScore (person : Person.t) (household : Household.t) : Z :=
  let score := 0 in
  let score :=
    if Person.hasChronicIllness person || Household.hasChronicIllness household
    then score + 25 else score in
  let score :=
    if Person.hasDisability person || Household.hasDisability household
    then score + 20 else score in
  let score := if negb (Household.hasHealthInsurance household) then score + 20 else score in
  let score := if Household.hasMalnutrition household then score + 20 else score in
  let healthDistance := int_or (Household.healthCenterDistance household) 0 in
  let score :=
    if 10 <=? healthDistance then score + 15
    else if 5 <=? healthDistance then score + 10
    else score in
  Math_min 100 score.

(** DIMENSION 4 *)
Definition calculateEducationScore (person : Person.t) (household : Household.t) : Z :=
  let score := 0 in
  let education := lowered_or_empty (Person.educationLevel person) in
  let score :=
    if includes education "aucun" || includes education "none" then score + 30
    else if includes education "primaire" || includes education "primary" then score + 20
    else if includes education "secondaire" || includes education "secondary" then score + 10
    else score in
  let score := if Person.isIlliterate person then score + 25 else score in
  let childrenOutOfSchool := int_or (Household.childrenOutOfSchool household) 0 in
  let score :=
    if 2 <=? childrenOutOfSchool then score + 25
    else if childrenOutOfSchool =? 1 then score + 15
    else score in
  let score := if Household.hasUnpaidSchoolFees household then score + 20 else score in
  Math_min 100 score.

(** [calculateAge(birthDate)]; [None] stands for NaN. *)
Definition calculateAge (today : Clock) (birthDate : BirthDate) : option Z :=
  match birthDate with
  | NoBirthDate => Some 0
  | InvalidDate => None
  | BirthOn birthYear birthMonth birthDay =>
      let age := fullYear today - birthYear in
      let monthDiff := month today - birthMonth in
      if (monthDiff <? 0) || ((monthDiff =? 0) && (date today <? birthDay))
      then Some (age - 1)
      else Some age
  end.

(** [age >= 65]; a comparison with NaN is false. *)
Definition age_ge (age : option Z) (bound : Z) : bool :=
  match age with
  | Some a => bound <=? a
  | None => false
  end.

(** What an identifier can be bound to where [calculateSocialScore] reads
    [householdSize]. *)
Inductive Binding : Type :=
| ObjectValue                 (* an object or a class *)
| NumberValue (n : Z)
| NaNValue.

(** Reading an identifier: the innermost binding, or a ReferenceError when
    no scope declares it. *)
Fixpoint read_identifier (scope : list (string * Binding)) (name : string)
  : Result Binding :=
  match scope with
  | [] => Throw (ReferenceError name)
  | (declared, value) :: outer =>
      if String.eqb declared name then Ok value else read_identifier outer name
  end.

(** [value === n] *)
Definition strictly_equals (value : Binding) (n : Z) : bool :=
  match value with
  | NumberValue m => m =? n
  | _ => false
  end.

(** The declarations of the module: the class. *)
Definition module_scope : list (string * Binding) := [("ScoringService", ObjectValue)].

(** DIMENSION 5.  The function declares [person], [household], [score] and
    [age]; in [age >= 65 && householdSize === 1] the right operand is
    evaluated exactly when the left one is true, and it reads an identifier
    that neither the function nor the module declares. *)
Definition calculateSocialScore (today : Clock) (person : Person.t)
    (household : Household.t) : Result Z :=
  let score := 0 in
  let score := if Household.isSociallyIsolated household then score + 30 else score in
  let score := if Household.isSingleParent household then score + 25 else score in
  let age := calculateAge today (Person.birthDate person) in
  let scope :=
    [("person", ObjectValue); ("household", ObjectValue); ("score", NumberValue score);
     ("age", match age with Some a => NumberValue a | None => NaNValue end)]
    ++ module_scope in
  bind (if age_ge age 65
        then bind (read_identifier scope "householdSize")
                  (fun householdSize => Ok (strictly_equals householdSize 1))
        else Ok false)
       (fun elderlyAlone =>
          let score := if elderlyAlone then score + 25 else score in
          let score :=
            if negb (Household.hasFamilySupport household) then score + 20 else score in
          Ok (Math_min 100 score)).

Definition calculateDimensionScores (today : Clock) (personData : Person.t)
    (householdData : Household.t) : Result DimensionScores :=
  let economic := calculateEconomicScore personData householdData in
  let housing := calculateHousingScore householdData in
  let health := calculateHealthScore personData householdData in
  let education := calculateEducationScore personData householdData in
  bind (calculateSocialScore today personData householdData) (fun social =>
  Ok {| economic := inject_Z economic;
        housing := inject_Z housing;
        health := inject_Z health;
        education := inject_Z education;
        social := inject_Z social |}).

(** [calculateWeightedScore], reading [this.WEIGHTS]. *)
Definition calculateWeightedScore (this_WEIGHTS : Weights)
    (dimensionScores : DimensionScores) : Q :=
  (economic dimensionScores * w_economic this_WEIGHTS +
   housing dimensionScores * w_housing this_WEIGHTS +
   health dimensionScores * w_health this_WEIGHTS +
   education dimensionScores * w_education this_WEIGHTS +
   social dimensionScores * w_social this_WEIGHTS)%Q.

(** [determineRiskLevel], reading [this.THRESHOLDS]. *)
Definition determineRiskLevel (this_THRESHOLDS : Thresholds) (score : Q) : RiskLevel :=
  if Qgeb score (th_CRITICAL this_THRESHOLDS) then CRITICAL
  else if Qgeb score (th_HIGH this_THRESHOLDS) then HIGH
  else if Qgeb score (th_MODERATE this_THRESHOLDS) then MODERATE
  else LOW.

(** [array.push(x)] under a condition. *)
Definition push_if (condition : bool) (x : string) (array : list string) : list string :=
  if condition then array ++ [x] else array.

(** [array.includes(x)] *)
Definition array_includes (array : list string) (x : string) : bool :=
  existsb (String.eqb x) array.

Definition identifyRiskFactors (person : Person.t) (household : Household.t)
  : list string :=
  let factors := [] in
  let income := num_or (Household.monthlyIncome household) 0 in
  let factors := push_if (Qltb income 150000) "extreme_poverty" factors in
  let factors := push_if (opt_includes (Person.occupationStatus person) "chomeur")
                         "unemployment" factors in
  let factors := push_if (3 <=? int_or (Household.dependents household) 0)
                         "multiple_dependents" factors in
  let factors := push_if (negb (truthy (Household.hasElectricity household)))
                         "no_electricity" factors in
  let factors := push_if (negb (truthy (Household.hasRunningWater household)))
                         "no_water" factors in
  let factors := push_if (opt_includes (Household.housingType household) "precaire")
                         "precarious_housing" factors in
  let factors := push_if (Person.hasChronicIllness person) "chronic_illness" factors in
  let factors := push_if (Person.hasDisability person) "disability" factors in
  let factors := push_if (negb (Household.hasHealthInsurance household))
                         "no_health_insurance" factors in
  let factors := push_if (opt_includes (Person.educationLevel person) "aucun")
                         "no_education" factors in
  let factors := push_if (0 <? int_or (Household.childrenOutOfSchool household) 0)
                         "children_out_of_school" factors in
  let factors := push_if (Household.isSingleParent household) "single_parent" factors in
  let factors := push_if (Household.isSociallyIsolated household)
                         "social_isolation" factors in
  factors.

Definition generateRecommendations (riskLevel : RiskLevel) (factors : list string)
  : list string :=
  let recommendations :=
    match riskLevel with
    | CRITICAL => ["Priorité 1: Assistance immédiate requise";
                   "Inscription urgente aux programmes sociaux";
                   "Suivi rapproché mensuel"]
    | HIGH => ["Priorité 2: Intervention nécessaire";
               "Évaluation approfondie des besoins";
               "Orientation vers programmes adaptés"]
    | MODERATE => ["Priorité 3: Surveillance régulière";
                   "Accès aux services de prévention"]
    | LOW => ["Suivi standard"]
    end in
  let recommendations := push_if (array_includes factors "unemployment")
                           "Programme insertion professionnelle" recommendations in
  let recommendations := push_if (array_includes factors "no_education")
                           "Programme alphabétisation" recommendations in
  let recommendations := push_if (array_includes factors "children_out_of_school")
                           "Aide à la scolarisation" recommendations in
  let recommendations := push_if (array_includes factors "chronic_illness")
                           "Couverture santé prioritaire" recommendations in
  recommendations.

(** [calculateVulnerabilityScore(personData, householdData)]; [now] is the
    value of [new Date()] during the call. *)
Definition calculateVulnerabilityScore (now : Clock) (personData : Person.t)
    (householdData : Household.t) : Result Score :=
  try_catch
    (bind (calculateDimensionScores now personData householdData)
       (fun dimensionScores =>
          let globalScore := calculateWeightedScore WEIGHTS dimensionScores in
          let riskLevel := determineRiskLevel THRESHOLDS globalScore in
          let riskFactors := identifyRiskFactors personData householdData in
          let recommendations := generateRecommendations riskLevel riskFactors in
          Ok {| score := Math_round globalScore;
                level := riskLevel;
                dimensions := dimensionScores;
                factors := riskFactors;
                recommendations := recommendations;
                calculatedAt := isoString now |}))
    (fun error => Throw (Error "Impossible de calculer le score de vulnérabilité")).

Record ApiScore : Type := {
  vulnerability_score : Z;
  risk_level : RiskLevel;
  dimension_scores : DimensionScores;
  vulnerability_factors : list string;
  api_recommendations : list string;
  calculated_at : string
}.

Definition exportForAPI (s : Score) : ApiScore := {|
  vulnerability_score := score s;
  risk_level := level s;
  dimension_scores := dimensions s;
  vulnerability_factors := factors s;
  api_recommendations := recommendations s;
  calculated_at := calculatedAt s
|}.

End ScoringComplete.

(** ** Four-dimension service (scoringService.js, API-backed) *)

Module ScoringApi.

Module Person.
Record t : Type := {
  employment_status : option string;
  education_level : option string;
  gender : option string;
  marital_status : option string;
  disability_status : option string;
  age : option Q
}.
End Person.

Module Household.
Record t : Type := {
  household_size : option Q;
  has_disabled_members : bool;
  has_elderly_members : bool;
  has_children_under_5 : bool;
  has_pregnant_women : bool;
  dependency_ratio : option Q;
  total_monthly_income : option Q;
  housing_type : option string
}.
End Household.

Record WeightingProfile : Type := {
  household_composition_weight : Q;
  economic_vulnerability_weight : Q;
  social_vulnerability_weight : Q;
  health_vulnerability_weight : Q
}.

Definition DEFAULT_WEIGHTING_PROFILE : WeightingProfile := {|
  household_composition_weight := 30.0;
  economic_vulnerability_weight := 35.0;
  social_vulnerability_weight := 20.0;
  health_vulnerability_weight := 15.0
|}.

Definition RISK_THRESHOLDS : Thresholds := {|
  th_CRITICAL := 80.0;
  th_HIGH := 60.0;
  th_MODERATE := 40.0;
  th_LOW := 0.0
|}.

(** The one mutable field of the service object. *)
Record Service : Type := {
  cachedWeightingProfile : option WeightingProfile
}.

(** [constructor()] *)
Definition constructor : Service := {| cachedWeightingProfile := None |}.

(** What an awaited [apiClient] call does: it resolves with a response
    whose [data] is truthy ([Some]) or falsy ([None]), or it rejects. *)
Record HttpError : Type := {
  response_data_error : option string;   (* error.response?.data?.error, when truthy *)
  message : string                       (* error.message *)
}.

Inductive Reply (A : Type) : Type :=
| Resolved (data : option A)
| Rejected (error : HttpError).
Arguments Resolved {A} data.
Arguments Rejected {A} error.

(** Score de composition du ménage; [householdData] may be null. *)
Definition _calculateHouseholdCompositionScore (householdData : option Household.t) : Z :=
  let score := 0 in
  let maxScore := 100 in
  match householdData with
  | None => 0
  | Some householdData =>
      let householdSize := num_or (Household.household_size householdData) 0 in
      let score :=
        if Qgeb householdSize 10 then score + 30
        else if Qgeb householdSize 7 then score + 25
        else if Qgeb householdSize 5 then score + 20
        else if Qgeb householdSize 3 then score + 10
        else score in
      let score := if Household.has_disabled_members householdData then score + 15 else score in
      let score := if Household.has_elderly_members householdData then score + 10 else score in
      let score := if Household.has_children_under_5 householdData then score + 10 else score in
      let score := if Household.has_pregnant_women householdData then score + 5 else score in
      let dependencyRatio := num_or (Household.dependency_ratio householdData) 0 in
      let score :=
        if Qgeb dependencyRatio 2.0 then score + 30
        else if Qgeb dependencyRatio 1.5 then score + 20
        else if Qgeb dependencyRatio 1.0 then score + 10
        else score in
      Math_min score maxScore
  end.

(** [householdData?.field || d] *)
Definition household_num (householdData : option Household.t)
    (field : Household.t -> option Q) (d : Q) : Q :=
  match householdData with
  | Some h => num_or (field h) d
  | None => d
  end.

(** [field?.toUpperCase()] *)
Definition uppered (field : option string) : option string :=
  match field with
  | Some s => Some (toUpperCase s)
  | None => None
  end.

Definition _calculateEconomicVulnerabilityScore (personData : Person.t)
    (householdData : option Household.t) : Z :=
  let score := 0 in
  let maxScore := 100 in
  let employmentStatus := uppered (Person.employment_status personData) in
  let score :=
    if str_is employmentStatus "UNEMPLOYED" then score + 40
    else if str_is employmentStatus "INFORMAL" then score + 30
    else if str_is employmentStatus "TEMPORARY" then score + 20
    else score in
  let income := household_num householdData Household.total_monthly_income 0 in
  let householdSize := household_num householdData Household.household_size 1 in
  let incomePerPerson := (income / householdSize)%Q in
  let score :=
    if Qltb incomePerPerson 50000 then score + 40
    else if Qltb incomePerPerson 100000 then score + 30
    else if Qltb incomePerPerson 150000 then score + 20
    else if Qltb incomePerPerson 200000 then score + 10
    else score in
  let housingType :=
    match householdData with
    | Some h => Household.housing_type h
    | None => None
    end in
  let score :=
    if str_is housingType "PRECARIOUS" || str_is housingType "HOMELESS" then score + 20
    else if str_is housingType "SHARED" then score + 10
    else score in
  Math_min score maxScore.

Definition _calculateSocialVulnerabilityScore (personData : Person.t) : Z :=
  let score := 0 in
  let maxScore := 100 in
  let educationLevel := uppered (Person.education_level personData) in
  let score :=
    if str_is educationLevel "NONE" then score + 30
    else if str_is educationLevel "PRIMARY" then score + 20
    else if str_is educationLevel "SECONDARY" then score + 10
    else score in
  let score :=
    if str_is (Person.gender personData) "F" then
      let score := score + 10 in
      if str_is (Person.marital_status personData) "WIDOWED"
         || str_is (Person.marital_status personData) "DIVORCED"
      then score + 10 else score
    else score in
  let score :=
    if str_is (Person.marital_status personData) "WIDOWED" then score + 15
    else if str_is (Person.marital_status personData) "DIVORCED"
            || str_is (Person.marital_status personData) "SEPARATED" then score + 10
    else score in
  let score :=
    if str_is (Person.disability_status personData) "YES" then score + 30
    else if str_is (Person.disability_status personData) "PARTIAL" then score + 15
    else score in
  Math_min score maxScore.

Definition _calculateHealthVulnerabilityScore (personData : Person.t)
    (householdData : option Household.t) : Z :=
  let score := 0 in
  let maxScore := 100 in
  let score :=
    if str_is (Person.disability_status personData) "YES" then score + 40
    else if str_is (Person.disability_status personData) "PARTIAL" then score + 20
    else score in
  let age := num_or (Person.age personData) 0 in
  let score :=
    if Qgeb age 70 then score + 30
    else if Qgeb age 60 then score + 20
    else if Qle_bool age 5 then score + 25
    else score in
  let score :=
    match householdData with
    | Some h => if Household.has_disabled_members h then score + 30 else score
    | None => score
    end in
  Math_min score maxScore.

Definition _determineRiskLevel (score : Q) : RiskLevel :=
  if Qgeb score (th_CRITICAL RISK_THRESHOLDS) then CRITICAL
  else if Qgeb score (th_HIGH RISK_THRESHOLDS) then HIGH
  else if Qgeb score (th_MODERATE RISK_THRESHOLDS) then MODERATE
  else LOW.

Definition push2_if (condition : bool) (x y : string) (array : list string)
  : list string :=
  if condition then array ++ [x] ++ [y] else array.

Definition _generateRecommendations (totalScore : Q)
    (householdScore economicScore socialScore healthScore : Z) : list string :=
  let recommendations := [] in
  let recommendations := push2_if (60 <=? economicScore)
      "CASH_TRANSFER_PROGRAM" "VOCATIONAL_TRAINING" recommendations in
  let recommendations := push2_if (50 <=? healthScore)
      "HEALTH_INSURANCE" "DISABILITY_SUPPORT" recommendations in
  let recommendations := push2_if (50 <=? socialScore)
      "EDUCATION_SUPPORT" "LITERACY_PROGRAM" recommendations in
  let recommendations := push2_if (60 <=? householdScore)
      "HOUSING_ASSISTANCE" "CHILDCARE_SUPPORT" recommendations in
  let recommendations := push2_if (Qgeb totalScore (th_CRITICAL RISK_THRESHOLDS))
      "PRIORITY_PROGRAM_ENROLLMENT" "INTENSIVE_CASE_MANAGEMENT" recommendations in
  recommendations.

(** [apiClient.get(...)] awaited inside a [try]. *)
Definition await {A : Type} (reply : Reply A) : Result (option A) :=
  match reply with
  | Resolved data => Ok data
  | Rejected error => Throw (Error (message error))
  end.

(** [getWeightingProfile()]; [reply] is what the GET does if it is sent.
    The result is the service after the call and the returned value. *)
Definition getWeightingProfile (this : Service) (reply : Reply WeightingProfile)
  : Service * Result WeightingProfile :=
  match cachedWeightingProfile this with
  | Some cached => (this, Ok cached)
  | None =>
      match await reply with
      | Ok (Some data) => ({| cachedWeightingProfile := Some data |}, Ok data)
      | Ok None => (this, Ok DEFAULT_WEIGHTING_PROFILE)
      | Throw error => (this, Ok DEFAULT_WEIGHTING_PROFILE)   (* catch *)
      end
  end.

Record LocalScore : Type := {
  vulnerability_score : Q;
  risk_level : RiskLevel;
  household_composition_score : Q;
  economic_vulnerability_score : Q;
  social_vulnerability_score : Q;
  health_vulnerability_score : Q;
  recommendations : list string;
  calculated_offline : bool
}.

(** The expression bound to [totalScore]. *)
Definition weightedTotal (weights : WeightingProfile)
    (householdScore economicScore socialScore healthScore : Q) : Q :=
  (householdScore * (household_composition_weight weights / 100) +
   economicScore * (economic_vulnerability_weight weights / 100) +
   socialScore * (social_vulnerability_weight weights / 100) +
   healthScore * (health_vulnerability_weight weights / 100))%Q.

(** The body of [calculateScoreLocally] once the profile is known. *)
Definition scoreWith (weights : WeightingProfile) (personData : Person.t)
    (householdData : option Household.t) : LocalScore :=
  let householdScore := _calculateHouseholdCompositionScore householdData in
  let economicScore := _calculateEconomicVulnerabilityScore personData householdData in
  let socialScore := _calculateSocialVulnerabilityScore personData in
  let healthScore := _calculateHealthVulnerabilityScore personData householdData in
  let totalScore :=
    weightedTotal weights (inject_Z householdScore) (inject_Z economicScore)
                  (inject_Z socialScore) (inject_Z healthScore) in
  let riskLevel := _determineRiskLevel totalScore in
  let recommendations :=
    _generateRecommendations totalScore householdScore economicScore
                             socialScore healthScore in
  {| vulnerability_score := toFixed2 totalScore;
     risk_level := riskLevel;
     household_composition_score := toFixed2 (inject_Z householdScore);
     economic_vulnerability_score := toFixed2 (inject_Z economicScore);
     social_vulnerability_score := toFixed2 (inject_Z socialScore);
     health_vulnerability_score := toFixed2 (inject_Z healthScore);
     recommendations := recommendations;
     calculated_offline := true |}.

(** [calculateScoreLocally(personData, householdData)]; the [catch]
    rethrows. *)
Definition calculateScoreLocally (this : Service) (reply : Reply WeightingProfile)
    (personData : Person.t) (householdData : option Household.t)
  : Service * Result LocalScore :=
  let '(this, weights) := getWeightingProfile this reply in
  (this,
   try_catch (bind weights (fun weights => Ok (scoreWith weights personData householdData)))
             (fun error => Throw error)).

(** *** Remote calculation with the local cache

    [Assessment] is a truthy [response.data]; [JSON_parse] is [None] when
    [JSON.parse] throws or yields a falsy value.  The device storage is a
    map from keys to strings; [disk_ok] tells whether AsyncStorage works
    during the call (storageService catches its failures). *)
Section Remote.

Variable Assessment : Type.
Variable JSON_stringify : Assessment -> string.
Variable JSON_parse : string -> option Assessment.

Record Request : Type := {
  person_id : string;
  force_recalculate : bool
}.

Inductive CalculateResult : Type :=
| Succeeded (assessment : Assessment) (fromCache : bool)   (* success: true *)
| Failed (error : string).                                 (* success: false *)

(** storageService.setItem / getItem *)
Definition setItem (disk_ok : bool) (key value : string)
    (storage : gmap string string) : gmap string string * bool :=
  if disk_ok then (<[key := value]> storage, true) else (storage, false).

Definition getItem (disk_ok : bool) (key : string)
    (storage : gmap string string) : option string :=
  if disk_ok then storage !! key else None.

(** [`assessment_${personId}`] *)
Definition assessment_key (personId : string) : string :=
  String.append "assessment_" personId.

Definition _cacheAssessment (disk_ok : bool) (personId : string)
    (assessment : Assessment) (storage : gmap string string)
  : gmap string string :=
  let key := assessment_key personId in
  fst (setItem disk_ok key (JSON_stringify assessment) storage).

Definition _getCachedAssessment (disk_ok : bool) (personId : string)
    (storage : gmap string string) : option Assessment :=
  let key := assessment_key personId in
  match getItem disk_ok key storage with
  | Some cached => if String.eqb cached "" then None else JSON_parse cached
  | None => None
  end.

(** [error.response?.data?.error || error.message] *)
Definition error_text (error : HttpError) : string :=
  match response_data_error error with
  | Some text => text
  | None => message error
  end.

(** [calculateVulnerabilityScore(personId, forceRecalculate)];
    [apiClient_post] is what the POST does for a given body. *)
Definition calculateVulnerabilityScore (apiClient_post : Request -> Reply Assessment)
    (disk_ok : bool) (storage : gmap string string)
    (personId : string) (forceRecalculate : bool)
  : gmap string string * CalculateResult :=
  match apiClient_post {| person_id := personId;
                          force_recalculate := forceRecalculate |} with
  | Resolved (Some data) =>
      (_cacheAssessment disk_ok personId data storage, Succeeded data false)
  | Resolved None => (storage, Failed "Réponse API invalide")
  | Rejected error =>
      match _getCachedAssessment disk_ok personId storage with
      | Some cached => (storage, Succeeded cached true)
      | None => (storage, Failed (error_text error))
      end
  end.

End Remote.

End ScoringApi.

(** ** Queue drain of the sync service *)

Module SyncQueue.

(** Modelled from the spec: the type tags of a queue item (spec 3,
    QueueItem); src/services/sync/syncService.js is not among the
    sources. *)
Inductive ItemType : Type :=
| CREATE_PERSON | UPDATE_PERSON | CREATE_HOUSEHOLD | SUBMIT_SURVEY | UPLOAD_DOCUMENT.

(** Modelled from the spec: the status of a queue item. *)
Inductive Status : Type := PENDING | IN_FLIGHT | FAILED | SYNCED.

(** Modelled from the spec: QueueItem. *)
Record QueueItem : Type := {
  id : nat;
  type : ItemType;
  payload : string;
  createdAt : Z;
  attempts : nat;
  status : Status
}.

(** Modelled from the spec: the summary returned by [drain()]. *)
Record Summary : Type := {
  synced : nat;
  failed : nat;
  total : nat
}.

(** Modelled from the spec: the remote call of one item resolves, or it
    rejects (network error, server error, timeout). *)
Inductive RemoteOutcome : Type :=
| Accepted
| Refused (reason : string).

Definition succeeds (o : RemoteOutcome) : bool :=
  match o with
  | Accepted => true
  | Refused _ => false
  end.

(** Modelled from the spec: [enqueue] of src/services/sync/syncService.js,
    which is not among the sources.  The item gets its [createdAt] and the
    status PENDING and is appended to the stored queue. *)
Definition enqueue (now : Z) (newId : nat) (t : ItemType) (data : string)
    (queue : list QueueItem) : list QueueItem :=
  queue ++ [{| id := newId; type := t; payload := data; createdAt := now;
               attempts := 0; status := PENDING |}].

(** Modelled from the spec: the items counted by [pendingCount()] and
    picked up by [drain()], those with status PENDING or FAILED. *)
Definition eligible (item : QueueItem) : bool :=
  match status item with
  | PENDING | FAILED => true
  | IN_FLIGHT | SYNCED => false
  end.

Definition with_status (s : Status) (item : QueueItem) : QueueItem :=
  {| id := id item; type := type item; payload := payload item;
     createdAt := createdAt item; attempts := attempts item; status := s |}.

(** Modelled from the spec: on failure increment [attempts], set status
    FAILED. *)
Definition mark_failed (item : QueueItem) : QueueItem :=
  {| id := id item; type := type item; payload := payload item;
     createdAt := createdAt item; attempts := S (attempts item); status := FAILED |}.

(** Modelled from the spec: the awaited remote call of an item in flight;
    a rejection is an exception at the [await]. *)
Definition submit (remote : QueueItem -> RemoteOutcome) (item : QueueItem)
  : Result unit :=
  match remote item with
  | Accepted => Ok tt
  | Refused reason => Throw (Error reason)
  end.

(** Modelled from the spec: the loop of [drain()], the [processQueue] of
    src/services/sync/syncService.js, which is not among the sources.
    Items are taken in queue order; an eligible item goes IN_FLIGHT and is
    submitted; on success it is deleted, on failure its [attempts] grows
    by one, it becomes FAILED and the loop goes on.  The result is the
    stored queue after the pass and the three counters. *)
Fixpoint drain_loop (remote : QueueItem -> RemoteOutcome) (queue : list QueueItem)
    (kept : list QueueItem) (acc : Summary) : Result (list QueueItem * Summary) :=
  match queue with
  | [] => Ok (kept, acc)
  | item :: rest =>
      if eligible item then
        let inFlight := with_status IN_FLIGHT item in
        bind (try_catch
                (bind (submit remote item) (fun _ =>
                   Ok (kept, {| synced := S (synced acc); failed := failed acc;
                                total := S (total acc) |})))
                (fun error =>
                   Ok (kept ++ [mark_failed inFlight],
                       {| synced := synced acc; failed := S (failed acc);
                          total := S (total acc) |})))
             (fun '(kept, acc) => drain_loop remote rest kept acc)
      else drain_loop remote rest (kept ++ [item]) acc
  end.

(** Modelled from the spec: [drain()]; it starts from the stored queue
    with the three counters at zero. *)
Definition drain (remote : QueueItem -> RemoteOutcome) (queue : list QueueItem)
  : Result (list QueueItem * Summary) :=
  drain_loop remote queue [] {| synced := 0; failed := 0; total := 0 |}.

(** Modelled from the spec: [pendingCount()] of the same absent file. *)
Definition pendingCount (queue : list QueueItem) : nat :=
  length (List.filter eligible queue).

End SyncQueue.

(** ** The useOffline hook (src/hooks/useOffline.js)

    The hook is a transition system.  Its React state is [isConnected],
    [isInternetReachable], [pendingCount] and [syncing]; [inFlight] counts
    the calls of [syncService.processQueue()] that have not settled, and
    [finishing] the calls of [syncQueue] that wait for [loadPendingCount]
    before their [finally].  Every event sees the state left by the
    previous one: a render is committed between two events. *)

Module OfflineHook.

Record Hook : Type := {
  isConnected : bool;
  isInternetReachable : bool;
  pendingCount : nat;
  syncing : bool;
  inFlight : nat;
  finishing : nat
}.

(** The initial values given to [useState]. *)
Definition initial : Hook := {|
  isConnected := true;
  isInternetReachable := true;
  pendingCount := 0;
  syncing := false;
  inFlight := 0;
  finishing := 0
|}.

Inductive Event : Type :=
| ConnectionChange (state_isConnected : bool) (state_isInternetReachable : option bool)
| TimerLoadedPendingCount (count : nat)      (* loadPendingCount of the interval *)
| AutoSyncEffect                             (* the second useEffect runs *)
| SyncQueueCalled                            (* the returned syncQueue is called *)
| ProcessQueueResolved                       (* await processQueue() returns *)
| ProcessQueueRejected                       (* await processQueue() throws *)
| SyncLoadedPendingCount (count : nat).      (* await loadPendingCount() returns *)

Definition handleConnectionChange (state_isConnected : bool)
    (state_isInternetReachable : option bool) (h : Hook) : Hook :=
  {| isConnected := state_isConnected;
     isInternetReachable :=
       match state_isInternetReachable with
       | Some false => false        (* state.isInternetReachable !== false *)
       | _ => true
       end;
     pendingCount := pendingCount h;
     syncing := syncing h;
     inFlight := inFlight h;
     finishing := finishing h |}.

Definition setPendingCount (count : nat) (h : Hook) : Hook :=
  {| isConnected := isConnected h;
     isInternetReachable := isInternetReachable h;
     pendingCount := count;
     syncing := syncing h;
     inFlight := inFlight h;
     finishing := finishing h |}.

Definition setSyncing (b : bool) (h : Hook) : Hook :=
  {| isConnected := isConnected h;
     isInternetReachable := isInternetReachable h;
     pendingCount := pendingCount h;
     syncing := b;
     inFlight := inFlight h;
     finishing := finishing h |}.

Definition with_calls (running waiting : nat) (h : Hook) : Hook :=
  {| isConnected := isConnected h;
     isInternetReachable := isInternetReachable h;
     pendingCount := pendingCount h;
     syncing := syncing h;
     inFlight := running;
     finishing := waiting |}.

(** [syncQueue] up to its first suspension: without connection it returns
    an error object; otherwise it sets the flag and calls
    [syncService.processQueue()]. *)
Definition syncQueue (h : Hook) : Hook :=
  if negb (isConnected h) || negb (isInternetReachable h) then h
  else with_calls (S (inFlight h)) (finishing h) (setSyncing true h).

(** The body of the second [useEffect]. *)
Definition autoSyncEffect (autoSync : bool) (h : Hook) : Hook :=
  if isConnected h && isInternetReachable h && autoSync
     && (0 <? pendingCount h)%nat && negb (syncing h)
  then syncQueue h
  else h.

Definition step (autoSync : bool) (h : Hook) (e : Event) : Hook :=
  match e with
  | ConnectionChange c r => handleConnectionChange c r h
  | TimerLoadedPendingCount count => setPendingCount count h
  | AutoSyncEffect => autoSyncEffect autoSync h
  | SyncQueueCalled => syncQueue h
  | ProcessQueueResolved =>
      match inFlight h with
      | O => h
      | S running => with_calls running (S (finishing h)) h
      end
  | ProcessQueueRejected =>
      match inFlight h with
      | O => h
      | S running => setSyncing false (with_calls running (finishing h) h)
      end
  | SyncLoadedPendingCount count =>
      match finishing h with
      | O => h
      | S waiting => setSyncing false (setPendingCount count (with_calls (inFlight h) waiting h))
      end
  end.

Definition run (autoSync : bool) (h : Hook) (events : list Event) : Hook :=
  fold_left (step autoSync) events h.

(** Calls of [syncQueue] that have started and not reached their end. *)
Definition drainsInProgress (h : Hook) : nat := (inFlight h + finishing h)%nat.

Definition is_direct_call (e : Event) : bool :=
  match e with
  | SyncQueueCalled => true
  | _ => false
  end.

End OfflineHook.

(** ** Vocabulary of the properties and sample data *)

Definition in_range (s : Q) : Prop := (0 <= s <= 100)%Q.

Definition int_in_range (s : Z) : Prop := 0 <= s <= 100.

(** Four-dimension profile: percentages. *)
Definition sums_to_100 (w : ScoringApi.WeightingProfile) : Prop :=
  (ScoringApi.household_composition_weight w + ScoringApi.economic_vulnerability_weight w
   + ScoringApi.social_vulnerability_weight w + ScoringApi.health_vulnerability_weight w
   == 100)%Q.

Definition nonnegative (w : ScoringApi.WeightingProfile) : Prop :=
  (0 <= ScoringApi.household_composition_weight w
   /\ 0 <= ScoringApi.economic_vulnerability_weight w
   /\ 0 <= ScoringApi.social_vulnerability_weight w
   /\ 0 <= ScoringApi.health_vulnerability_weight w)%Q.

(** Five-dimension weights: fractions of one. *)
Definition sums_to_1 (w : ScoringComplete.Weights) : Prop :=
  (ScoringComplete.w_economic w + ScoringComplete.w_housing w
   + ScoringComplete.w_health w + ScoringComplete.w_education w
   + ScoringComplete.w_social w == 1)%Q.

Definition nonnegative_fractions (w : ScoringComplete.Weights) : Prop :=
  (0 <= ScoringComplete.w_economic w /\ 0 <= ScoringComplete.w_housing w
   /\ 0 <= ScoringComplete.w_health w /\ 0 <= ScoringComplete.w_education w
   /\ 0 <= ScoringComplete.w_social w)%Q.

Definition scores_in_range (d : ScoringComplete.DimensionScores) : Prop :=
  in_range (ScoringComplete.economic d) /\ in_range (ScoringComplete.housing d)
  /\ in_range (ScoringComplete.health d) /\ in_range (ScoringComplete.education d)
  /\ in_range (ScoringComplete.social d).

Definition canonical (t : Thresholds) : Prop :=
  (th_CRITICAL t == 80 /\ th_HIGH t == 60 /\ th_MODERATE t == 40)%Q.

(** Two outcomes of the five-dimension [calculateVulnerabilityScore] agree
    in every field other than [calculatedAt]. *)
Definition same_except_calculatedAt
    (r1 r2 : Result ScoringComplete.Score) : Prop :=
  match r1, r2 with
  | Ok a, Ok b =>
      ScoringComplete.score a = ScoringComplete.score b
      /\ ScoringComplete.level a = ScoringComplete.level b
      /\ ScoringComplete.dimensions a = ScoringComplete.dimensions b
      /\ ScoringComplete.factors a = ScoringComplete.factors b
      /\ ScoringComplete.recommendations a = ScoringComplete.recommendations b
  | Throw e1, Throw e2 => e1 = e2
  | _, _ => False
  end.

(** The person's computed age is on the same side of 65 at both dates. *)
Definition same_age_class (now1 now2 : ScoringComplete.Clock)
    (person : ScoringComplete.Person.t) : Prop :=
  ScoringComplete.age_ge
    (ScoringComplete.calculateAge now1 (ScoringComplete.Person.birthDate person)) 65
  = ScoringComplete.age_ge
      (ScoringComplete.calculateAge now2 (ScoringComplete.Person.birthDate person)) 65.

(** What a drain leaves in the queue and what it counts. *)
Definition survivors (remote : SyncQueue.QueueItem -> SyncQueue.RemoteOutcome)
    (queue : list SyncQueue.QueueItem) : list SyncQueue.QueueItem :=
  flat_map (fun item =>
              if SyncQueue.eligible item
              then if SyncQueue.succeeds (remote item) then []
                   else [SyncQueue.mark_failed item]
              else [item]) queue.

Definition count_synced (remote : SyncQueue.QueueItem -> SyncQueue.RemoteOutcome)
    (queue : list SyncQueue.QueueItem) : nat :=
  length (List.filter (fun item => SyncQueue.eligible item
                                   && SyncQueue.succeeds (remote item)) queue).

Definition count_failed (remote : SyncQueue.QueueItem -> SyncQueue.RemoteOutcome)
    (queue : list SyncQueue.QueueItem) : nat :=
  length (List.filter (fun item => SyncQueue.eligible item
                                   && negb (SyncQueue.succeeds (remote item))) queue).

Definition count_processed (queue : list SyncQueue.QueueItem) : nat :=
  length (List.filter SyncQueue.eligible queue).

(** The hook's flag tells exactly whether a drain is in progress. *)
Definition flag_tracks_drain (h : OfflineHook.Hook) : Prop :=
  OfflineHook.drainsInProgress h = if OfflineHook.syncing h then 1%nat else 0%nat.

Definition no_direct_call (events : list OfflineHook.Event) : Prop :=
  forallb (fun e => negb (OfflineHook.is_direct_call e)) events = true.

Module Sample.

(** A profile whose weights sum to 100 with a negative entry. *)
Definition skewed_profile : ScoringApi.WeightingProfile := {|
  ScoringApi.household_composition_weight := 150;
  ScoringApi.economic_vulnerability_weight := -50;
  ScoringApi.social_vulnerability_weight := 0;
  ScoringApi.health_vulnerability_weight := 0
|}.

(** A large household with every vulnerable-member flag set and a high
    income per person: household score 100, economic score 0. *)
Definition large_household : ScoringApi.Household.t := {|
  ScoringApi.Household.household_size := Some 10%Q;
  ScoringApi.Household.has_disabled_members := true;
  ScoringApi.Household.has_elderly_members := true;
  ScoringApi.Household.has_children_under_5 := true;
  ScoringApi.Household.has_pregnant_women := true;
  ScoringApi.Household.dependency_ratio := Some 2%Q;
  ScoringApi.Household.total_monthly_income := Some 3000000%Q;
  ScoringApi.Household.housing_type := None
|}.

Definition adult : ScoringApi.Person.t := {|
  ScoringApi.Person.employment_status := None;
  ScoringApi.Person.education_level := None;
  ScoringApi.Person.gender := None;
  ScoringApi.Person.marital_status := None;
  ScoringApi.Person.disability_status := None;
  ScoringApi.Person.age := Some 30%Q
|}.

Definition offline : ScoringApi.Reply ScoringApi.WeightingProfile :=
  ScoringApi.Rejected {| ScoringApi.response_data_error := None;
                         ScoringApi.message := "Network Error" |}.

(** Five-dimension inputs. *)
Definition plain_household : ScoringComplete.Household.t := {|
  ScoringComplete.Household.monthlyIncome := None;
  ScoringComplete.Household.householdSize := None;
  ScoringComplete.Household.dependents := None;
  ScoringComplete.Household.hasSavings := false;
  ScoringComplete.Household.housingType := None;
  ScoringComplete.Household.hasElectricity := ScoringComplete.Absent;
  ScoringComplete.Household.hasRunningWater := ScoringComplete.Absent;
  ScoringComplete.Household.numberOfRooms := None;
  ScoringComplete.Household.hasToilet := true;
  ScoringComplete.Household.hasChronicIllness := false;
  ScoringComplete.Household.hasDisability := false;
  ScoringComplete.Household.hasHealthInsurance := false;
  ScoringComplete.Household.hasMalnutrition := false;
  ScoringComplete.Household.healthCenterDistance := None;
  ScoringComplete.Household.childrenOutOfSchool := None;
  ScoringComplete.Household.hasUnpaidSchoolFees := false;
  ScoringComplete.Household.isSociallyIsolated := false;
  ScoringComplete.Household.isSingleParent := false;
  ScoringComplete.Household.hasFamilySupport := false
|}.

Definition born (year month day : Z) : ScoringComplete.Person.t := {|
  ScoringComplete.Person.occupationStatus := None;
  ScoringComplete.Person.educationLevel := None;
  ScoringComplete.Person.isIlliterate := false;
  ScoringComplete.Person.hasChronicIllness := false;
  ScoringComplete.Person.hasDisability := false;
  ScoringComplete.Person.birthDate := ScoringComplete.BirthOn year month day
|}.

(** Born 1 January 1950 and 1 January 1960 (months count from 0). *)
Definition elder : ScoringComplete.Person.t := born 1950 0 1.
Definition sixties : ScoringComplete.Person.t := born 1960 0 1.

(** 31 December 2024 and 1 January 2025, at noon. *)
Definition last_day_2024 : ScoringComplete.Clock := {|
  ScoringComplete.fullYear := 2024;
  ScoringComplete.month := 11;
  ScoringComplete.date := 31;
  ScoringComplete.isoString := "2024-12-31T12:00:00.000Z"
|}.

Definition first_day_2025 : ScoringComplete.Clock := {|
  ScoringComplete.fullYear := 2025;
  ScoringComplete.month := 0;
  ScoringComplete.date := 1;
  ScoringComplete.isoString := "2025-01-01T12:00:00.000Z"
|}.

(** A profile with three-decimal weights (they sum to 100). *)
Definition fine_profile : ScoringApi.WeightingProfile := {|
  ScoringApi.household_composition_weight := 79.996;
  ScoringApi.economic_vulnerability_weight := 20.004;
  ScoringApi.social_vulnerability_weight := 0;
  ScoringApi.health_vulnerability_weight := 0
|}.

(** Items A, B, C enqueued at times 1, 2, 3, and a backend that always
    refuses B. *)
Definition queue_ABC : list SyncQueue.QueueItem :=
  SyncQueue.enqueue 3 3 SyncQueue.SUBMIT_SURVEY "C"
    (SyncQueue.enqueue 2 2 SyncQueue.CREATE_HOUSEHOLD "B"
       (SyncQueue.enqueue 1 1 SyncQueue.CREATE_PERSON "A" [])).

Definition refuses_B (item : SyncQueue.QueueItem) : SyncQueue.RemoteOutcome :=
  if Nat.eqb (SyncQueue.id item) 2 then SyncQueue.Refused "Network Error"
  else SyncQueue.Accepted.

Definition network_down : ScoringApi.HttpError :=
  {| ScoringApi.response_data_error := None; ScoringApi.message := "Network Error" |}.

End Sample.

(** ** Further vocabulary: factors and recommendations *)

(** [this.RISK_FACTORS] of the five-dimension service, set in the
    constructor: the factor names declared for each category. *)
Definition RISK_FACTORS : list (string * list string) :=
  [("economic", ["unemployment"; "low_income"; "no_savings";
                 "multiple_dependents"; "informal_work"; "debt"]);
   ("housing", ["no_electricity"; "no_water"; "overcrowding";
                "precarious_housing"; "no_sanitation"; "flood_risk"]);
   ("health", ["chronic_illness"; "disability"; "no_health_insurance";
               "malnutrition"; "no_medical_access"; "pregnancy_risk"]);
   ("education", ["no_education"; "school_dropout"; "illiteracy";
                  "children_out_of_school"; "no_vocational_training"]);
   ("social", ["social_isolation"; "single_parent"; "elderly_alone";
               "no_family_support"; "discrimination"; "displaced"])].

Definition declared_factors : list string := flat_map snd RISK_FACTORS.

(** The names [identifyRiskFactors] can push, in the order of its tests. *)
Definition pushed_factors : list string :=
  ["extreme_poverty"; "unemployment"; "multiple_dependents";
   "no_electricity"; "no_water"; "precarious_housing";
   "chronic_illness"; "disability"; "no_health_insurance";
   "no_education"; "children_out_of_school";
   "single_parent"; "social_isolation"].

(** The first entries of [generateRecommendations], chosen by the level. *)
Definition baseline (riskLevel : RiskLevel) : list string :=
  match riskLevel with
  | CRITICAL => ["Priorité 1: Assistance immédiate requise";
                 "Inscription urgente aux programmes sociaux";
                 "Suivi rapproché mensuel"]
  | HIGH => ["Priorité 2: Intervention nécessaire";
             "Évaluation approfondie des besoins";
             "Orientation vers programmes adaptés"]
  | MODERATE => ["Priorité 3: Surveillance régulière";
                 "Accès aux services de prévention"]
  | LOW => ["Suivi standard"]
  end.

Definition factor_recommendations : list string :=
  ["Programme insertion professionnelle"; "Programme alphabétisation";
   "Aide à la scolarisation"; "Couverture santé prioritaire"].

(** The codes [_generateRecommendations] can push, in order. *)
Definition recommendation_codes : list string :=
  ["CASH_TRANSFER_PROGRAM"; "VOCATIONAL_TRAINING";
   "HEALTH_INSURANCE"; "DISABILITY_SUPPORT";
   "EDUCATION_SUPPORT"; "LITERACY_PROGRAM";
   "HOUSING_ASSISTANCE"; "CHILDCARE_SUPPORT";
   "PRIORITY_PROGRAM_ENROLLMENT"; "INTENSIVE_CASE_MANAGEMENT"].

(** The five dimensions, and the score of each as computed by the
    five-dimension service. *)
Inductive Dimension : Type := Economic | Housing | Health | Education | Social.

Definition dimension_score (today : ScoringComplete.Clock)
    (person : ScoringComplete.Person.t) (household : ScoringComplete.Household.t)
    (dimension : Dimension) : Result Z :=
  match dimension with
  | Economic => Ok (ScoringComplete.calculateEconomicScore person household)
  | Housing => Ok (ScoringComplete.calculateHousingScore household)
  | Health => Ok (ScoringComplete.calculateHealthScore person household)
  | Education => Ok (ScoringComplete.calculateEducationScore person household)
  | Social => ScoringComplete.calculateSocialScore today person household
  end.

(** For each factor name, the dimension whose score counts the same fact
    and the least score that dimension then has. *)
Definition factor_floor (factor : string) : option (Dimension * Z) :=
  if String.eqb factor "extreme_poverty" then Some (Economic, 40)
  else if String.eqb factor "unemployment" then Some (Economic, 35)
  else if String.eqb factor "multiple_dependents" then Some (Economic, 30)
  else if String.eqb factor "no_electricity" then Some (Housing, 25)
  else if String.eqb factor "no_water" then Some (Housing, 25)
  else if String.eqb factor "precarious_housing" then Some (Housing, 30)
  else if String.eqb factor "chronic_illness" then Some (Health, 25)
  else if String.eqb factor "disability" then Some (Health, 20)
  else if String.eqb factor "no_health_insurance" then Some (Health, 20)
  else if String.eqb factor "no_education" then Some (Education, 30)
  else if String.eqb factor "children_out_of_school" then Some (Education, 15)
  else if String.eqb factor "single_parent" then Some (Social, 25)
  else if String.eqb factor "social_isolation" then Some (Social, 30)
  else None.

(** The household size read by [calculateEconomicScore] is positive. *)
Definition positive_size (household : ScoringComplete.Household.t) : Prop :=
  0 < int_or (ScoringComplete.Household.householdSize household) 1.

(** ** Further vocabulary: income, dates, sequences of calls *)

(** The same household with another [total_monthly_income]. *)
Definition with_total_monthly_income (income : Q) (h : ScoringApi.Household.t)
  : ScoringApi.Household.t :=
  {| ScoringApi.Household.household_size := ScoringApi.Household.household_size h;
     ScoringApi.Household.has_disabled_members := ScoringApi.Household.has_disabled_members h;
     ScoringApi.Household.has_elderly_members := ScoringApi.Household.has_elderly_members h;
     ScoringApi.Household.has_children_under_5 := ScoringApi.Household.has_children_under_5 h;
     ScoringApi.Household.has_pregnant_women := ScoringApi.Household.has_pregnant_women h;
     ScoringApi.Household.dependency_ratio := ScoringApi.Household.dependency_ratio h;
     ScoringApi.Household.total_monthly_income := Some income;
     ScoringApi.Household.housing_type := ScoringApi.Household.housing_type h |}.

(** The household size read by [_calculateEconomicVulnerabilityScore] is
    positive. *)
Definition positive_household_size (h : ScoringApi.Household.t) : Prop :=
  (0 < num_or (ScoringApi.Household.household_size h) 1)%Q.

(** Calendar order of two clock readings. *)
Definition date_le (a b : ScoringComplete.Clock) : Prop :=
  ScoringComplete.fullYear a < ScoringComplete.fullYear b
  \/ (ScoringComplete.fullYear a = ScoringComplete.fullYear b
      /\ (ScoringComplete.month a < ScoringComplete.month b
          \/ (ScoringComplete.month a = ScoringComplete.month b
              /\ ScoringComplete.date a <= ScoringComplete.date b))).

(** Order of two computed ages; NaN is comparable with NaN only. *)
Definition age_le (a b : option Z) : Prop :=
  match a, b with
  | Some x, Some y => x <= y
  | None, None => True
  | _, _ => False
  end.

(** The service after a sequence of [getWeightingProfile] calls, given what
    the GET would do at each call. *)
Definition after_calls (this : ScoringApi.Service)
    (replies : list (ScoringApi.Reply ScoringApi.WeightingProfile))
  : ScoringApi.Service :=
  fold_left (fun service reply => fst (ScoringApi.getWeightingProfile service reply))
            replies this.

(** The data of the first reply that resolves with data. *)
Fixpoint first_fetched (replies : list (ScoringApi.Reply ScoringApi.WeightingProfile))
  : option ScoringApi.WeightingProfile :=
  match replies with
  | [] => None
  | ScoringApi.Resolved (Some data) :: _ => Some data
  | _ :: rest => first_fetched rest
  end.

(** ** Further vocabulary: the hook *)

(** [isOnline] as the hook returns it. *)
Definition isOnline (h : OfflineHook.Hook) : bool :=
  OfflineHook.isConnected h && OfflineHook.isInternetReachable h.

Definition is_connection_change (e : OfflineHook.Event) : bool :=
  match e with
  | OfflineHook.ConnectionChange _ _ => true
  | _ => false
  end.

(** No event of the sequence reports a change of connectivity. *)
Definition no_connection_change (events : list OfflineHook.Event) : Prop :=
  forallb (fun e => negb (is_connection_change e)) events = true.

(** No call of [syncQueue] is under way and the flag is down. *)
Definition idle (h : OfflineHook.Hook) : Prop :=
  OfflineHook.inFlight h = 0%nat /\ OfflineHook.finishing h = 0%nat
  /\ OfflineHook.syncing h = false.

(** ** The form wizard (FormWizard component)

    The component is a transition system over its React state
    [currentStep], [formData], [stepValidation] and [loading]; the calls of
    [onComplete] and the titles of the alerts are recorded.  Every event
    sees the state left by the previous one.  A step index is an integer. *)

Module FormWizard.

(** What a step's [validate] resolves with: a boolean, a value with a
    [valid] field (taken for its truthiness), or null / undefined. *)
Inductive ValidationResult : Type :=
| BooleanResult (b : bool)
| ObjectResult (valid : bool)
| NullishResult.

Section Wizard.

Variable FormData : Type.
Variable StepData : Type.
(** [{...formData, ...stepData}] *)
Variable spread : FormData -> StepData -> FormData.

Record StepConfig : Type := {
  validate : option (FormData -> Result ValidationResult)
}.

(** The props read by the navigation. *)
Record Props : Type := {
  steps : list StepConfig;
  onComplete : option (FormData -> Result unit);
  allowBackNavigation : bool
}.

Record Wizard : Type := {
  currentStep : nat;
  formData : FormData;
  stepValidation : gmap nat ValidationResult;
  loading : bool;
  completions : list FormData;      (* the arguments of the calls of onComplete *)
  alerts : list string              (* the titles given to Alert.alert *)
}.

(** The initial values given to [useState]. *)
Definition mount (initialData : FormData) : Wizard := {|
  currentStep := 0;
  formData := initialData;
  stepValidation := ∅;
  loading := false;
  completions := [];
  alerts := []
|}.

Definition setCurrentStep (n : nat) (w : Wizard) : Wizard :=
  {| currentStep := n; formData := formData w; stepValidation := stepValidation w;
     loading := loading w; completions := completions w; alerts := alerts w |}.

Definition setFormData (d : FormData) (w : Wizard) : Wizard :=
  {| currentStep := currentStep w; formData := d; stepValidation := stepValidation w;
     loading := loading w; completions := completions w; alerts := alerts w |}.

Definition setStepValidation (v : gmap nat ValidationResult) (w : Wizard) : Wizard :=
  {| currentStep := currentStep w; formData := formData w; stepValidation := v;
     loading := loading w; completions := completions w; alerts := alerts w |}.

Definition setLoading (b : bool) (w : Wizard) : Wizard :=
  {| currentStep := currentStep w; formData := formData w;
     stepValidation := stepValidation w;
     loading := b; completions := completions w; alerts := alerts w |}.

Definition alert (title : string) (w : Wizard) : Wizard :=
  {| currentStep := currentStep w; formData := formData w;
     stepValidation := stepValidation w;
     loading := loading w; completions := completions w; alerts := alerts w ++ [title] |}.

Definition called_onComplete (w : Wizard) : Wizard :=
  {| currentStep := currentStep w; formData := formData w;
     stepValidation := stepValidation w;
     loading := loading w; completions := completions w ++ [formData w];
     alerts := alerts w |}.

Variable props : Props.

Definition totalSteps : nat := length (steps props).

Definition isFirstStep (w : Wizard) : bool := Nat.eqb (currentStep w) 0.

(** [currentStep === totalSteps - 1]; with no step at all the right-hand
    side is -1. *)
Definition isLastStep (w : Wizard) : bool :=
  match totalSteps with
  | O => false
  | S last => Nat.eqb (currentStep w) last
  end.

(** [typeof result === 'boolean' ? result : result.valid]; reading [valid]
    off null or undefined throws. *)
Definition validity (result : ValidationResult) : Result bool :=
  match result with
  | BooleanResult b => Ok b
  | ObjectResult valid => Ok valid
  | NullishResult => Throw (Error "Cannot read properties of null")
  end.

(** [validateCurrentStep]: the state after the call and the returned
    boolean.  Reading [validate] off a missing step configuration happens
    before the [try] and throws. *)
Definition validateCurrentStep (w : Wizard) : Result (Wizard * bool) :=
  match steps props !! currentStep w with
  | None => Throw (Error "Cannot read properties of undefined")
  | Some currentStepConfig =>
      match validate currentStepConfig with
      | None => Ok (w, true)
      | Some validateFn =>
          let w := setLoading true w in
          match validateFn (formData w) with
          | Ok result =>
              let w :=
                setStepValidation
                  (<[currentStep w :=
                       match result with
                       | BooleanResult b => BooleanResult b    (* { valid: result } *)
                       | other => other
                       end]> (stepValidation w)) w in
              match validity result with
              | Ok valid => Ok (setLoading false w, valid)
              | Throw error => Ok (setLoading false w, false)     (* catch *)
              end
          | Throw error => Ok (setLoading false w, false)         (* catch *)
          end
      end
  end.

(** [validateAllSteps]: the loop over the steps, on the current data. *)
Fixpoint validateAllSteps_from (remaining : list StepConfig) (data : FormData)
  : Result bool :=
  match remaining with
  | [] => Ok true
  | stepConfig :: rest =>
      match validate stepConfig with
      | None => validateAllSteps_from rest data
      | Some validateFn =>
          bind (validateFn data) (fun result =>
          bind (validity result) (fun isValid =>
          if isValid then validateAllSteps_from rest data else Ok false))
      end
  end.

Definition validateAllSteps (w : Wizard) : Result bool :=
  validateAllSteps_from (steps props) (formData w).

(** [handleComplete]: everything happens inside its [try]. *)
Definition handleComplete (w : Wizard) : Wizard :=
  let w := setLoading true w in
  let w :=
    match validateAllSteps w with
    | Ok false => alert "Formulaire Incomplet" w
    | Ok true =>
        match onComplete props with
        | Some callback =>
            let w := called_onComplete w in
            match callback (formData w) with
            | Ok _ => alert "Succès" w
            | Throw error => alert "Erreur" w
            end
        | None => alert "Succès" w
        end
    | Throw error => alert "Erreur" w
    end in
  setLoading false w.

Definition goToNextStep (w : Wizard) : Result Wizard :=
  bind (validateCurrentStep w) (fun '(w, isValid) =>
    if negb isValid then Ok (alert "Validation Échouée" w)
    else if isLastStep w then Ok (handleComplete w)
    else Ok (setCurrentStep (currentStep w + 1) w)).

Definition goToPreviousStep (w : Wizard) : Wizard :=
  if negb (isFirstStep w) && allowBackNavigation props
  then setCurrentStep (currentStep w - 1) w
  else w.

Definition jumpToStep (stepIndex : Z) (w : Wizard) : Wizard :=
  if (0 <=? stepIndex) && (stepIndex <? Z.of_nat totalSteps)
  then setCurrentStep (Z.to_nat stepIndex) w
  else w.

Definition updateFormData (stepData : StepData) (w : Wizard) : Wizard :=
  setFormData (spread (formData w) stepData) w.

Inductive Event : Type :=
| Next                         (* goToNextStep *)
| Previous                     (* goToPreviousStep *)
| Jump (stepIndex : Z)         (* jumpToStep *)
| Update (stepData : StepData). (* updateFormData *)

Definition step (w : Wizard) (e : Event) : Result Wizard :=
  match e with
  | Next => goToNextStep w
  | Previous => Ok (goToPreviousStep w)
  | Jump stepIndex => Ok (jumpToStep stepIndex w)
  | Update stepData => Ok (updateFormData stepData w)
  end.

Fixpoint run (w : Wizard) (events : list Event) : Result Wizard :=
  match events with
  | [] => Ok w
  | e :: rest => bind (step w e) (fun w => run w rest)
  end.

(** Every validator accepts the data. *)
Definition accepted_by_all (data : FormData) : Prop :=
  Forall (fun stepConfig =>
            match validate stepConfig with
            | None => True
            | Some validateFn =>
                exists result, validateFn data = Ok result /\ validity result = Ok true
            end) (steps props).

Definition is_jump (e : Event) : bool :=
  match e with
  | Jump _ => true
  | _ => false
  end.

(** Every call of [onComplete] so far got data accepted by all. *)
Definition all_accepted (w : Wizard) : Prop :=
  Forall accepted_by_all (completions w).

End Wizard.

End FormWizard.

(** A two-step wizard over numbers: the first step wants a positive
    number, the second has no validator. *)
Module WizardSample.

Definition props : FormWizard.Props nat := {|
  FormWizard.steps :=
    [ {| FormWizard.validate := Some (fun data => Ok (FormWizard.BooleanResult (Nat.ltb 0 data))) |};
      {| FormWizard.validate := None |} ];
  FormWizard.onComplete := Some (fun _ => Ok tt);
  FormWizard.allowBackNavigation := false
|}.

Definition replace (old new : nat) : nat := new.

Definition session : list (FormWizard.Event nat) :=
  [FormWizard.Next nat; FormWizard.Update nat 5%nat; FormWizard.Next nat;
   FormWizard.Previous nat; FormWizard.Next nat].

End WizardSample.

(** ** Offline documents of the camera service (cameraService.js)

    The storage is the map used by the scoring cache, through the same
    storageService.  [Json] is a value returned by [JSON.parse] and
    [JSValue] a value read off it; [clock n] is the text of [Date.now()]
    and of [toISOString()] at the n-th call of [_saveForOfflineSync]. *)

Module CameraService.

(** storageService.removeItem / getAllKeys *)
Definition removeItem (disk_ok : bool) (key : string) (storage : gmap string string)
  : gmap string string * bool :=
  if disk_ok then (delete key storage, true) else (storage, false).

Definition getAllKeys (disk_ok : bool) (storage : gmap string string) : list string :=
  if disk_ok then map fst (map_to_list storage) else [].

(** [key.startsWith('offline_document_')] *)
Definition is_document_key (key : string) : bool :=
  String.prefix "offline_document_" key.

Inductive UploadResult (Upload : Type) : Type :=
| Uploaded (data : Upload)               (* success: true *)
| InvalidResponse                        (* success: false, no data in the response *)
| NotUploaded (error : string).          (* success: false, savedOffline: true *)
Arguments Uploaded {Upload} data.
Arguments InvalidResponse {Upload}.
Arguments NotUploaded {Upload} error.

Inductive SyncResult : Type :=
| NothingPending                              (* success: true, synced: 0, message *)
| Summary (synced failed total : nat)         (* success: true *)
| SyncError (error : string).                 (* success: false *)

Section Camera.

Variable Json : Type.
Variable JSValue : Type.
Variable Upload : Type.
(** [JSON.parse(text)]; [None] when it throws. *)
Variable JSON_parse : string -> option Json.
(** [data.image] and [data.personId]; [None] when [data] is null and the
    reading throws. *)
Variable read_fields : Json -> option (JSValue * JSValue).
(** The value is neither undefined nor null: reading a property off it
    does not throw. *)
Variable not_nullish : JSValue -> bool.
(** [JSON.stringify({ image, personId, timestamp, synced: false })] *)
Variable stringify_document : JSValue -> JSValue -> string -> string.
Variable clock : nat -> string * string.
Variable apiClient_post : JSValue -> JSValue -> ScoringApi.Reply Upload.
Variable disk_ok : bool.

(** The storage and the number of calls of [_saveForOfflineSync] so far. *)
Record Device : Type := {
  storage : gmap string string;
  saves : nat
}.

Definition _saveForOfflineSync (image personId : JSValue) (device : Device) : Device :=
  let '(now, iso) := clock (saves device) in
  let key := String.append "offline_document_" now in
  {| storage := fst (ScoringApi.setItem disk_ok key
                       (stringify_document image personId iso) (storage device));
     saves := S (saves device) |}.

(** [uploadDocument(image, personId)]: reading [image.uri] throws when
    [image] is undefined or null, and so does a rejected POST; the [catch]
    saves the document again. *)
Definition uploadDocument (image personId : JSValue) (device : Device)
  : Device * UploadResult Upload :=
  if not_nullish image then
    match apiClient_post image personId with
    | ScoringApi.Resolved (Some data) => (device, Uploaded data)
    | ScoringApi.Resolved None => (device, InvalidResponse)
    | ScoringApi.Rejected error =>
        (_saveForOfflineSync image personId device,
         NotUploaded (ScoringApi.message error))
    end
  else (_saveForOfflineSync image personId device,
        NotUploaded "Cannot read properties of undefined").

Definition success (result : UploadResult Upload) : bool :=
  match result with
  | Uploaded _ => true
  | _ => false
  end.

(** The loop of [getPendingDocuments]; [None] when [JSON.parse] throws. *)
Fixpoint collect_documents (keys : list string) (store : gmap string string)
  : option (list (string * Json)) :=
  match keys with
  | [] => Some []
  | key :: rest =>
      match ScoringApi.getItem disk_ok key store with
      | Some data =>
          if String.eqb data "" then collect_documents rest store
          else match JSON_parse data with
               | Some parsed =>
                   match collect_documents rest store with
                   | Some documents => Some ((key, parsed) :: documents)
                   | None => None
                   end
               | None => None
               end
      | None => collect_documents rest store
      end
  end.

Definition getPendingDocuments (store : gmap string string) : list (string * Json) :=
  let allKeys := getAllKeys disk_ok store in
  let documentKeys := List.filter is_document_key allKeys in
  match collect_documents documentKeys store with
  | Some documents => documents
  | None => []                                  (* catch *)
  end.

(** The loop of [syncPendingDocuments]. *)
Fixpoint sync_loop (pendingDocs : list (string * Json)) (device : Device)
    (synced failed : nat) : Device * Result (nat * nat) :=
  match pendingDocs with
  | [] => (device, Ok (synced, failed))
  | (key, data) :: rest =>
      match read_fields data with
      | None => (device, Throw (Error "Cannot read properties of null"))
      | Some (image, personId) =>
          let '(device, result) := uploadDocument image personId device in
          if success result then
            let device := {| storage := fst (removeItem disk_ok key (storage device));
                             saves := saves device |} in
            sync_loop rest device (S synced) failed
          else sync_loop rest device synced (S failed)
      end
  end.

Definition syncPendingDocuments (device : Device) : Device * SyncResult :=
  let pendingDocs := getPendingDocuments (storage device) in
  match pendingDocs with
  | [] => (device, NothingPending)
  | _ =>
      match sync_loop pendingDocs device 0 0 with
      | (device, Ok (synced, failed)) =>
          (device, Summary synced failed (length pendingDocs))
      | (device, Throw error) =>
          (device, SyncError match error with
                             | Error text => text
                             | ReferenceError text => text
                             end)
      end
  end.

(** The upload of a pending document succeeds. *)
Definition uploads (document : string * Json) : bool :=
  match read_fields (snd document) with
  | Some (image, personId) =>
      not_nullish image
      && match apiClient_post image personId with
         | ScoringApi.Resolved (Some _) => true
         | _ => false
         end
  | None => false
  end.

Definition readable (document : string * Json) : Prop :=
  read_fields (snd document) <> None.

(** The upload of a pending document fails by throwing (a nullish image
    or a rejected POST), so that the document is saved again. *)
Definition rethrown (document : string * Json) : bool :=
  match read_fields (snd document) with
  | Some (image, personId) =>
      negb (not_nullish image)
      || match apiClient_post image personId with
         | ScoringApi.Rejected _ => true
         | _ => false
         end
  | None => false
  end.

(** The key chosen by the n-th call of [_saveForOfflineSync]. *)
Definition saved_key (n : nat) : string :=
  String.append "offline_document_" (fst (clock n)).

(** Two storages agree on every key that is not a document key. *)
Definition same_outside_documents (a b : gmap string string) : Prop :=
  forall key, is_document_key key = false -> a !! key = b !! key.

End Camera.

End CameraService.

(** One pending document and a backend that is down; parsed values and
    JavaScript values are their texts. *)
Module CameraSample.

Definition read_fields (data : string) : option (string * string) := Some (data, "p1").

Definition not_nullish (value : string) : bool := true.

Definition stringify_document (image personId iso : string) : string := image.

Definition clock (n : nat) : string * string :=
  ("1700000000000", "2023-11-14T22:13:20.000Z").

Definition apiClient_post (image personId : string) : ScoringApi.Reply unit :=
  ScoringApi.Rejected Sample.network_down.

Definition device : CameraService.Device := {|
  CameraService.storage := <["offline_document_1699999999999" := "photo"]> ∅;
  CameraService.saves := 0
|}.

Definition sync : CameraService.Device * CameraService.SyncResult :=
  CameraService.syncPendingDocuments string string unit Some read_fields not_nullish
    stringify_document clock apiClient_post true device.

End CameraSample.

(** ** Formatting helpers (utils/formatters.js)

    Here a string is the list of its UTF-16 code units, as [length],
    [substring] and the regular expressions without the [u] flag see it;
    [None] stands for null or undefined. *)

Module Formatters.

Definition JSString : Type := list N.

(** ['...'] *)
Definition ellipsis : JSString := [46%N; 46%N; 46%N].

(** ['+241'] *)
Definition country_prefix : JSString := [43%N; 50%N; 52%N; 49%N].

(** [text.substring(0, end)] for an integer [end]; a negative [end] counts
    as 0. *)
Definition substring_from_start (text : JSString) (finish : Z) : JSString :=
  take (Z.to_nat finish) text.

(** [truncate(text, maxLength)] *)
Definition truncate (text : option JSString) (maxLength : Z) : JSString :=
  match text with
  | None => []
  | Some [] => []
  | Some text =>
      if Z.of_nat (length text) <=? maxLength then text
      else substring_from_start text maxLength ++ ellipsis
  end.

(** The code units matched by [\s]. *)
Definition is_whitespace (c : N) : bool :=
  ((9 <=? c) && (c <=? 13) || (c =? 32) || (c =? 160) || (c =? 5760)
   || (8192 <=? c) && (c <=? 8202)
   || (c =? 8232) || (c =? 8233) || (c =? 8239) || (c =? 8287)
   || (c =? 12288) || (c =? 65279))%N.

(** [text.replace(/^\+241/, '')] *)
Definition strip_country_prefix (text : JSString) : JSString :=
  match text with
  | a :: b :: c :: d :: rest =>
      if ((a =? 43) && (b =? 50) && (c =? 52) && (d =? 49))%N then rest else text
  | _ => text
  end.

(** [text.replace(/\s/g, '')] *)
Definition remove_whitespace (text : JSString) : JSString :=
  List.filter (fun c => negb (is_whitespace c)) text.

(** [text.match(/.{1,2}/g)] on a text without line terminators: the pairs
    of code units from the left, the last one alone when the length is
    odd. *)
Fixpoint pairs (fuel : nat) (text : JSString) : list JSString :=
  match fuel, text with
  | S fuel, a :: b :: rest => [a; b] :: pairs fuel rest
  | S fuel, [a] => [[a]]
  | _, _ => []
  end.

(** [parts.join(' ')] *)
Fixpoint join_with_space (parts : list JSString) : JSString :=
  match parts with
  | [] => []
  | [part] => part
  | part :: rest => part ++ 32%N :: join_with_space rest
  end.

(** [formatPhoneNumber(phone)] *)
Definition formatPhoneNumber (phone : option JSString) : JSString :=
  match phone with
  | None => []
  | Some [] => []
  | Some phone =>
      let cleaned := remove_whitespace (strip_country_prefix phone) in
      if Nat.eqb (length cleaned) 8
      then join_with_space (pairs (length cleaned) cleaned)
      else phone
  end.

End Formatters.

(** * Properties *)

Import ScoringApi.

(** ** Comparisons on rationals *)

Lemma Qgeb_spec (x y : Q) : reflect (y <= x)%Q (Qgeb x y).
Proof.
  unfold Qgeb. destruct (Qle_bool y x) eqn:E.
  - constructor. now apply Qle_bool_iff.
  - constructor. intros H. apply Qle_bool_iff in H. congruence.
Qed.

Lemma Qltb_spec (x y : Q) : reflect (x < y)%Q (Qltb x y).
Proof.
  unfold Qltb. destruct (Qle_bool y x) eqn:E; simpl; constructor.
  - apply Qle_not_lt. now apply Qle_bool_iff.
  - apply Qnot_le_lt. intros H. apply Qle_bool_iff in H. congruence.
Qed.

Lemma Qgeb_compat (x x' y : Q) : (x == x')%Q -> Qgeb x y = Qgeb x' y.
Proof.
  intros E. destruct (Qgeb_spec x y), (Qgeb_spec x' y); try reflexivity.
  - rewrite E in q. contradiction.
  - rewrite <- E in q. contradiction.
Qed.

(** Case analysis on every threshold test of a goal. *)
Ltac threshold_cases :=
  repeat match goal with
         | |- context [Qgeb ?x ?y] => destruct (Qgeb_spec x y)
         end.

(** ** Risk level *)

Lemma determineRiskLevel_monotone (t : Thresholds) (s1 s2 : Q) :
  (th_MODERATE t <= th_HIGH t)%Q -> (th_HIGH t <= th_CRITICAL t)%Q ->
  (s1 <= s2)%Q ->
  rank (ScoringComplete.determineRiskLevel t s1)
  <= rank (ScoringComplete.determineRiskLevel t s2).
Proof.
  intros Hmh Hhc Hs. unfold ScoringComplete.determineRiskLevel.
  threshold_cases; simpl; try lia; exfalso; lra.
Qed.

Lemma _determineRiskLevel_eq (s : Q) :
  _determineRiskLevel s = ScoringComplete.determineRiskLevel RISK_THRESHOLDS s.
Proof. reflexivity. Qed.

Lemma RISK_THRESHOLDS_canonical : canonical RISK_THRESHOLDS.
Proof. repeat split. Qed.

(** C2. The risk level is a function of the score that respects equality
    of scores, it never decreases when the score grows, and under the
    thresholds 80 / 60 / 40 it is CRITICAL from 80 on, HIGH on [60, 80),
    MODERATE on [40, 60) and LOW below 40; so 79.9 is HIGH and 80.0 is
    CRITICAL.  This holds for [_determineRiskLevel] and for
    [determineRiskLevel] run with these thresholds. *)
Theorem C2_risk_level_step_function (t : Thresholds) (s1 s2 : Q) :
  canonical t -> (s1 <= s2)%Q ->
  (* monotone *)
  rank (_determineRiskLevel s1) <= rank (_determineRiskLevel s2)
  /\ rank (ScoringComplete.determineRiskLevel t s1)
     <= rank (ScoringComplete.determineRiskLevel t s2)
  (* deterministic *)
  /\ ((s1 == s2)%Q ->
      _determineRiskLevel s1 = _determineRiskLevel s2
      /\ ScoringComplete.determineRiskLevel t s1 = ScoringComplete.determineRiskLevel t s2)
  (* the steps *)
  /\ (_determineRiskLevel s1 = CRITICAL <-> (80 <= s1)%Q)
  /\ (_determineRiskLevel s1 = HIGH <-> (60 <= s1 < 80)%Q)
  /\ (_determineRiskLevel s1 = MODERATE <-> (40 <= s1 < 60)%Q)
  /\ (_determineRiskLevel s1 = LOW <-> (s1 < 40)%Q)
  /\ ScoringComplete.determineRiskLevel t s1 = _determineRiskLevel s1
  (* the boundary *)
  /\ _determineRiskLevel 79.9 = HIGH
  /\ _determineRiskLevel 80.0 = CRITICAL
  /\ ScoringComplete.determineRiskLevel t 79.9 = HIGH
  /\ ScoringComplete.determineRiskLevel t 80.0 = CRITICAL.
Proof.
  intros (Hc & Hh & Hm) Hs.
  assert (Hsame : forall s, ScoringComplete.determineRiskLevel t s = _determineRiskLevel s).
  { intros s. unfold _determineRiskLevel, ScoringComplete.determineRiskLevel. simpl.
    threshold_cases; try reflexivity; exfalso; lra. }
  assert (Hmono : forall a b, (a <= b)%Q ->
                    rank (_determineRiskLevel a) <= rank (_determineRiskLevel b)).
  { intros a b Hab. rewrite !_determineRiskLevel_eq.
    apply determineRiskLevel_monotone; simpl; lra || assumption. }
  assert (Hdet : forall a b, (a == b)%Q -> _determineRiskLevel a = _determineRiskLevel b).
  { intros a b E. unfold _determineRiskLevel.
    now rewrite !(Qgeb_compat a b) by exact E. }
  repeat split.
  - now apply Hmono.
  - rewrite !Hsame. now apply Hmono.
  - now apply Hdet.
  - rewrite !Hsame. now apply Hdet.
  - unfold _determineRiskLevel; simpl; threshold_cases; intros; try discriminate; lra.
  - unfold _determineRiskLevel; simpl; threshold_cases; intros; try reflexivity; exfalso; lra.
  - unfold _determineRiskLevel in *; simpl in *; revert H; threshold_cases; intros; try discriminate; lra.
  - unfold _determineRiskLevel in *; simpl in *; revert H; threshold_cases; intros; try discriminate; lra.
  - unfold _determineRiskLevel; simpl; threshold_cases; intros [? ?]; try reflexivity; exfalso; lra.
  - unfold _determineRiskLevel in *; simpl in *; revert H; threshold_cases; intros; try discriminate; lra.
  - unfold _determineRiskLevel in *; simpl in *; revert H; threshold_cases; intros; try discriminate; lra.
  - unfold _determineRiskLevel; simpl; threshold_cases; intros [? ?]; try reflexivity; exfalso; lra.
  - unfold _determineRiskLevel; simpl; threshold_cases; intros; try discriminate; lra.
  - unfold _determineRiskLevel; simpl; threshold_cases; intros; try reflexivity; exfalso; lra.
  - apply Hsame.
  - rewrite Hsame. reflexivity.
  - rewrite Hsame. reflexivity.
Qed.

(** The five-dimension service compares with its own thresholds
    75 / 50 / 25, under which 79.9 is already CRITICAL. *)
Lemma determineRiskLevel_own_thresholds :
  ScoringComplete.determineRiskLevel ScoringComplete.THRESHOLDS 79.9 = CRITICAL
  /\ ScoringComplete.determineRiskLevel ScoringComplete.THRESHOLDS 74.9 = HIGH.
Proof. split; reflexivity. Qed.

Lemma C2_risk_level_witness :
  canonical RISK_THRESHOLDS /\ (79.9 <= 80.0)%Q
  /\ rank (_determineRiskLevel 79.9) <= rank (_determineRiskLevel 80.0).
Proof.
  assert (Hc : canonical RISK_THRESHOLDS) by (repeat split).
  assert (Hle : (79.9 <= 80.0)%Q) by (unfold Qle; simpl; lia).
  split; [exact Hc | split; [exact Hle |]].
  exact (proj1 (C2_risk_level_step_function RISK_THRESHOLDS 79.9 80.0 Hc Hle)).
Defined.

(** ** Weighted global score *)

Lemma fraction_bounds (s w : Q) :
  (0 <= w)%Q -> in_range s -> (0 <= s * w <= 100 * w)%Q.
Proof.
  intros Hw [Hs0 Hs1].
  assert (0 <= s * w)%Q by (apply Qmult_le_0_compat; assumption).
  assert (0 <= (100 - s) * w)%Q by (apply Qmult_le_0_compat; lra).
  lra.
Qed.

Lemma percent_bounds (s w : Q) :
  (0 <= w)%Q -> in_range s -> (0 <= s * (w / 100) <= w)%Q.
Proof.
  intros Hw Hs.
  assert (E : (w / 100 == w * (1 # 100))%Q) by reflexivity.
  rewrite E.
  destruct (fraction_bounds s w Hw Hs). lra.
Qed.

Lemma weightedTotal_in_range (w : WeightingProfile) (hs es ss hl : Q) :
  nonnegative w -> sums_to_100 w ->
  in_range hs -> in_range es -> in_range ss -> in_range hl ->
  in_range (weightedTotal w hs es ss hl).
Proof.
  intros (H1 & H2 & H3 & H4) Hsum Hhs Hes Hss Hhl.
  unfold sums_to_100 in Hsum. unfold in_range, weightedTotal.
  pose proof (percent_bounds hs _ H1 Hhs).
  pose proof (percent_bounds es _ H2 Hes).
  pose proof (percent_bounds ss _ H3 Hss).
  pose proof (percent_bounds hl _ H4 Hhl).
  lra.
Qed.

Lemma calculateWeightedScore_in_range (W : ScoringComplete.Weights)
    (d : ScoringComplete.DimensionScores) :
  nonnegative_fractions W -> sums_to_1 W -> scores_in_range d ->
  in_range (ScoringComplete.calculateWeightedScore W d).
Proof.
  intros (H1 & H2 & H3 & H4 & H5) Hsum (D1 & D2 & D3 & D4 & D5).
  unfold sums_to_1 in Hsum. unfold in_range, ScoringComplete.calculateWeightedScore.
  pose proof (fraction_bounds _ _ H1 D1).
  pose proof (fraction_bounds _ _ H2 D2).
  pose proof (fraction_bounds _ _ H3 D3).
  pose proof (fraction_bounds _ _ H4 D4).
  pose proof (fraction_bounds _ _ H5 D5).
  lra.
Qed.

Lemma WEIGHTS_valid :
  nonnegative_fractions ScoringComplete.WEIGHTS /\ sums_to_1 ScoringComplete.WEIGHTS.
Proof. split; [repeat split; unfold Qle; simpl; lia | reflexivity]. Qed.

Lemma DEFAULT_WEIGHTING_PROFILE_valid :
  nonnegative DEFAULT_WEIGHTING_PROFILE /\ sums_to_100 DEFAULT_WEIGHTING_PROFILE.
Proof. split; [repeat split; unfold Qle; simpl; lia | reflexivity]. Qed.




(** ** Dimension scores *)

Lemma Math_min_in_range_l (s : Z) : 0 <= s -> int_in_range (Math_min 100 s).
Proof. unfold int_in_range, Math_min. lia. Qed.

Lemma Math_min_in_range_r (s : Z) : 0 <= s -> int_in_range (Math_min s 100).
Proof. unfold int_in_range, Math_min. lia. Qed.

(** Splits every conditional of the goal, then closes the arithmetic. *)
Ltac split_branches :=
  repeat match goal with
         | |- context [if ?c then _ else _] => destruct c
         end.

Lemma calculateEconomicScore_in_range person household :
  int_in_range (ScoringComplete.calculateEconomicScore person household).
Proof.
  unfold ScoringComplete.calculateEconomicScore. cbv zeta.
  apply Math_min_in_range_l. split_branches; lia.
Qed.

Lemma calculateHousingScore_in_range household :
  int_in_range (ScoringComplete.calculateHousingScore household).
Proof.
  unfold ScoringComplete.calculateHousingScore. cbv zeta.
  apply Math_min_in_range_l. split_branches; lia.
Qed.

Lemma calculateHealthScore_in_range person household :
  int_in_range (ScoringComplete.calculateHealthScore person household).
Proof.
  unfold ScoringComplete.calculateHealthScore. cbv zeta.
  apply Math_min_in_range_l. split_branches; lia.
Qed.

Lemma calculateEducationScore_in_range person household :
  int_in_range (ScoringComplete.calculateEducationScore person household).
Proof.
  unfold ScoringComplete.calculateEducationScore. cbv zeta.
  apply Math_min_in_range_l. split_branches; lia.
Qed.

Lemma calculateSocialScore_below_65 today person household :
  ScoringComplete.age_ge
    (ScoringComplete.calculateAge today (ScoringComplete.Person.birthDate person)) 65 = false ->
  exists v, ScoringComplete.calculateSocialScore today person household = Ok v
            /\ int_in_range v.
Proof.
  intros Hage. unfold ScoringComplete.calculateSocialScore. cbv zeta.
  rewrite Hage. eexists. split; [reflexivity |].
  apply Math_min_in_range_l. split_branches; lia.
Qed.

Lemma calculateSocialScore_from_65 today person household :
  ScoringComplete.age_ge
    (ScoringComplete.calculateAge today (ScoringComplete.Person.birthDate person)) 65 = true ->
  ScoringComplete.calculateSocialScore today person household
  = Throw (ReferenceError "householdSize").
Proof.
  intros Hage. unfold ScoringComplete.calculateSocialScore. cbv zeta.
  now rewrite Hage.
Qed.

Lemma _calculateHouseholdCompositionScore_in_range householdData :
  int_in_range (_calculateHouseholdCompositionScore householdData).
Proof.
  unfold _calculateHouseholdCompositionScore. destruct householdData as [h |].
  - cbv zeta. apply Math_min_in_range_r. split_branches; lia.
  - unfold int_in_range. lia.
Qed.

Lemma _calculateEconomicVulnerabilityScore_in_range personData householdData :
  int_in_range (_calculateEconomicVulnerabilityScore personData householdData).
Proof.
  unfold _calculateEconomicVulnerabilityScore. cbv zeta.
  apply Math_min_in_range_r. split_branches; lia.
Qed.

Lemma _calculateSocialVulnerabilityScore_in_range personData :
  int_in_range (_calculateSocialVulnerabilityScore personData).
Proof.
  unfold _calculateSocialVulnerabilityScore. cbv zeta.
  apply Math_min_in_range_r. split_branches; lia.
Qed.

Lemma _calculateHealthVulnerabilityScore_in_range personData householdData :
  int_in_range (_calculateHealthVulnerabilityScore personData householdData).
Proof.
  unfold _calculateHealthVulnerabilityScore. cbv zeta.
  apply Math_min_in_range_r. destruct householdData; split_branches; lia.
Qed.

(** Every dimension function except [calculateSocialScore] returns a value
    in [0,100] on every input; [calculateSocialScore] does so whenever the
    computed age is below 65 or is NaN. *)
Lemma dimension_scores_in_range :
  (forall person household,
      int_in_range (ScoringComplete.calculateEconomicScore person household))
  /\ (forall household, int_in_range (ScoringComplete.calculateHousingScore household))
  /\ (forall person household,
         int_in_range (ScoringComplete.calculateHealthScore person household))
  /\ (forall person household,
         int_in_range (ScoringComplete.calculateEducationScore person household))
  /\ (forall householdData,
         int_in_range (_calculateHouseholdCompositionScore householdData))
  /\ (forall personData householdData,
         int_in_range (_calculateEconomicVulnerabilityScore personData householdData))
  /\ (forall personData, int_in_range (_calculateSocialVulnerabilityScore personData))
  /\ (forall personData householdData,
         int_in_range (_calculateHealthVulnerabilityScore personData householdData)).
Proof.
  repeat split;
    first [ apply calculateEconomicScore_in_range
          | apply calculateHousingScore_in_range
          | apply calculateHealthScore_in_range
          | apply calculateEducationScore_in_range
          | apply _calculateHouseholdCompositionScore_in_range
          | apply _calculateEconomicVulnerabilityScore_in_range
          | apply _calculateSocialVulnerabilityScore_in_range
          | apply _calculateHealthVulnerabilityScore_in_range ].
Qed.

(** C7, at the failing input. For a person born on 1 January 1950 and a
    call made on 1 January 2025 the computed age is 75, and
    [calculateSocialScore] throws a ReferenceError instead of returning a
    score; no value in [0,100] is returned. *)
Theorem C7_social_score_throws_for_elder :
  ScoringComplete.calculateAge Sample.first_day_2025
    (ScoringComplete.Person.birthDate Sample.elder) = Some 75
  /\ ScoringComplete.calculateSocialScore Sample.first_day_2025 Sample.elder
       Sample.plain_household = Throw (ReferenceError "householdSize")
  /\ ~ (exists v, ScoringComplete.calculateSocialScore Sample.first_day_2025 Sample.elder
                    Sample.plain_household = Ok v /\ int_in_range v).
Proof.
  split; [reflexivity |]. split; [reflexivity |].
  intros (v & Hv & _). discriminate Hv.
Qed.

(** ** The undefined identifier of [calculateSocialScore] *)

Lemma calculateVulnerabilityScore_throws now person household :
  ScoringComplete.age_ge
    (ScoringComplete.calculateAge now (ScoringComplete.Person.birthDate person)) 65 = true ->
  ScoringComplete.calculateVulnerabilityScore now person household
  = Throw (Error "Impossible de calculer le score de vulnérabilité").
Proof.
  intros Hage. unfold ScoringComplete.calculateVulnerabilityScore,
    ScoringComplete.calculateDimensionScores.
  now rewrite (calculateSocialScore_from_65 _ _ _ Hage).
Qed.

Lemma calculateVulnerabilityScore_returns now person household :
  ScoringComplete.age_ge
    (ScoringComplete.calculateAge now (ScoringComplete.Person.birthDate person)) 65 = false ->
  returns (ScoringComplete.calculateVulnerabilityScore now person household).
Proof.
  intros Hage. unfold ScoringComplete.calculateVulnerabilityScore,
    ScoringComplete.calculateDimensionScores.
  destruct (calculateSocialScore_below_65 now person household Hage) as (v & Hv & _).
  rewrite Hv. simpl. eexists. reflexivity.
Qed.

(** C10. When the computed age is at least 65, [calculateSocialScore]
    evaluates the unbound identifier [householdSize] and throws, and
    [calculateVulnerabilityScore] throws its own error; when the computed
    age is below 65 (or is NaN), [calculateSocialScore] returns a score in
    [0,100] and [calculateVulnerabilityScore] returns a result. *)
Theorem C10_social_score_undefined_variable now person household :
  let age := ScoringComplete.calculateAge now (ScoringComplete.Person.birthDate person) in
  ((exists a, age = Some a /\ 65 <= a) ->
   ScoringComplete.calculateSocialScore now person household
   = Throw (ReferenceError "householdSize")
   /\ ScoringComplete.calculateVulnerabilityScore now person household
      = Throw (Error "Impossible de calculer le score de vulnérabilité"))
  /\ ((forall a, age = Some a -> a < 65) ->
      (exists v, ScoringComplete.calculateSocialScore now person household = Ok v
                 /\ int_in_range v)
      /\ returns (ScoringComplete.calculateVulnerabilityScore now person household)).
Proof.
  intros age. split.
  - intros (a & Ha & Hle).
    assert (Hage : ScoringComplete.age_ge age 65 = true).
    { rewrite Ha. simpl. now apply Z.leb_le. }
    split.
    + now apply calculateSocialScore_from_65.
    + now apply calculateVulnerabilityScore_throws.
  - intros Hlt.
    assert (Hage : ScoringComplete.age_ge age 65 = false).
    { destruct age as [a |] eqn:Ha; simpl; [| reflexivity].
      apply Z.leb_gt. now apply Hlt. }
    split.
    + now apply calculateSocialScore_below_65.
    + now apply calculateVulnerabilityScore_returns.
Qed.

Lemma C10_social_score_witness :
  (ScoringComplete.calculateSocialScore Sample.first_day_2025 Sample.elder
     Sample.plain_household = Throw (ReferenceError "householdSize")
   /\ ScoringComplete.calculateVulnerabilityScore Sample.first_day_2025 Sample.elder
        Sample.plain_household
      = Throw (Error "Impossible de calculer le score de vulnérabilité"))
  /\ ((exists v, ScoringComplete.calculateSocialScore Sample.last_day_2024 Sample.sixties
                   Sample.plain_household = Ok v /\ int_in_range v)
      /\ returns (ScoringComplete.calculateVulnerabilityScore Sample.last_day_2024
                    Sample.sixties Sample.plain_household)).
Proof.
  split.
  - apply (proj1 (C10_social_score_undefined_variable Sample.first_day_2025 Sample.elder
                    Sample.plain_household)).
    exists 75. split; [reflexivity | lia].
  - apply (proj2 (C10_social_score_undefined_variable Sample.last_day_2024 Sample.sixties
                    Sample.plain_household)).
    intros a Ha. vm_compute in Ha. injection Ha as <-. lia.
Defined.

(** ** Repeating the local computation *)

Lemma calculateDimensionScores_clock now1 now2 person household :
  same_age_class now1 now2 person ->
  ScoringComplete.calculateDimensionScores now1 person household
  = ScoringComplete.calculateDimensionScores now2 person household.
Proof.
  unfold same_age_class, ScoringComplete.calculateDimensionScores,
    ScoringComplete.calculateSocialScore.
  cbv zeta. intros ->. reflexivity.
Qed.

Lemma calculateScoreLocally_output this reply personData householdData :
  snd (calculateScoreLocally this reply personData householdData)
  = bind (snd (getWeightingProfile this reply))
         (fun weights => Ok (scoreWith weights personData householdData)).
Proof.
  unfold calculateScoreLocally.
  destruct (getWeightingProfile this reply) as [this' [weights | e]]; reflexivity.
Qed.

(** C4 (amended). Two calls of [calculateScoreLocally] with the same person
    and household that obtain the same weighting profile return the same
    object, whatever the service state and the remote replies are.  Two
    calls of the five-dimension [calculateVulnerabilityScore] with the same
    person and household agree in every field except [calculatedAt] when
    the computed age is on the same side of 65 at both calls. *)
Theorem C4_local_scoring_repeatable
    (this1 this2 : Service) (reply1 reply2 : Reply WeightingProfile)
    (personData : Person.t) (householdData : option Household.t)
    (now1 now2 : ScoringComplete.Clock)
    (person : ScoringComplete.Person.t) (household : ScoringComplete.Household.t) :
  snd (getWeightingProfile this1 reply1) = snd (getWeightingProfile this2 reply2) ->
  same_age_class now1 now2 person ->
  snd (calculateScoreLocally this1 reply1 personData householdData)
  = snd (calculateScoreLocally this2 reply2 personData householdData)
  /\ same_except_calculatedAt
       (ScoringComplete.calculateVulnerabilityScore now1 person household)
       (ScoringComplete.calculateVulnerabilityScore now2 person household).
Proof.
  intros Hprofile Hage. split.
  - rewrite !calculateScoreLocally_output. now rewrite Hprofile.
  - unfold ScoringComplete.calculateVulnerabilityScore.
    rewrite (calculateDimensionScores_clock now1 now2 person household Hage).
    destruct (ScoringComplete.calculateDimensionScores now2 person household)
      as [d | e]; simpl.
    + repeat split.
    + reflexivity.
Qed.

(** Once a profile is cached, two successive calls return the same object
    whatever the network does. *)
Lemma calculateScoreLocally_twice this cached reply1 reply2 personData householdData :
  cachedWeightingProfile this = Some cached ->
  let first := calculateScoreLocally this reply1 personData householdData in
  let second := calculateScoreLocally (fst first) reply2 personData householdData in
  snd first = snd second /\ fst second = this.
Proof.
  intros Hc. unfold calculateScoreLocally, getWeightingProfile.
  rewrite Hc. simpl. rewrite Hc. simpl. split; reflexivity.
Qed.

Lemma C4_local_scoring_witness :
  snd (calculateScoreLocally constructor Sample.offline Sample.adult
         (Some Sample.large_household))
  = snd (calculateScoreLocally constructor (Resolved None) Sample.adult
           (Some Sample.large_household))
  /\ same_except_calculatedAt
       (ScoringComplete.calculateVulnerabilityScore Sample.last_day_2024 Sample.elder
          Sample.plain_household)
       (ScoringComplete.calculateVulnerabilityScore Sample.first_day_2025 Sample.elder
          Sample.plain_household).
Proof.
  apply (C4_local_scoring_repeatable constructor constructor Sample.offline (Resolved None)
           Sample.adult (Some Sample.large_household)
           Sample.last_day_2024 Sample.first_day_2025 Sample.elder Sample.plain_household).
  - reflexivity.
  - reflexivity.
Defined.

(** C4 as stated fails for the five-dimension service: for a person born on
    1 January 1960 the call of 31 December 2024 (age 64) returns a result
    and the call of 1 January 2025 (age 65) throws, with the same person
    and household. *)
Lemma C4_counterexample_birthday :
  returns (ScoringComplete.calculateVulnerabilityScore Sample.last_day_2024
             Sample.sixties Sample.plain_household)
  /\ ScoringComplete.calculateVulnerabilityScore Sample.first_day_2025
       Sample.sixties Sample.plain_household
     = Throw (Error "Impossible de calculer le score de vulnérabilité")
  /\ ~ same_except_calculatedAt
        (ScoringComplete.calculateVulnerabilityScore Sample.last_day_2024
           Sample.sixties Sample.plain_household)
        (ScoringComplete.calculateVulnerabilityScore Sample.first_day_2025
           Sample.sixties Sample.plain_household).
Proof.
  split; [| split].
  - eexists. reflexivity.
  - reflexivity.
  - intros H. exact H.
Qed.

(** ** Rounding *)

Lemma Qfloor_bounds (y : Q) : (y - 1 < inject_Z (Qfloor y) <= y)%Q.
Proof.
  split.
  - pose proof (Qlt_floor y) as H. rewrite inject_Z_plus in H.
    change (inject_Z 1) with 1%Q in H. lra.
  - apply Qfloor_le.
Qed.

Lemma Qfloor_unique (y : Q) (k : Z) :
  (inject_Z k <= y)%Q -> (y < inject_Z k + 1)%Q -> Qfloor y = k.
Proof.
  intros Hlo Hhi. destruct (Qfloor_bounds y) as [H1 H2].
  assert (A : (inject_Z k < inject_Z (Qfloor y) + 1)%Q) by lra.
  assert (B : (inject_Z (Qfloor y) < inject_Z k + 1)%Q) by lra.
  change 1%Q with (inject_Z 1) in A, B.
  rewrite <- inject_Z_plus in A, B.
  rewrite <- Zlt_Qlt in A, B. lia.
Qed.

(** The rounded value is a whole number of hundredths within half a
    hundredth of the argument. *)
Lemma toFixed2_close (x : Q) : (x - (1 # 200) <= toFixed2 x <= x + (1 # 200))%Q.
Proof.
  unfold toFixed2. destruct (Qltb_spec x 0).
  - destruct (Qfloor_bounds (- x * 100 + (1 # 2))) as [H1 H2].
    set (f := inject_Z (Qfloor (- x * 100 + (1 # 2)))) in *.
    assert (E : (f / 100 == f * (1 # 100))%Q) by reflexivity.
    rewrite E. lra.
  - destruct (Qfloor_bounds (x * 100 + (1 # 2))) as [H1 H2].
    set (f := inject_Z (Qfloor (x * 100 + (1 # 2)))) in *.
    assert (E : (f / 100 == f * (1 # 100))%Q) by reflexivity.
    rewrite E. lra.
Qed.

Lemma toFixed2_hundredths (x : Q) : exists k : Z, (toFixed2 x == inject_Z k / 100)%Q.
Proof.
  unfold toFixed2. destruct (Qltb x 0).
  - exists (- Qfloor (- x * 100 + (1 # 2))).
    rewrite inject_Z_opp.
    set (f := inject_Z (Qfloor (- x * 100 + (1 # 2)))).
    assert (E : (f / 100 == f * (1 # 100))%Q) by reflexivity.
    assert (E' : (- f / 100 == - f * (1 # 100))%Q) by reflexivity.
    rewrite E, E'. lra.
  - eexists. reflexivity.
Qed.

(** Rounding an integer score in [0,100] to two decimals changes nothing. *)
Lemma toFixed2_integer (n : Z) : 0 <= n -> (toFixed2 (inject_Z n) == inject_Z n)%Q.
Proof.
  intros Hn. unfold toFixed2.
  assert (H0 : (0 <= inject_Z n)%Q) by (change 0%Q with (inject_Z 0); now rewrite <- Zle_Qle).
  destruct (Qltb_spec (inject_Z n) 0); [lra |].
  rewrite (Qfloor_unique _ (n * 100)).
  - rewrite inject_Z_mult. change (inject_Z 100) with 100%Q.
    set (f := inject_Z n) in *.
    assert (E : (f * 100 / 100 == f * 100 * (1 # 100))%Q) by reflexivity.
    rewrite E. lra.
  - rewrite inject_Z_mult. change (inject_Z 100) with 100%Q. lra.
  - rewrite inject_Z_mult. change (inject_Z 100) with 100%Q. lra.
Qed.



(** The class comes from the unrounded total: with the weights 79.996 and
    20.004 the sample household totals 79.996, which is returned as 80.00
    with the level HIGH. *)
Lemma risk_level_from_unrounded_total :
  let r := scoreWith Sample.fine_profile Sample.adult (Some Sample.large_household) in
  (vulnerability_score r == 80)%Q /\ risk_level r = HIGH
  /\ _determineRiskLevel (vulnerability_score r) = CRITICAL.
Proof. repeat split. Qed.


(** ** Weighting profile *)

(** C8. [getWeightingProfile] returns a profile on every path: the cached
    one when there is one; otherwise the fetched one when the request
    resolves with data, which is then cached; otherwise, when the response
    has no data or the request throws, the default profile, and the cache
    stays empty. *)
Theorem C8_getWeightingProfile_never_fails (this : Service)
    (reply : Reply WeightingProfile) :
  exists this' profile,
    getWeightingProfile this reply = (this', Ok profile)
    /\ profile = match cachedWeightingProfile this, reply with
                 | Some cached, _ => cached
                 | None, Resolved (Some fetched) => fetched
                 | None, Resolved None => DEFAULT_WEIGHTING_PROFILE
                 | None, Rejected _ => DEFAULT_WEIGHTING_PROFILE
                 end
    /\ cachedWeightingProfile this'
       = match cachedWeightingProfile this, reply with
         | Some cached, _ => Some cached
         | None, Resolved (Some fetched) => Some fetched
         | None, _ => None
         end.
Proof.
  unfold getWeightingProfile.
  destruct this as [[cached |]]; simpl.
  - eexists _, _. repeat split.
  - destruct reply as [[fetched |] | error]; simpl; eexists _, _; repeat split.
Qed.

(** ** Remote calculation and its cache *)

Section RemoteProperties.

Context {Assessment : Type}.
Variable JSON_stringify : Assessment -> string.
Variable JSON_parse : string -> option Assessment.

Lemma assessment_key_inj (a b : string) :
  assessment_key a = assessment_key b -> a = b.
Proof. unfold assessment_key. simpl. intros H. now injection H. Qed.

Lemma _getCachedAssessment_after_cache personId data storage :
  JSON_parse (JSON_stringify data) = Some data ->
  JSON_stringify data <> "" ->
  _getCachedAssessment Assessment JSON_parse true personId
    (_cacheAssessment Assessment JSON_stringify true personId data storage)
  = Some data.
Proof.
  intros Hround Hne. unfold _getCachedAssessment, _cacheAssessment, getItem, setItem.
  simpl. rewrite lookup_insert_eq.
  destruct (String.eqb_spec (JSON_stringify data) ""); [contradiction | exact Hround].
Qed.

Lemma _getCachedAssessment_other_person personId other data disk_ok storage :
  personId <> other ->
  _getCachedAssessment Assessment JSON_parse disk_ok other
    (_cacheAssessment Assessment JSON_stringify true personId data storage)
  = _getCachedAssessment Assessment JSON_parse disk_ok other storage.
Proof.
  intros Hne. unfold _getCachedAssessment, _cacheAssessment, getItem, setItem.
  destruct disk_ok; simpl; [| reflexivity].
  rewrite lookup_insert_ne; [reflexivity |].
  intros H. apply Hne. now apply assessment_key_inj.
Qed.


End RemoteProperties.


(** ** Queue drain *)

Lemma drain_loop_spec remote queue kept acc :
  SyncQueue.drain_loop remote queue kept acc
  = Ok (kept ++ survivors remote queue,
        {| SyncQueue.synced := SyncQueue.synced acc + count_synced remote queue;
           SyncQueue.failed := SyncQueue.failed acc + count_failed remote queue;
           SyncQueue.total := SyncQueue.total acc + count_processed queue |})%nat.
Proof.
  revert kept acc. induction queue as [| item rest IH]; intros kept acc.
  - simpl. unfold count_synced, count_failed, count_processed. simpl.
    rewrite app_nil_r, !Nat.add_0_r. now destruct acc.
  - unfold survivors, count_synced, count_failed, count_processed in *.
    simpl. unfold SyncQueue.submit.
    destruct (SyncQueue.eligible item) eqn:He; simpl.
    + destruct (remote item) as [| reason] eqn:Hr; simpl; rewrite IH; simpl.
      * do 2 f_equal. f_equal; lia.
      * rewrite <- app_assoc. simpl. do 2 f_equal. f_equal; lia.
    + rewrite IH. now rewrite <- app_assoc.
Qed.

Lemma survivors_ids remote queue item :
  In item (survivors remote queue) ->
  exists original, In original queue
    /\ SyncQueue.id item = SyncQueue.id original
    /\ (SyncQueue.eligible original = true -> SyncQueue.succeeds (remote original) = false).
Proof.
  unfold survivors. rewrite in_flat_map. intros (original & Hin & Hitem).
  exists original. split; [exact Hin |].
  destruct (SyncQueue.eligible original).
  - destruct (SyncQueue.succeeds (remote original)); simpl in Hitem; [contradiction |].
    destruct Hitem as [<- | []]. split; [reflexivity | reflexivity].
  - simpl in Hitem. destruct Hitem as [<- | []]. split; [reflexivity | discriminate].
Qed.

Lemma unique_id (queue : list SyncQueue.QueueItem) (a b : SyncQueue.QueueItem) :
  List.NoDup (map SyncQueue.id queue) -> In a queue -> In b queue ->
  SyncQueue.id a = SyncQueue.id b -> a = b.
Proof.
  induction queue as [| x rest IH]; simpl; [contradiction |].
  intros Hnd [<- | Ha] [<- | Hb] Hid.
  - reflexivity.
  - apply List.NoDup_cons_iff in Hnd as [Hx _]. exfalso. apply Hx.
    rewrite Hid. now apply in_map.
  - apply List.NoDup_cons_iff in Hnd as [Hx _]. exfalso. apply Hx.
    rewrite <- Hid. now apply in_map.
  - apply List.NoDup_cons_iff in Hnd as [_ Hnd]. now apply IH.
Qed.

(** C5. [drain] returns on every queue and every outcome of the remote
    calls.  Its summary counts the accepted items, the refused items and
    the processed items.  A refused item does not stop the loop: it stays in
    the queue with [attempts] one higher and the status FAILED, and the
    items after it are processed as well.  An accepted item is deleted:
    the queue shrinks by the number of accepted items, every item left
    comes from an item that was refused or was not eligible, and when the
    identifiers are unique no item with the identifier of an accepted item
    is left.  With A, B, C and B always refused the summary is synced 2,
    failed 1, total 3, and only B is left. *)
Theorem C5_drain_partial_failure
    (remote : SyncQueue.QueueItem -> SyncQueue.RemoteOutcome)
    (queue : list SyncQueue.QueueItem) :
  SyncQueue.drain remote queue
  = Ok (survivors remote queue,
        {| SyncQueue.synced := count_synced remote queue;
           SyncQueue.failed := count_failed remote queue;
           SyncQueue.total := count_processed queue |})
  /\ (count_synced remote queue + count_failed remote queue = count_processed queue)%nat
  /\ (length (survivors remote queue) + count_synced remote queue = length queue)%nat
  /\ (forall item, In item queue -> SyncQueue.eligible item = true ->
         SyncQueue.succeeds (remote item) = false ->
         In (SyncQueue.mark_failed item) (survivors remote queue)
         /\ SyncQueue.attempts (SyncQueue.mark_failed item) = S (SyncQueue.attempts item)
         /\ SyncQueue.status (SyncQueue.mark_failed item) = SyncQueue.FAILED)
  /\ (forall left, In left (survivors remote queue) ->
         exists original, In original queue
           /\ SyncQueue.id left = SyncQueue.id original
           /\ (SyncQueue.eligible original = true ->
               SyncQueue.succeeds (remote original) = false))
  /\ (List.NoDup (map SyncQueue.id queue) ->
      forall item, In item queue -> SyncQueue.eligible item = true ->
         SyncQueue.succeeds (remote item) = true ->
         ~ In (SyncQueue.id item) (map SyncQueue.id (survivors remote queue)))
  /\ SyncQueue.drain Sample.refuses_B Sample.queue_ABC
     = Ok ([{| SyncQueue.id := 2; SyncQueue.type := SyncQueue.CREATE_HOUSEHOLD;
               SyncQueue.payload := "B"; SyncQueue.createdAt := 2;
               SyncQueue.attempts := 1; SyncQueue.status := SyncQueue.FAILED |}],
           {| SyncQueue.synced := 2; SyncQueue.failed := 1; SyncQueue.total := 3 |}).
Proof.
  split; [| split; [| split; [| split; [| split; [| split]]]]].
  - unfold SyncQueue.drain. now rewrite drain_loop_spec.
  - unfold count_synced, count_failed, count_processed.
    induction queue as [| x rest IH]; simpl; [reflexivity |].
    destruct (SyncQueue.eligible x), (SyncQueue.succeeds (remote x)); simpl; lia.
  - unfold survivors, count_synced.
    induction queue as [| x rest IH]; simpl; [reflexivity |].
    rewrite length_app.
    destruct (SyncQueue.eligible x), (SyncQueue.succeeds (remote x)); simpl; lia.
  - intros item Hin He Hf. split; [| split; reflexivity].
    unfold survivors. rewrite in_flat_map. exists item. split; [exact Hin |].
    rewrite He, Hf. now left.
  - apply survivors_ids.
  - intros Hnd item Hin He Hs Hleft.
    rewrite in_map_iff in Hleft. destruct Hleft as (left & Hid & Hleft).
    destruct (survivors_ids remote queue left Hleft) as (original & Hin' & Hid' & Hfail).
    assert (original = item) as ->.
    { apply (unique_id queue); try assumption. congruence. }
    specialize (Hfail He). congruence.
  - reflexivity.
Qed.

Lemma C5_drain_witness :
  List.NoDup (map SyncQueue.id Sample.queue_ABC)
  /\ ~ In 1%nat (map SyncQueue.id (survivors Sample.refuses_B Sample.queue_ABC)).
Proof.
  assert (Hnd : List.NoDup (map SyncQueue.id Sample.queue_ABC)).
  { simpl. repeat constructor; simpl; intros H; decompose [or] H;
      discriminate || contradiction. }
  split; [exact Hnd |].
  apply (proj1 (proj2 (proj2 (proj2 (proj2 (proj2
           (C5_drain_partial_failure Sample.refuses_B Sample.queue_ABC))))))
           Hnd
           {| SyncQueue.id := 1; SyncQueue.type := SyncQueue.CREATE_PERSON;
              SyncQueue.payload := "A"; SyncQueue.createdAt := 1;
              SyncQueue.attempts := 0; SyncQueue.status := SyncQueue.PENDING |}).
  - simpl. now left.
  - reflexivity.
  - reflexivity.
Defined.

(** ** Overlapping synchronisations in the hook *)

Lemma step_keeps_flag autoSync h e :
  OfflineHook.is_direct_call e = false ->
  flag_tracks_drain h -> flag_tracks_drain (OfflineHook.step autoSync h e).
Proof.
  unfold flag_tracks_drain, OfflineHook.drainsInProgress.
  destruct h as [c r n s running waiting].
  destruct e; simpl; intros Hd Hinv; try discriminate; try exact Hinv.
  - unfold OfflineHook.autoSyncEffect, OfflineHook.syncQueue. simpl.
    destruct c, r, autoSync, (0 <? n)%nat, s; simpl in *; try exact Hinv; lia.
  - destruct running; simpl; [exact Hinv |]. destruct s; simpl in *; lia.
  - destruct running; simpl; [exact Hinv |]. destruct s; simpl in *; lia.
  - destruct waiting; simpl; [exact Hinv |]. destruct s; simpl in *; lia.
Qed.

Lemma run_keeps_flag autoSync events h :
  no_direct_call events -> flag_tracks_drain h ->
  flag_tracks_drain (OfflineHook.run autoSync h events).
Proof.
  unfold no_direct_call, OfflineHook.run.
  revert h. induction events as [| e rest IH]; intros h Hnd Hinv; simpl in *.
  - exact Hinv.
  - apply andb_prop in Hnd as [He Hrest].
    apply IH; [exact Hrest |].
    apply step_keeps_flag; [| exact Hinv].
    now apply negb_true_iff.
Qed.




(** ** The returned global score *)

Lemma inject_Z_in_range (n : Z) : int_in_range n -> in_range (inject_Z n).
Proof.
  intros [H0 H1]. split.
  - change 0%Q with (inject_Z 0). now rewrite <- Zle_Qle.
  - change 100%Q with (inject_Z 100). now rewrite <- Zle_Qle.
Qed.

Lemma Qfloor_between (y : Q) (lo hi : Z) :
  (inject_Z lo <= y)%Q -> (y < inject_Z hi + 1)%Q -> lo <= Qfloor y <= hi.
Proof.
  intros Hlo Hhi. destruct (Qfloor_bounds y) as [H1 H2]. split.
  - assert (A : (inject_Z lo < inject_Z (Qfloor y) + 1)%Q) by lra.
    change 1%Q with (inject_Z 1) in A. rewrite <- inject_Z_plus in A.
    rewrite <- Zlt_Qlt in A. lia.
  - assert (B : (inject_Z (Qfloor y) < inject_Z hi + 1)%Q) by lra.
    change 1%Q with (inject_Z 1) in B. rewrite <- inject_Z_plus in B.
    rewrite <- Zlt_Qlt in B. lia.
Qed.

Lemma toFixed2_in_range (x : Q) : in_range x -> in_range (toFixed2 x).
Proof.
  intros [H0 H1]. unfold toFixed2. destruct (Qltb_spec x 0); [lra |].
  destruct (Qfloor_between (x * 100 + (1 # 2)) 0 10000) as [F0 F1].
  - change (inject_Z 0) with 0%Q. lra.
  - change (inject_Z 10000) with 10000%Q. lra.
  - set (f := Qfloor (x * 100 + (1 # 2))) in *.
    assert (E : (inject_Z f / 100 == inject_Z f * (1 # 100))%Q) by reflexivity.
    unfold in_range. rewrite E.
    rewrite Zle_Qle in F0, F1.
    change (inject_Z 0) with 0%Q in F0. change (inject_Z 10000) with 10000%Q in F1.
    lra.
Qed.

Lemma Math_round_in_range (x : Q) : in_range x -> int_in_range (Math_round x).
Proof.
  intros [H0 H1]. unfold Math_round. apply Qfloor_between.
  - change (inject_Z 0) with 0%Q. lra.
  - change (inject_Z 100) with 100%Q. lra.
Qed.

(** With a profile of non-negative percentages that sum to 100, the
    [vulnerability_score] returned by [calculateScoreLocally] lies in
    [0,100] for every person and household. *)
Lemma scoreWith_in_range (weights : WeightingProfile) personData householdData :
  nonnegative weights -> sums_to_100 weights ->
  in_range (vulnerability_score (scoreWith weights personData householdData)).
Proof.
  intros Hnn Hsum. simpl. apply toFixed2_in_range.
  apply weightedTotal_in_range; try assumption; apply inject_Z_in_range.
  - apply _calculateHouseholdCompositionScore_in_range.
  - apply _calculateEconomicVulnerabilityScore_in_range.
  - apply _calculateSocialVulnerabilityScore_in_range.
  - apply _calculateHealthVulnerabilityScore_in_range.
Qed.

(** Whenever the five-dimension [calculateVulnerabilityScore] returns, its
    [score] lies in [0,100]. *)
Lemma calculateVulnerabilityScore_in_range now person household out :
  ScoringComplete.calculateVulnerabilityScore now person household = Ok out ->
  int_in_range (ScoringComplete.score out).
Proof.
  unfold ScoringComplete.calculateVulnerabilityScore,
    ScoringComplete.calculateDimensionScores.
  destruct (ScoringComplete.age_ge
              (ScoringComplete.calculateAge now (ScoringComplete.Person.birthDate person)) 65)
    eqn:Hage.
  - rewrite (calculateSocialScore_from_65 _ _ _ Hage). discriminate.
  - destruct (calculateSocialScore_below_65 now person household Hage) as (v & -> & Hv).
    simpl. intros H. injection H as <-. simpl.
    apply Math_round_in_range.
    apply calculateWeightedScore_in_range;
      [apply WEIGHTS_valid | apply WEIGHTS_valid |].
    repeat split; simpl;
      first [ apply inject_Z_in_range, calculateEconomicScore_in_range
            | apply inject_Z_in_range, calculateHousingScore_in_range
            | apply inject_Z_in_range, calculateHealthScore_in_range
            | apply inject_Z_in_range, calculateEducationScore_in_range
            | apply inject_Z_in_range, Hv ].
Qed.

(** * Further properties of the scoring services *)

(** ** Factors and recommendations of the five-dimension service *)

Lemma push_if_sublist (c : bool) (x : string) (l l' : list string) :
  sublist l l' -> sublist (ScoringComplete.push_if c x l) (l' ++ [x]).
Proof.
  intros H. unfold ScoringComplete.push_if. destruct c.
  - now apply sublist_app.
  - now apply sublist_inserts_r.
Qed.

Lemma push_if_In (c : bool) (x y : string) (l : list string) :
  In y (ScoringComplete.push_if c x l) <-> In y l \/ (c = true /\ x = y).
Proof.
  unfold ScoringComplete.push_if. destruct c.
  - rewrite in_app_iff. simpl. intuition.
  - intuition. discriminate.
Qed.

Lemma array_includes_In (l : list string) (x : string) :
  ScoringComplete.array_includes l x = true <-> In x l.
Proof.
  unfold ScoringComplete.array_includes. rewrite existsb_exists. split.
  - intros (y & Hy & E). apply String.eqb_eq in E. now subst.
  - intros H. exists x. split; [exact H | apply String.eqb_refl].
Qed.

Lemma identifyRiskFactors_sublist person household :
  sublist (ScoringComplete.identifyRiskFactors person household) pushed_factors.
Proof.
  unfold ScoringComplete.identifyRiskFactors. cbv zeta.
  change pushed_factors with
    (((((((((((((([] : list string)
      ++ ["extreme_poverty"]) ++ ["unemployment"]) ++ ["multiple_dependents"])
      ++ ["no_electricity"]) ++ ["no_water"]) ++ ["precarious_housing"])
      ++ ["chronic_illness"]) ++ ["disability"]) ++ ["no_health_insurance"])
      ++ ["no_education"]) ++ ["children_out_of_school"])
      ++ ["single_parent"]) ++ ["social_isolation"]).
  repeat apply push_if_sublist. constructor.
Qed.

Lemma generateRecommendations_sublist riskLevel factors :
  sublist (ScoringComplete.generateRecommendations riskLevel factors)
          (baseline riskLevel ++ factor_recommendations).
Proof.
  unfold ScoringComplete.generateRecommendations. cbv zeta.
  change (baseline riskLevel ++ factor_recommendations) with
    (baseline riskLevel ++ ["Programme insertion professionnelle";
                            "Programme alphabétisation"; "Aide à la scolarisation";
                            "Couverture santé prioritaire"]).
  replace (baseline riskLevel ++ ["Programme insertion professionnelle";
                                  "Programme alphabétisation"; "Aide à la scolarisation";
                                  "Couverture santé prioritaire"])
    with ((((baseline riskLevel ++ ["Programme insertion professionnelle"])
             ++ ["Programme alphabétisation"]) ++ ["Aide à la scolarisation"])
             ++ ["Couverture santé prioritaire"])
    by (now rewrite <- !app_assoc).
  repeat apply push_if_sublist.
  destruct riskLevel; apply sublist_reflexive || reflexivity.
Qed.

(** The list of risk factors is a selection, in a fixed order and without
    repetition, of thirteen names; each of them except "extreme_poverty" is
    declared in [RISK_FACTORS]. *)
Theorem identifyRiskFactors_selection person household :
  sublist (ScoringComplete.identifyRiskFactors person household) pushed_factors
  /\ NoDup (ScoringComplete.identifyRiskFactors person household)
  /\ (length (ScoringComplete.identifyRiskFactors person household) <= 13)%nat
  /\ (forall factor, In factor (ScoringComplete.identifyRiskFactors person household) ->
        factor = "extreme_poverty" \/ In factor declared_factors)
  /\ ~ In "extreme_poverty" declared_factors.
Proof.
  pose proof (identifyRiskFactors_sublist person household) as Hsub.
  split; [exact Hsub |]. split; [| split; [| split]].
  - apply (sublist_NoDup _ pushed_factors); [| exact Hsub].
    apply (bool_decide_unpack _). vm_compute. exact I.
  - apply sublist_length in Hsub. exact Hsub.
  - intros factor Hin. apply list_elem_of_In in Hin.
    pose proof (elem_of_sublist _ _ _ Hin Hsub) as Hall.
    apply list_elem_of_In in Hall.
    assert (Hcheck : forallb (fun name => String.eqb name "extreme_poverty"
                                          || existsb (String.eqb name) declared_factors)
                             pushed_factors = true) by (vm_compute; reflexivity).
    rewrite forallb_forall in Hcheck. specialize (Hcheck factor Hall).
    apply orb_true_iff in Hcheck as [E | E].
    + left. now apply String.eqb_eq.
    + right. apply existsb_exists in E as (name & Hname & E).
      apply String.eqb_eq in E. now subst.
  - vm_compute. intros H. decompose [or] H; discriminate || contradiction.
Qed.

(** The recommendations start with the entries of the level and go on with
    a selection of the four factor-specific entries; no entry is repeated,
    whatever the list of factors, and there are between one and seven. *)
Theorem generateRecommendations_no_duplicates riskLevel factors :
  NoDup (ScoringComplete.generateRecommendations riskLevel factors)
  /\ (exists specific,
        ScoringComplete.generateRecommendations riskLevel factors
        = baseline riskLevel ++ specific
        /\ sublist specific factor_recommendations)
  /\ (1 <= length (ScoringComplete.generateRecommendations riskLevel factors) <= 7)%nat.
Proof.
  assert (Hshape : exists specific,
             ScoringComplete.generateRecommendations riskLevel factors
             = baseline riskLevel ++ specific
             /\ sublist specific factor_recommendations).
  { unfold ScoringComplete.generateRecommendations, ScoringComplete.push_if. cbv zeta.
    fold (baseline riskLevel).
    destruct (ScoringComplete.array_includes factors "unemployment"),
      (ScoringComplete.array_includes factors "no_education"),
      (ScoringComplete.array_includes factors "children_out_of_school"),
      (ScoringComplete.array_includes factors "chronic_illness");
      rewrite <- ?app_assoc; simpl;
      eexists; (split; [reflexivity || (now rewrite app_nil_r) |]);
      unfold factor_recommendations; repeat (constructor || apply sublist_skip). }
  split; [| split; [exact Hshape |]].
  - apply (sublist_NoDup _ (baseline riskLevel ++ factor_recommendations));
      [| apply generateRecommendations_sublist].
    destruct riskLevel; apply (bool_decide_unpack _); vm_compute; exact I.
  - destruct Hshape as (specific & -> & Hsub). apply sublist_length in Hsub.
    rewrite length_app. unfold factor_recommendations in Hsub. simpl in Hsub.
    destruct riskLevel; simpl; lia.
Qed.

(** Splits every conditional and keeps what the integer tests say. *)
Ltac split_integer_branches :=
  repeat match goal with
         | |- context [if ?c then _ else _] => destruct c eqn:?
         end;
  repeat match goal with
         | H : (_ <=? _) = true |- _ => apply Z.leb_le in H
         | H : (_ <=? _) = false |- _ => apply Z.leb_gt in H
         | H : (_ <? _) = true |- _ => apply Z.ltb_lt in H
         | H : (_ <? _) = false |- _ => apply Z.ltb_ge in H
         | H : (_ =? _) = true |- _ => apply Z.eqb_eq in H
         | H : (_ =? _) = false |- _ => apply Z.eqb_neq in H
         end.

Lemma prefix_map_string (f : ascii -> ascii) (needle haystack : string) :
  String.prefix needle haystack = true ->
  String.prefix (map_string f needle) (map_string f haystack) = true.
Proof.
  revert haystack. induction needle as [| a needle IH]; intros haystack.
  - intros _. now destruct haystack.
  - destruct haystack as [| b haystack]; simpl; [discriminate |].
    destruct (ascii_dec a b) as [-> | Hne]; [| discriminate].
    intros H. destruct (ascii_dec (f b) (f b)); [now apply IH | congruence].
Qed.

Lemma includes_map_string (f : ascii -> ascii) (haystack needle : string) :
  includes haystack needle = true ->
  includes (map_string f haystack) (map_string f needle) = true.
Proof.
  induction haystack as [| c haystack IH].
  - cbn [includes map_string].
    destruct (String.prefix needle "") eqn:Hp; [| discriminate].
    intros _. apply (prefix_map_string f) in Hp. cbn [map_string] in Hp.
    now rewrite Hp.
  - cbn [includes map_string].
    destruct (String.prefix needle (String c haystack)) eqn:Hp.
    + intros _. apply (prefix_map_string f) in Hp. cbn [map_string] in Hp.
      now rewrite Hp.
    + intros H. rewrite (IH H).
      now destruct (String.prefix (map_string f needle) (String (f c) (map_string f haystack))).
Qed.

(** A word found in a field is found in the lower-cased field. *)
Lemma opt_includes_lowered (field : option string) (needle : string) :
  toLowerCase needle = needle ->
  opt_includes field needle = true ->
  includes (lowered_or_empty field) needle = true.
Proof.
  intros Hlow. destruct field as [s |]; simpl; [| discriminate].
  intros H. rewrite <- Hlow. now apply includes_map_string.
Qed.

Lemma identifyRiskFactors_In person household factor :
  In factor (ScoringComplete.identifyRiskFactors person household) <->
  (Qltb (num_or (ScoringComplete.Household.monthlyIncome household) 0) 150000 = true
   /\ "extreme_poverty" = factor)
  \/ (opt_includes (ScoringComplete.Person.occupationStatus person) "chomeur" = true
      /\ "unemployment" = factor)
  \/ ((3 <=? int_or (ScoringComplete.Household.dependents household) 0) = true
      /\ "multiple_dependents" = factor)
  \/ (negb (ScoringComplete.truthy (ScoringComplete.Household.hasElectricity household)) = true
      /\ "no_electricity" = factor)
  \/ (negb (ScoringComplete.truthy (ScoringComplete.Household.hasRunningWater household)) = true
      /\ "no_water" = factor)
  \/ (opt_includes (ScoringComplete.Household.housingType household) "precaire" = true
      /\ "precarious_housing" = factor)
  \/ (ScoringComplete.Person.hasChronicIllness person = true /\ "chronic_illness" = factor)
  \/ (ScoringComplete.Person.hasDisability person = true /\ "disability" = factor)
  \/ (negb (ScoringComplete.Household.hasHealthInsurance household) = true
      /\ "no_health_insurance" = factor)
  \/ (opt_includes (ScoringComplete.Person.educationLevel person) "aucun" = true
      /\ "no_education" = factor)
  \/ ((0 <? int_or (ScoringComplete.Household.childrenOutOfSchool household) 0) = true
      /\ "children_out_of_school" = factor)
  \/ (ScoringComplete.Household.isSingleParent household = true /\ "single_parent" = factor)
  \/ (ScoringComplete.Household.isSociallyIsolated household = true
      /\ "social_isolation" = factor).
Proof.
  unfold ScoringComplete.identifyRiskFactors. cbv zeta.
  rewrite !push_if_In. simpl. tauto.
Qed.

Lemma economic_income_points person household :
  positive_size household ->
  Qltb (num_or (ScoringComplete.Household.monthlyIncome household) 0) 150000 = true ->
  40 <= ScoringComplete.calculateEconomicScore person household.
Proof.
  unfold positive_size. intros Hsize Hincome.
  unfold ScoringComplete.calculateEconomicScore. cbv zeta.
  set (income := num_or (ScoringComplete.Household.monthlyIncome household) 0) in *.
  set (size := int_or (ScoringComplete.Household.householdSize household) 1) in *.
  destruct (Qltb_spec income 150000) as [Hlt |]; [| discriminate].
  assert (Hs : (1 <= inject_Z size)%Q).
  { change 1%Q with (inject_Z 1). rewrite <- Zle_Qle. lia. }
  assert (Hper : (income / inject_Z size < 150000)%Q).
  { apply Qlt_shift_div_r; [lra |].
    destruct (Qlt_le_dec income 0) as [Hneg | Hpos].
    - assert (0 <= 150000 * inject_Z size)%Q by (apply Qmult_le_0_compat; lra). lra.
    - assert (150000 * 1 <= 150000 * inject_Z size)%Q
        by (apply Qmult_le_l; [reflexivity | exact Hs]). lra. }
  destruct (Qeq_bool (income / inject_Z size) 0).
  - unfold Math_min. split_branches; lia.
  - destruct (Qltb_spec (income / inject_Z size) 150000); [| contradiction].
    unfold Math_min. split_branches; lia.
Qed.

(** Every factor listed by [identifyRiskFactors] is counted by the score of
    its dimension: that score, when the dimension function returns, is at
    least the number of points tabulated in [factor_floor].  The household
    size is assumed positive. *)
Theorem risk_factors_reflected_in_scores today person household factor :
  positive_size household ->
  In factor (ScoringComplete.identifyRiskFactors person household) ->
  exists dimension points,
    factor_floor factor = Some (dimension, points)
    /\ forall v, dimension_score today person household dimension = Ok v -> points <= v.
Proof.
  intros Hsize Hin. apply identifyRiskFactors_In in Hin.
  destruct Hin as [[H <-] | [[H <-] | [[H <-] | [[H <-] | [[H <-] | [[H <-] | [[H <-] | [[H <-] | [[H <-] | [[H <-] | [[H <-] | [[H <-] | [H <-]]]]]]]]]]]]];
    simpl; eexists _, _; (split; [reflexivity |]); intros v Hv; simpl in Hv.
  - injection Hv as <-. now apply economic_income_points.
  - injection Hv as <-.
    pose proof (opt_includes_lowered _ "chomeur" eq_refl H) as Hocc.
    unfold ScoringComplete.calculateEconomicScore. cbv zeta. rewrite Hocc. simpl orb.
    cbv iota. unfold Math_min. split_branches; lia.
  - injection Hv as <-. apply Z.leb_le in H.
    unfold ScoringComplete.calculateEconomicScore. cbv zeta. unfold Math_min.
    split_integer_branches; lia.
  - injection Hv as <-.
    unfold ScoringComplete.calculateHousingScore. cbv zeta. rewrite H. simpl orb.
    cbv iota. unfold Math_min. split_branches; lia.
  - injection Hv as <-.
    unfold ScoringComplete.calculateHousingScore. cbv zeta. rewrite H. simpl orb.
    cbv iota. unfold Math_min. split_branches; lia.
  - injection Hv as <-.
    pose proof (opt_includes_lowered _ "precaire" eq_refl H) as Hty.
    unfold ScoringComplete.calculateHousingScore. cbv zeta. rewrite Hty. simpl orb.
    cbv iota. unfold Math_min. split_branches; lia.
  - injection Hv as <-.
    unfold ScoringComplete.calculateHealthScore. cbv zeta. rewrite H. simpl orb.
    cbv iota. unfold Math_min. split_branches; lia.
  - injection Hv as <-.
    unfold ScoringComplete.calculateHealthScore. cbv zeta. rewrite H. simpl orb.
    cbv iota. unfold Math_min. split_branches; lia.
  - injection Hv as <-.
    unfold ScoringComplete.calculateHealthScore. cbv zeta. rewrite H.
    cbv iota. unfold Math_min. split_branches; lia.
  - injection Hv as <-.
    pose proof (opt_includes_lowered _ "aucun" eq_refl H) as Hed.
    unfold ScoringComplete.calculateEducationScore. cbv zeta. rewrite Hed. simpl orb.
    cbv iota. unfold Math_min. split_branches; lia.
  - injection Hv as <-. apply Z.ltb_lt in H.
    unfold ScoringComplete.calculateEducationScore. cbv zeta. unfold Math_min.
    split_integer_branches; lia.
  - unfold ScoringComplete.calculateSocialScore in Hv. cbv zeta in Hv.
    rewrite H in Hv.
    destruct (ScoringComplete.age_ge _ 65); simpl in Hv; [discriminate |].
    injection Hv as <-. unfold Math_min. split_branches; lia.
  - unfold ScoringComplete.calculateSocialScore in Hv. cbv zeta in Hv.
    rewrite H in Hv.
    destruct (ScoringComplete.age_ge _ 65); simpl in Hv; [discriminate |].
    injection Hv as <-. unfold Math_min. split_branches; lia.
Qed.

Lemma risk_factors_reflected_witness :
  positive_size Sample.plain_household
  /\ In "extreme_poverty"
        (ScoringComplete.identifyRiskFactors Sample.sixties Sample.plain_household)
  /\ 40 <= ScoringComplete.calculateEconomicScore Sample.sixties Sample.plain_household.
Proof.
  assert (Hsize : positive_size Sample.plain_household) by (unfold positive_size; simpl; lia).
  assert (Hin : In "extreme_poverty"
                   (ScoringComplete.identifyRiskFactors Sample.sixties Sample.plain_household))
    by (simpl; now left).
  split; [exact Hsize | split; [exact Hin |]].
  destruct (risk_factors_reflected_in_scores Sample.last_day_2024 Sample.sixties
              Sample.plain_household "extreme_poverty" Hsize Hin)
    as (dimension & points & Hfloor & Hbound).
  simpl in Hfloor. injection Hfloor as <- <-.
  apply Hbound. reflexivity.
Defined.

Lemma array_includes_push_if (c : bool) (x y : string) (l : list string) :
  ScoringComplete.array_includes (ScoringComplete.push_if c x l) y
  = ScoringComplete.array_includes l y || (c && String.eqb y x).
Proof.
  unfold ScoringComplete.array_includes, ScoringComplete.push_if. destruct c; simpl.
  - rewrite existsb_app. simpl. now rewrite orb_false_r.
  - now rewrite orb_false_r.
Qed.

(** Drives a membership test through a chain of conditional pushes and
    decides the comparisons of names. *)
Ltac names_decided :=
  rewrite !array_includes_push_if;
  cbn [ScoringComplete.array_includes existsb String.eqb Ascii.eqb Bool.eqb];
  rewrite ?andb_false_r, ?andb_true_r, ?orb_false_r, ?orb_false_l.

Lemma identifyRiskFactors_includes person household :
  ScoringComplete.array_includes
    (ScoringComplete.identifyRiskFactors person household) "unemployment"
  = opt_includes (ScoringComplete.Person.occupationStatus person) "chomeur"
  /\ ScoringComplete.array_includes
       (ScoringComplete.identifyRiskFactors person household) "no_education"
     = opt_includes (ScoringComplete.Person.educationLevel person) "aucun"
  /\ ScoringComplete.array_includes
       (ScoringComplete.identifyRiskFactors person household) "children_out_of_school"
     = (0 <? int_or (ScoringComplete.Household.childrenOutOfSchool household) 0)
  /\ ScoringComplete.array_includes
       (ScoringComplete.identifyRiskFactors person household) "chronic_illness"
     = ScoringComplete.Person.hasChronicIllness person.
Proof.
  unfold ScoringComplete.identifyRiskFactors. cbv zeta.
  repeat split; names_decided; reflexivity.
Qed.

Lemma generateRecommendations_includes riskLevel factors :
  ScoringComplete.array_includes
    (ScoringComplete.generateRecommendations riskLevel factors)
    "Programme insertion professionnelle"
  = ScoringComplete.array_includes factors "unemployment"
  /\ ScoringComplete.array_includes
       (ScoringComplete.generateRecommendations riskLevel factors)
       "Programme alphabétisation"
     = ScoringComplete.array_includes factors "no_education"
  /\ ScoringComplete.array_includes
       (ScoringComplete.generateRecommendations riskLevel factors)
       "Aide à la scolarisation"
     = ScoringComplete.array_includes factors "children_out_of_school"
  /\ ScoringComplete.array_includes
       (ScoringComplete.generateRecommendations riskLevel factors)
       "Couverture santé prioritaire"
     = ScoringComplete.array_includes factors "chronic_illness".
Proof.
  unfold ScoringComplete.generateRecommendations. cbv zeta.
  repeat split; destruct riskLevel; names_decided; reflexivity.
Qed.

(** In the result of [calculateVulnerabilityScore], each factor-specific
    recommendation is present exactly when the person or household shows
    the fact it answers: the insertion programme for an occupation status
    containing "chomeur", the literacy programme for an education level
    containing "aucun" (both as written, without case folding), school aid
    for a positive number of children out of school, and priority health
    cover for a chronic illness of the person. *)
Theorem calculateVulnerabilityScore_recommendations now person household out :
  ScoringComplete.calculateVulnerabilityScore now person household = Ok out ->
  (In "Programme insertion professionnelle" (ScoringComplete.recommendations out)
   <-> opt_includes (ScoringComplete.Person.occupationStatus person) "chomeur" = true)
  /\ (In "Programme alphabétisation" (ScoringComplete.recommendations out)
      <-> opt_includes (ScoringComplete.Person.educationLevel person) "aucun" = true)
  /\ (In "Aide à la scolarisation" (ScoringComplete.recommendations out)
      <-> 0 < int_or (ScoringComplete.Household.childrenOutOfSchool household) 0)
  /\ (In "Couverture santé prioritaire" (ScoringComplete.recommendations out)
      <-> ScoringComplete.Person.hasChronicIllness person = true).
Proof.
  unfold ScoringComplete.calculateVulnerabilityScore.
  destruct (ScoringComplete.calculateDimensionScores now person household) as [d | e];
    simpl; [| discriminate].
  intros H. injection H as <-. cbn [ScoringComplete.recommendations].
  set (level := ScoringComplete.determineRiskLevel _ _).
  destruct (generateRecommendations_includes level
              (ScoringComplete.identifyRiskFactors person household))
    as (R1 & R2 & R3 & R4).
  destruct (identifyRiskFactors_includes person household) as (F1 & F2 & F3 & F4).
  rewrite <- !array_includes_In, R1, R2, R3, R4, F1, F2, F3, F4.
  rewrite Z.ltb_lt. tauto.
Qed.

Lemma calculateVulnerabilityScore_recommendations_witness :
  exists out,
    ScoringComplete.calculateVulnerabilityScore Sample.last_day_2024 Sample.sixties
      Sample.plain_household = Ok out
    /\ (In "Aide à la scolarisation" (ScoringComplete.recommendations out)
        <-> 0 < int_or (ScoringComplete.Household.childrenOutOfSchool
                          Sample.plain_household) 0).
Proof.
  eexists. split; [reflexivity |].
  apply (calculateVulnerabilityScore_recommendations Sample.last_day_2024
           Sample.sixties Sample.plain_household _ eq_refl).
Defined.

(** ** Windows of the five-dimension scores *)

Lemma Qfloor_at_least (y : Q) (lo : Z) : (inject_Z lo <= y)%Q -> lo <= Qfloor y.
Proof.
  intros Hlo. destruct (Qfloor_bounds y) as [H1 _].
  assert (A : (inject_Z lo < inject_Z (Qfloor y) + 1)%Q) by lra.
  change 1%Q with (inject_Z 1) in A. rewrite <- inject_Z_plus in A.
  rewrite <- Zlt_Qlt in A. lia.
Qed.

Lemma Qfloor_at_most (y : Q) (hi : Z) : (y < inject_Z hi + 1)%Q -> Qfloor y <= hi.
Proof.
  intros Hhi. destruct (Qfloor_bounds y) as [_ H2].
  assert (B : (inject_Z (Qfloor y) < inject_Z hi + 1)%Q) by lra.
  change 1%Q with (inject_Z 1) in B. rewrite <- inject_Z_plus in B.
  rewrite <- Zlt_Qlt in B. lia.
Qed.

Lemma calculateEconomicScore_floor person household :
  15 <= ScoringComplete.calculateEconomicScore person household.
Proof.
  unfold ScoringComplete.calculateEconomicScore. cbv zeta. unfold Math_min.
  split_branches; lia.
Qed.

Lemma calculateHousingScore_floor household :
  5 <= ScoringComplete.calculateHousingScore household.
Proof.
  unfold ScoringComplete.calculateHousingScore. cbv zeta. unfold Math_min.
  split_branches; lia.
Qed.

Lemma calculateSocialScore_ceiling today person household v :
  ScoringComplete.calculateSocialScore today person household = Ok v -> 0 <= v <= 75.
Proof.
  unfold ScoringComplete.calculateSocialScore. cbv zeta.
  destruct (ScoringComplete.age_ge _ 65); simpl; [discriminate |].
  intros H. injection H as <-. unfold Math_min. split_branches; lia.
Qed.

Lemma calculateVulnerabilityScore_parts now person household out :
  ScoringComplete.calculateVulnerabilityScore now person household = Ok out ->
  exists social,
    ScoringComplete.calculateSocialScore now person household = Ok social
    /\ ScoringComplete.dimensions out
       = {| ScoringComplete.economic :=
              inject_Z (ScoringComplete.calculateEconomicScore person household);
            ScoringComplete.housing :=
              inject_Z (ScoringComplete.calculateHousingScore household);
            ScoringComplete.health :=
              inject_Z (ScoringComplete.calculateHealthScore person household);
            ScoringComplete.education :=
              inject_Z (ScoringComplete.calculateEducationScore person household);
            ScoringComplete.social := inject_Z social |}
    /\ ScoringComplete.score out
       = Math_round (ScoringComplete.calculateWeightedScore ScoringComplete.WEIGHTS
                       (ScoringComplete.dimensions out))
    /\ ScoringComplete.level out
       = ScoringComplete.determineRiskLevel ScoringComplete.THRESHOLDS
           (ScoringComplete.calculateWeightedScore ScoringComplete.WEIGHTS
              (ScoringComplete.dimensions out)).
Proof.
  unfold ScoringComplete.calculateVulnerabilityScore,
    ScoringComplete.calculateDimensionScores.
  destruct (ScoringComplete.calculateSocialScore now person household) as [social | e];
    simpl; [| discriminate].
  intros H. injection H as <-. exists social. repeat split.
Qed.

(** Whenever the five-dimension [calculateVulnerabilityScore] returns, the
    economic score is at least 15, the housing score at least 5 and the
    social score at most 75, so the returned [score] lies between 6 and 98:
    neither 0 nor 100 is ever returned. *)
Theorem calculateVulnerabilityScore_window now person household out :
  ScoringComplete.calculateVulnerabilityScore now person household = Ok out ->
  (15 <= ScoringComplete.economic (ScoringComplete.dimensions out) <= 100)%Q
  /\ (5 <= ScoringComplete.housing (ScoringComplete.dimensions out) <= 100)%Q
  /\ (0 <= ScoringComplete.social (ScoringComplete.dimensions out) <= 75)%Q
  /\ 6 <= ScoringComplete.score out <= 98.
Proof.
  intros Hout.
  destruct (calculateVulnerabilityScore_parts _ _ _ _ Hout) as (social & Hs & Hd & Hscore & _).
  rewrite Hscore, Hd. unfold ScoringComplete.calculateWeightedScore. simpl.
  pose proof (calculateEconomicScore_floor person household) as E0.
  destruct (calculateEconomicScore_in_range person household) as [_ E1].
  pose proof (calculateHousingScore_floor household) as H0.
  destruct (calculateHousingScore_in_range household) as [_ H1].
  destruct (calculateHealthScore_in_range person household) as [M0 M1].
  destruct (calculateEducationScore_in_range person household) as [D0 D1].
  destruct (calculateSocialScore_ceiling _ _ _ _ Hs) as [S0 S1].
  rewrite Zle_Qle in E0, E1, H0, H1, M0, M1, D0, D1, S0, S1.
  change (inject_Z 15) with 15%Q in E0. change (inject_Z 100) with 100%Q in E1, H1, M1, D1.
  change (inject_Z 5) with 5%Q in H0. change (inject_Z 0) with 0%Q in M0, D0, S0.
  change (inject_Z 75) with 75%Q in S1.
  repeat split; try assumption.
  - apply Qfloor_at_least. change (inject_Z 6) with 6%Q. lra.
  - apply Qfloor_at_most. change (inject_Z 98) with 98%Q. lra.
Qed.

Lemma calculateVulnerabilityScore_window_witness :
  exists out,
    ScoringComplete.calculateVulnerabilityScore Sample.last_day_2024 Sample.sixties
      Sample.plain_household = Ok out
    /\ 6 <= ScoringComplete.score out <= 98.
Proof.
  eexists. split; [reflexivity |].
  apply (calculateVulnerabilityScore_window Sample.last_day_2024 Sample.sixties
           Sample.plain_household _ eq_refl).
Defined.

(** ** The returned score against the returned level *)

(** The returned rounded [score] agrees with the returned [level] up to the
    boundaries of the service's own thresholds 75 / 50 / 25: the level is
    decided before rounding, so a boundary value can come with either of
    the two adjacent levels, and no other disagreement occurs. *)
Theorem calculateVulnerabilityScore_level_matches_score now person household out :
  ScoringComplete.calculateVulnerabilityScore now person household = Ok out ->
  match ScoringComplete.level out with
  | CRITICAL => 75 <= ScoringComplete.score out
  | HIGH => 50 <= ScoringComplete.score out <= 75
  | MODERATE => 25 <= ScoringComplete.score out <= 50
  | LOW => ScoringComplete.score out <= 25
  end.
Proof.
  intros Hout.
  destruct (calculateVulnerabilityScore_parts _ _ _ _ Hout) as (_ & _ & _ & Hscore & Hlevel).
  rewrite Hscore, Hlevel.
  set (g := ScoringComplete.calculateWeightedScore _ _).
  unfold ScoringComplete.determineRiskLevel, Math_round.
  cbn [ScoringComplete.THRESHOLDS th_CRITICAL th_HIGH th_MODERATE].
  threshold_cases; repeat split;
    first [ apply Qfloor_at_least; unfold inject_Z; lra
          | apply Qfloor_at_most; unfold inject_Z; lra ].
Qed.

Lemma calculateVulnerabilityScore_level_witness :
  exists out,
    ScoringComplete.calculateVulnerabilityScore Sample.last_day_2024 Sample.sixties
      Sample.plain_household = Ok out
    /\ ScoringComplete.level out = MODERATE
    /\ 25 <= ScoringComplete.score out <= 50.
Proof.
  eexists. split; [reflexivity |]. split; [reflexivity |].
  apply (calculateVulnerabilityScore_level_matches_score Sample.last_day_2024
           Sample.sixties Sample.plain_household _ eq_refl).
Defined.

Lemma toFixed2_at_least (x : Q) (k : Z) :
  (inject_Z k <= x)%Q -> (inject_Z k <= toFixed2 x)%Q.
Proof.
  intros Hk. unfold toFixed2. destruct (Qltb_spec x 0).
  - pose proof (Qfloor_at_most (- x * 100 + (1 # 2)) (- k * 100)) as Hf.
    rewrite inject_Z_mult, inject_Z_opp in Hf. change (inject_Z 100) with 100%Q in Hf.
    assert (F : Qfloor (- x * 100 + (1 # 2)) <= - k * 100) by (apply Hf; lra).
    rewrite Zle_Qle, inject_Z_mult, inject_Z_opp in F.
    change (inject_Z 100) with 100%Q in F.
    set (f := inject_Z (Qfloor (- x * 100 + (1 # 2)))) in *.
    assert (E : (f / 100 == f * (1 # 100))%Q) by reflexivity.
    rewrite E. lra.
  - pose proof (Qfloor_at_least (x * 100 + (1 # 2)) (k * 100)) as Hf.
    rewrite inject_Z_mult in Hf. change (inject_Z 100) with 100%Q in Hf.
    assert (F : k * 100 <= Qfloor (x * 100 + (1 # 2))) by (apply Hf; lra).
    rewrite Zle_Qle, inject_Z_mult in F. change (inject_Z 100) with 100%Q in F.
    set (f := inject_Z (Qfloor (x * 100 + (1 # 2)))) in *.
    assert (E : (f / 100 == f * (1 # 100))%Q) by reflexivity.
    rewrite E. lra.
Qed.

Lemma toFixed2_at_most (x : Q) (k : Z) :
  (x <= inject_Z k)%Q -> (toFixed2 x <= inject_Z k)%Q.
Proof.
  intros Hk. unfold toFixed2. destruct (Qltb_spec x 0).
  - pose proof (Qfloor_at_least (- x * 100 + (1 # 2)) (- k * 100)) as Hf.
    rewrite inject_Z_mult, inject_Z_opp in Hf. change (inject_Z 100) with 100%Q in Hf.
    assert (F : - k * 100 <= Qfloor (- x * 100 + (1 # 2))) by (apply Hf; lra).
    rewrite Zle_Qle, inject_Z_mult, inject_Z_opp in F.
    change (inject_Z 100) with 100%Q in F.
    set (f := inject_Z (Qfloor (- x * 100 + (1 # 2)))) in *.
    assert (E : (f / 100 == f * (1 # 100))%Q) by reflexivity.
    rewrite E. lra.
  - pose proof (Qfloor_at_most (x * 100 + (1 # 2)) (k * 100)) as Hf.
    rewrite inject_Z_mult in Hf. change (inject_Z 100) with 100%Q in Hf.
    assert (F : Qfloor (x * 100 + (1 # 2)) <= k * 100) by (apply Hf; lra).
    rewrite Zle_Qle, inject_Z_mult in F. change (inject_Z 100) with 100%Q in F.
    set (f := inject_Z (Qfloor (x * 100 + (1 # 2)))) in *.
    assert (E : (f / 100 == f * (1 # 100))%Q) by reflexivity.
    rewrite E. lra.
Qed.

(** The two-decimal [vulnerability_score] of [calculateScoreLocally] agrees
    with the returned [risk_level] up to the boundaries 80 / 60 / 40, for
    every profile, person and household: the level is decided before
    rounding, so 80.00 can come with HIGH, and no other disagreement
    occurs. *)
Theorem scoreWith_level_matches_score (weights : WeightingProfile)
    (personData : Person.t) (householdData : option Household.t) :
  let r := scoreWith weights personData householdData in
  match risk_level r with
  | CRITICAL => (80 <= vulnerability_score r)%Q
  | HIGH => (60 <= vulnerability_score r <= 80)%Q
  | MODERATE => (40 <= vulnerability_score r <= 60)%Q
  | LOW => (vulnerability_score r <= 40)%Q
  end.
Proof.
  cbn [scoreWith risk_level vulnerability_score].
  set (total := weightedTotal _ _ _ _ _).
  unfold _determineRiskLevel.
  cbn [RISK_THRESHOLDS th_CRITICAL th_HIGH th_MODERATE].
  threshold_cases; repeat split;
    first [ apply (toFixed2_at_least total 80); unfold inject_Z; lra
          | apply (toFixed2_at_least total 60); unfold inject_Z; lra
          | apply (toFixed2_at_least total 40); unfold inject_Z; lra
          | apply (toFixed2_at_most total 80); unfold inject_Z; lra
          | apply (toFixed2_at_most total 60); unfold inject_Z; lra
          | apply (toFixed2_at_most total 40); unfold inject_Z; lra ].
Qed.

(** ** Recommendations of the four-dimension service *)

Lemma push2_if_sublist (c : bool) (x y : string) (l l' : list string) :
  sublist l l' -> sublist (push2_if c x y l) (l' ++ [x; y]).
Proof.
  intros H. unfold push2_if. destruct c.
  - now apply sublist_app.
  - now apply sublist_inserts_r.
Qed.

Lemma push2_if_length (c : bool) (x y : string) (l : list string) :
  length (push2_if c x y l) = (length l + if c then 2 else 0)%nat.
Proof. unfold push2_if. destruct c; [now rewrite length_app | lia]. Qed.

Lemma push2_if_includes (c : bool) (x y z : string) (l : list string) :
  existsb (String.eqb z) (push2_if c x y l)
  = existsb (String.eqb z) l || (c && (String.eqb z x || String.eqb z y)).
Proof.
  unfold push2_if. destruct c; simpl.
  - rewrite existsb_app. simpl. now rewrite orb_false_r.
  - now rewrite orb_false_r.
Qed.

(** The recommendation codes come in pairs, in a fixed order and without
    repetition, at most ten of them; and in the object returned by
    [calculateScoreLocally] the code PRIORITY_PROGRAM_ENROLLMENT is present
    exactly when the risk level is CRITICAL. *)
Theorem _generateRecommendations_codes (weights : WeightingProfile)
    (personData : Person.t) (householdData : option Household.t)
    (totalScore : Q) (householdScore economicScore socialScore healthScore : Z) :
  let codes := _generateRecommendations totalScore householdScore economicScore
                 socialScore healthScore in
  let r := scoreWith weights personData householdData in
  sublist codes recommendation_codes
  /\ NoDup codes
  /\ (exists pairs, length codes = 2 * pairs /\ pairs <= 5)%nat
  /\ (In "PRIORITY_PROGRAM_ENROLLMENT" (recommendations r) <-> risk_level r = CRITICAL).
Proof.
  intros codes r.
  assert (Hsub : sublist codes recommendation_codes).
  { subst codes. unfold _generateRecommendations. cbv zeta.
    change recommendation_codes with
      ((((([] ++ ["CASH_TRANSFER_PROGRAM"; "VOCATIONAL_TRAINING"])
           ++ ["HEALTH_INSURANCE"; "DISABILITY_SUPPORT"])
           ++ ["EDUCATION_SUPPORT"; "LITERACY_PROGRAM"])
           ++ ["HOUSING_ASSISTANCE"; "CHILDCARE_SUPPORT"])
           ++ ["PRIORITY_PROGRAM_ENROLLMENT"; "INTENSIVE_CASE_MANAGEMENT"]).
    repeat apply push2_if_sublist. constructor. }
  split; [exact Hsub |]. split; [| split].
  - apply (sublist_NoDup _ recommendation_codes); [| exact Hsub].
    apply (bool_decide_unpack _). vm_compute. exact I.
  - subst codes. unfold _generateRecommendations. cbv zeta.
    rewrite !push2_if_length. simpl length.
    destruct (60 <=? economicScore), (50 <=? healthScore), (50 <=? socialScore),
      (60 <=? householdScore), (Qgeb totalScore (th_CRITICAL RISK_THRESHOLDS));
      simpl;
      first [ exists 0%nat; lia | exists 1%nat; lia | exists 2%nat; lia
            | exists 3%nat; lia | exists 4%nat; lia | exists 5%nat; lia ].
  - subst r. cbn [scoreWith recommendations risk_level].
    set (total := weightedTotal _ _ _ _ _).
    rewrite <- array_includes_In. unfold ScoringComplete.array_includes.
    unfold _generateRecommendations. cbv zeta.
    rewrite !push2_if_includes.
    cbn [existsb String.eqb Ascii.eqb Bool.eqb].
    rewrite ?andb_false_r, ?andb_true_r, ?orb_false_r, ?orb_false_l.
    unfold _determineRiskLevel.
    destruct (Qgeb total (th_CRITICAL RISK_THRESHOLDS)); [tauto |].
    split; [discriminate |].
    destruct (Qgeb total (th_HIGH RISK_THRESHOLDS)); [discriminate |].
    destruct (Qgeb total (th_MODERATE RISK_THRESHOLDS)); discriminate.
Qed.

(** ** Income and vulnerability *)

Lemma num_or_zero (x : Q) : (num_or (Some x) 0 == x)%Q.
Proof.
  unfold num_or. destruct (Qeq_bool x 0) eqn:E; [| reflexivity].
  apply Qeq_bool_iff in E. now rewrite E.
Qed.

Lemma Qdiv_le_compat (a b s : Q) : (0 < s)%Q -> (a <= b)%Q -> (a / s <= b / s)%Q.
Proof.
  intros Hs Hab. unfold Qdiv. apply Qmult_le_compat_r; [exact Hab |].
  apply Qinv_le_0_compat. lra.
Qed.

Lemma _calculateEconomicVulnerabilityScore_income personData h income1 income2 :
  positive_household_size h -> (income1 <= income2)%Q ->
  _calculateEconomicVulnerabilityScore personData
    (Some (with_total_monthly_income income2 h))
  <= _calculateEconomicVulnerabilityScore personData
       (Some (with_total_monthly_income income1 h)).
Proof.
  unfold positive_household_size. intros Hsize Hle.
  unfold _calculateEconomicVulnerabilityScore, household_num. cbv zeta.
  cbn [with_total_monthly_income Household.total_monthly_income
       Household.household_size Household.housing_type].
  set (size := num_or (Household.household_size h) 1) in *.
  assert (Hper : (num_or (Some income1) 0 / size <= num_or (Some income2) 0 / size)%Q).
  { apply Qdiv_le_compat; [exact Hsize |]. now rewrite !num_or_zero. }
  set (per1 := (num_or (Some income1) 0 / size)%Q) in *.
  set (per2 := (num_or (Some income2) 0 / size)%Q) in *.
  unfold Math_min.
  repeat match goal with
         | |- context [Qltb ?x ?y] => destruct (Qltb_spec x y)
         end;
    split_branches; first [lia | exfalso; lra].
Qed.

Lemma toFixed2_monotone (x y : Q) : (x <= y)%Q -> (toFixed2 x <= toFixed2 y)%Q.
Proof.
  intros Hxy. unfold toFixed2.
  destruct (Qltb_spec x 0), (Qltb_spec y 0); try lra.
  - pose proof (Qfloor_resp_le (- y * 100 + (1 # 2)) (- x * 100 + (1 # 2))) as Hf.
    assert (F : Qfloor (- y * 100 + (1 # 2)) <= Qfloor (- x * 100 + (1 # 2)))
      by (apply Hf; lra).
    rewrite Zle_Qle in F.
    set (fx := inject_Z (Qfloor (- x * 100 + (1 # 2)))) in *.
    set (fy := inject_Z (Qfloor (- y * 100 + (1 # 2)))) in *.
    assert (Ex : (fx / 100 == fx * (1 # 100))%Q) by reflexivity.
    assert (Ey : (fy / 100 == fy * (1 # 100))%Q) by reflexivity.
    rewrite Ex, Ey. lra.
  - pose proof (toFixed2_at_most x 0) as Hx. pose proof (toFixed2_at_least y 0) as Hy.
    unfold toFixed2 in Hx, Hy.
    destruct (Qltb_spec x 0); [| lra]. destruct (Qltb_spec y 0); [lra |].
    unfold inject_Z in Hx at 1. unfold inject_Z in Hy at 1.
    assert (Hx' := Hx ltac:(lra)). assert (Hy' := Hy ltac:(lra)). lra.
  - pose proof (Qfloor_resp_le (x * 100 + (1 # 2)) (y * 100 + (1 # 2))) as Hf.
    assert (F : Qfloor (x * 100 + (1 # 2)) <= Qfloor (y * 100 + (1 # 2)))
      by (apply Hf; lra).
    rewrite Zle_Qle in F.
    set (fx := inject_Z (Qfloor (x * 100 + (1 # 2)))) in *.
    set (fy := inject_Z (Qfloor (y * 100 + (1 # 2)))) in *.
    assert (Ex : (fx / 100 == fx * (1 # 100))%Q) by reflexivity.
    assert (Ey : (fy / 100 == fy * (1 # 100))%Q) by reflexivity.
    rewrite Ex, Ey. lra.
Qed.

Lemma scoreWith_fields weights personData householdData :
  let total :=
    weightedTotal weights
      (inject_Z (_calculateHouseholdCompositionScore householdData))
      (inject_Z (_calculateEconomicVulnerabilityScore personData householdData))
      (inject_Z (_calculateSocialVulnerabilityScore personData))
      (inject_Z (_calculateHealthVulnerabilityScore personData householdData)) in
  vulnerability_score (scoreWith weights personData householdData) = toFixed2 total
  /\ risk_level (scoreWith weights personData householdData) = _determineRiskLevel total
  /\ economic_vulnerability_score (scoreWith weights personData householdData)
     = toFixed2 (inject_Z (_calculateEconomicVulnerabilityScore personData householdData)).
Proof. repeat split. Qed.

Lemma income_leaves_other_scores personData h income :
  _calculateHouseholdCompositionScore (Some (with_total_monthly_income income h))
  = _calculateHouseholdCompositionScore (Some h)
  /\ _calculateHealthVulnerabilityScore personData (Some (with_total_monthly_income income h))
     = _calculateHealthVulnerabilityScore personData (Some h).
Proof. split; reflexivity. Qed.

Lemma weightedTotal_economic_monotone weights hs ss hl (e1 e2 : Q) :
  (0 <= economic_vulnerability_weight weights)%Q -> (e2 <= e1)%Q ->
  (weightedTotal weights hs e2 ss hl <= weightedTotal weights hs e1 ss hl)%Q.
Proof.
  intros Hw He. unfold weightedTotal.
  set (w := economic_vulnerability_weight weights) in *.
  assert (Hw' : (0 <= w / 100)%Q).
  { assert (E : (w / 100 == w * (1 # 100))%Q) by reflexivity. rewrite E. lra. }
  assert (e2 * (w / 100) <= e1 * (w / 100))%Q by (apply Qmult_le_compat_r; assumption).
  lra.
Qed.

(** With a positive household size and a non-negative economic weight, a
    higher household income never raises the economic score, the
    two-decimal [vulnerability_score] or the risk level returned by
    [calculateScoreLocally], everything else being equal. *)
Theorem scoreWith_income_monotone (weights : WeightingProfile) (personData : Person.t)
    (h : Household.t) (income1 income2 : Q) :
  positive_household_size h ->
  (0 <= economic_vulnerability_weight weights)%Q ->
  (income1 <= income2)%Q ->
  let poorer := scoreWith weights personData (Some (with_total_monthly_income income1 h)) in
  let richer := scoreWith weights personData (Some (with_total_monthly_income income2 h)) in
  (economic_vulnerability_score richer <= economic_vulnerability_score poorer)%Q
  /\ (vulnerability_score richer <= vulnerability_score poorer)%Q
  /\ rank (risk_level richer) <= rank (risk_level poorer).
Proof.
  intros Hsize Hw Hle poorer richer. subst poorer richer.
  pose proof (_calculateEconomicVulnerabilityScore_income personData h _ _ Hsize Hle) as He.
  rewrite Zle_Qle in He.
  destruct (scoreWith_fields weights personData (Some (with_total_monthly_income income1 h)))
    as (V1 & L1 & E1).
  destruct (scoreWith_fields weights personData (Some (with_total_monthly_income income2 h)))
    as (V2 & L2 & E2).
  rewrite V1, V2, L1, L2, E1, E2.
  destruct (income_leaves_other_scores personData h income1) as (-> & ->).
  destruct (income_leaves_other_scores personData h income2) as (-> & ->).
  pose proof (weightedTotal_economic_monotone weights
                (inject_Z (_calculateHouseholdCompositionScore (Some h)))
                (inject_Z (_calculateSocialVulnerabilityScore personData))
                (inject_Z (_calculateHealthVulnerabilityScore personData (Some h)))
                _ _ Hw He) as Htotal.
  split; [| split].
  - now apply toFixed2_monotone.
  - now apply toFixed2_monotone.
  - rewrite !_determineRiskLevel_eq. apply determineRiskLevel_monotone; simpl; try lra.
    exact Htotal.
Qed.

Lemma scoreWith_income_witness :
  let poorer := scoreWith DEFAULT_WEIGHTING_PROFILE Sample.adult
                  (Some (with_total_monthly_income 100000 Sample.large_household)) in
  let richer := scoreWith DEFAULT_WEIGHTING_PROFILE Sample.adult
                  (Some (with_total_monthly_income 3000000 Sample.large_household)) in
  (economic_vulnerability_score richer <= economic_vulnerability_score poorer)%Q
  /\ (vulnerability_score richer <= vulnerability_score poorer)%Q
  /\ rank (risk_level richer) <= rank (risk_level poorer).
Proof.
  apply (scoreWith_income_monotone DEFAULT_WEIGHTING_PROFILE Sample.adult
           Sample.large_household 100000 3000000).
  - unfold positive_household_size, Qlt. simpl. lia.
  - unfold Qle. simpl. lia.
  - unfold Qle. simpl. lia.
Defined.

(** ** The weighting profile over a sequence of calls *)

Lemma after_calls_cache (this : Service) (replies : list (Reply WeightingProfile)) :
  cachedWeightingProfile (after_calls this replies)
  = match cachedWeightingProfile this with
    | Some cached => Some cached
    | None => first_fetched replies
    end.
Proof.
  unfold after_calls. revert this.
  induction replies as [| reply rest IH]; intros this; simpl.
  - now destruct (cachedWeightingProfile this).
  - rewrite IH. unfold getWeightingProfile.
    destruct (cachedWeightingProfile this) as [cached |] eqn:Hc; simpl.
    + now rewrite Hc.
    + destruct reply as [[data |] | error]; simpl; try rewrite Hc; reflexivity.
Qed.

Lemma first_fetched_app (replies : list (Reply WeightingProfile)) (reply : Reply WeightingProfile) :
  first_fetched (replies ++ [reply])
  = match first_fetched replies with
    | Some data => Some data
    | None => first_fetched [reply]
    end.
Proof.
  induction replies as [| r rest IH]; simpl.
  - now destruct reply as [[data |] | error].
  - destruct r as [[data |] | error]; simpl; auto.
Qed.


(** ** One cache entry per person *)

Section CacheProperties.

Context {Assessment : Type}.
Variable JSON_stringify : Assessment -> string.
Variable JSON_parse : string -> option Assessment.

(** A successful calculation for one person changes nothing for another
    person: a later failing call for the other person returns exactly what
    it would have returned before, from the cache or as a failure. *)
Theorem calculateVulnerabilityScore_other_person
    (post failing : Request -> Reply Assessment) (disk_ok : bool)
    (storage : gmap string string) (personId other : string)
    (force forceOther : bool) (data : Assessment) (error : HttpError) :
  personId <> other ->
  post {| person_id := personId; force_recalculate := force |} = Resolved (Some data) ->
  failing {| person_id := other; force_recalculate := forceOther |} = Rejected error ->
  let storage' := fst (calculateVulnerabilityScore Assessment JSON_stringify JSON_parse
                         post true storage personId force) in
  snd (calculateVulnerabilityScore Assessment JSON_stringify JSON_parse
         failing disk_ok storage' other forceOther)
  = snd (calculateVulnerabilityScore Assessment JSON_stringify JSON_parse
           failing disk_ok storage other forceOther).
Proof.
  intros Hne Hpost Hfail storage'. subst storage'.
  unfold calculateVulnerabilityScore. rewrite Hpost, Hfail. cbn [fst].
  rewrite (_getCachedAssessment_other_person JSON_stringify JSON_parse
             personId other data disk_ok storage Hne).
  now destruct (_getCachedAssessment Assessment JSON_parse disk_ok other storage).
Qed.

End CacheProperties.

Lemma calculateVulnerabilityScore_other_person_witness :
  let post := fun _ : Request => Resolved (Some "A2") in
  let failing := fun _ : Request => Rejected (A := string) Sample.network_down in
  let storage : gmap string string := <[assessment_key "p2" := "B"]> ∅ in
  "p1" <> "p2"
  /\ snd (calculateVulnerabilityScore string id Some failing true
            (fst (calculateVulnerabilityScore string id Some post true storage "p1" false))
            "p2" false)
     = snd (calculateVulnerabilityScore string id Some failing true storage "p2" false).
Proof.
  intros post failing storage.
  assert (Hne : "p1" <> "p2") by discriminate.
  split; [exact Hne |].
  exact (calculateVulnerabilityScore_other_person id Some post failing true storage
           "p1" "p2" false false "A2" Sample.network_down Hne eq_refl eq_refl).
Defined.

(** ** The computed age *)

(** The computed age never decreases when the calendar date advances (a
    missing birth date gives 0 and an unreadable one NaN at every date),
    and on each anniversary of the birth it is the difference of the
    years. *)
Theorem calculateAge_monotone (today1 today2 : ScoringComplete.Clock)
    (birthDate : ScoringComplete.BirthDate) :
  date_le today1 today2 ->
  age_le (ScoringComplete.calculateAge today1 birthDate)
         (ScoringComplete.calculateAge today2 birthDate)
  /\ (ScoringComplete.age_ge (ScoringComplete.calculateAge today1 birthDate) 65 = true ->
      ScoringComplete.age_ge (ScoringComplete.calculateAge today2 birthDate) 65 = true)
  /\ forall year,
      ScoringComplete.calculateAge today2
        (ScoringComplete.BirthOn year (ScoringComplete.month today2)
           (ScoringComplete.date today2))
      = Some (ScoringComplete.fullYear today2 - year).
Proof.
  intros Hle.
  assert (Hmono : age_le (ScoringComplete.calculateAge today1 birthDate)
                         (ScoringComplete.calculateAge today2 birthDate)).
  { unfold date_le in Hle. destruct birthDate as [| | y m d]; simpl; [lia | exact I |].
    split_integer_branches; simpl; lia. }
  split; [exact Hmono | split].
  - unfold age_le in Hmono.
    destruct (ScoringComplete.calculateAge today1 birthDate) as [a1 |],
      (ScoringComplete.calculateAge today2 birthDate) as [a2 |];
      simpl in *; try discriminate; try contradiction.
    rewrite !Z.leb_le. lia.
  - intros year. simpl. rewrite Z.sub_diag. simpl. now rewrite Z.ltb_irrefl.
Qed.

Lemma calculateAge_monotone_witness :
  date_le Sample.last_day_2024 Sample.first_day_2025
  /\ age_le (ScoringComplete.calculateAge Sample.last_day_2024
               (ScoringComplete.Person.birthDate Sample.sixties))
            (ScoringComplete.calculateAge Sample.first_day_2025
               (ScoringComplete.Person.birthDate Sample.sixties)).
Proof.
  assert (H : date_le Sample.last_day_2024 Sample.first_day_2025)
    by (left; simpl; lia).
  split; [exact H |].
  exact (proj1 (calculateAge_monotone Sample.last_day_2024 Sample.first_day_2025
                  (ScoringComplete.Person.birthDate Sample.sixties) H)).
Defined.

(** ** The hook: when a synchronisation can start *)

Lemma step_offline autoSync h e :
  is_connection_change e = false -> isOnline h = false ->
  isOnline (OfflineHook.step autoSync h e) = false
  /\ (OfflineHook.inFlight (OfflineHook.step autoSync h e) <= OfflineHook.inFlight h)%nat.
Proof.
  unfold isOnline. destruct h as [c r n s running waiting].
  destruct e; simpl; intros He Hoff; try discriminate.
  - split; [exact Hoff | lia].
  - unfold OfflineHook.autoSyncEffect, OfflineHook.syncQueue. simpl in *.
    destruct c, r; simpl in *; try discriminate; split; reflexivity || lia.
  - unfold OfflineHook.syncQueue. simpl in *.
    destruct c, r; simpl in *; try discriminate; split; reflexivity || lia.
  - destruct running; simpl; split; try exact Hoff; lia.
  - destruct running; simpl; split; try exact Hoff; lia.
  - destruct waiting; simpl; split; try exact Hoff; lia.
Qed.



Lemma step_stays_idle h e :
  OfflineHook.is_direct_call e = false -> idle h -> idle (OfflineHook.step false h e).
Proof.
  unfold idle. destruct h as [c r n s running waiting].
  destruct e; simpl; intros He (H1 & H2 & H3); try discriminate; subst;
    repeat split; try reflexivity.
  all: unfold OfflineHook.autoSyncEffect; simpl; now rewrite !andb_false_r.
Qed.

(** With the option [autoSync] off, the hook never starts a
    synchronisation by itself: after any sequence of events without a
    direct call of [syncQueue], no call is in flight and the flag is
    down. *)
Theorem autoSync_off_never_starts (events : list OfflineHook.Event) :
  no_direct_call events ->
  idle (OfflineHook.run false OfflineHook.initial events).
Proof.
  unfold no_direct_call, OfflineHook.run.
  assert (Hgen : forall h, idle h ->
            forallb (fun e => negb (OfflineHook.is_direct_call e)) events = true ->
            idle (fold_left (OfflineHook.step false) events h)).
  { induction events as [| e rest IH]; intros h Hidle Hev; simpl in *.
    - exact Hidle.
    - apply andb_prop in Hev as [He Hrest]. apply negb_true_iff in He.
      apply IH; [| exact Hrest]. now apply step_stays_idle. }
  intros Hev. apply Hgen; [| exact Hev]. repeat split.
Qed.

Lemma autoSync_off_witness :
  idle (OfflineHook.run false OfflineHook.initial
          [OfflineHook.TimerLoadedPendingCount 4; OfflineHook.AutoSyncEffect;
           OfflineHook.ConnectionChange true (Some true); OfflineHook.AutoSyncEffect]).
Proof.
  apply (autoSync_off_never_starts
           [OfflineHook.TimerLoadedPendingCount 4; OfflineHook.AutoSyncEffect;
            OfflineHook.ConnectionChange true (Some true); OfflineHook.AutoSyncEffect]).
  reflexivity.
Defined.

(** ** The form wizard *)

Section WizardProperties.

Context {FormData StepData : Type}.
Variable spread : FormData -> StepData -> FormData.
Variable props : FormWizard.Props FormData.

Local Abbreviation Wizard := (FormWizard.Wizard FormData).
Local Abbreviation step := (FormWizard.step FormData StepData spread props).
Local Abbreviation run := (FormWizard.run FormData StepData spread props).
Local Abbreviation totalSteps := (FormWizard.totalSteps FormData props).
Local Abbreviation all_accepted := (FormWizard.all_accepted FormData props).

Lemma validateCurrentStep_keeps (w : Wizard) :
  (FormWizard.currentStep FormData w < totalSteps)%nat ->
  exists w' isValid,
    FormWizard.validateCurrentStep FormData props w = Ok (w', isValid)
    /\ FormWizard.currentStep FormData w' = FormWizard.currentStep FormData w
    /\ FormWizard.formData FormData w' = FormWizard.formData FormData w
    /\ FormWizard.completions FormData w' = FormWizard.completions FormData w.
Proof.
  intros Hlt. unfold FormWizard.validateCurrentStep.
  destruct (FormWizard.steps FormData props !! FormWizard.currentStep FormData w)
    as [config |] eqn:Hconfig.
  - destruct (FormWizard.validate FormData config) as [validateFn |].
    + cbn [FormWizard.setLoading FormWizard.formData].
      destruct (validateFn (FormWizard.formData FormData w)) as [[b | v |] | e];
        cbn; eexists _, _; repeat split.
    + eexists _, _. repeat split.
  - apply lookup_ge_None in Hconfig. unfold FormWizard.totalSteps in Hlt. lia.
Qed.

Lemma handleComplete_keeps (w : Wizard) :
  FormWizard.currentStep FormData (FormWizard.handleComplete FormData props w)
  = FormWizard.currentStep FormData w
  /\ FormWizard.formData FormData (FormWizard.handleComplete FormData props w)
     = FormWizard.formData FormData w.
Proof.
  unfold FormWizard.handleComplete. cbv zeta.
  destruct (FormWizard.validateAllSteps FormData props _) as [[|] | e]; cbn;
    try (split; reflexivity).
  destruct (FormWizard.onComplete FormData props) as [callback |]; cbn;
    [destruct (callback _) | ]; cbn; split; reflexivity.
Qed.

Lemma step_in_range (w : Wizard) (e : FormWizard.Event StepData) :
  (FormWizard.currentStep FormData w < totalSteps)%nat ->
  exists w', step w e = Ok w'
             /\ (FormWizard.currentStep FormData w' < totalSteps)%nat.
Proof.
  intros Hlt. destruct e as [| | stepIndex | stepData]; cbn [FormWizard.step].
  - unfold FormWizard.goToNextStep.
    destruct (validateCurrentStep_keeps w Hlt) as (w' & isValid & -> & Hcur & _).
    cbn [bind]. destruct isValid; cbn [negb].
    + unfold FormWizard.isLastStep, FormWizard.totalSteps in *.
      destruct (length (FormWizard.steps FormData props)) as [| last] eqn:Hlen; [lia |].
      destruct (Nat.eqb_spec (FormWizard.currentStep FormData w') last) as [Heq | Hne].
      * eexists. split; [reflexivity |].
        rewrite (proj1 (handleComplete_keeps w')). lia.
      * eexists. split; [reflexivity |]. cbn. lia.
    + eexists. split; [reflexivity |]. cbn. lia.
  - eexists. split; [reflexivity |]. unfold FormWizard.goToPreviousStep.
    destruct (negb _ && _); cbn; lia.
  - eexists. split; [reflexivity |]. unfold FormWizard.jumpToStep.
    destruct (Z.leb_spec 0 stepIndex), (Z.ltb_spec stepIndex (Z.of_nat totalSteps));
      cbn; lia.
  - eexists. split; [reflexivity |]. cbn. exact Hlt.
Qed.

(** With at least one step, no sequence of navigation events (next,
    previous, jump to any integer index, data update) throws, and the
    current step always stays a valid index of [steps]. *)
Theorem wizard_step_in_range (initialData : FormData)
    (events : list (FormWizard.Event StepData)) :
  FormWizard.steps FormData props <> [] ->
  exists w, run (FormWizard.mount FormData initialData) events = Ok w
            /\ (FormWizard.currentStep FormData w < totalSteps)%nat.
Proof.
  intros Hne.
  assert (H0 : (FormWizard.currentStep FormData (FormWizard.mount FormData initialData)
                < totalSteps)%nat).
  { unfold FormWizard.totalSteps. cbn.
    destruct (FormWizard.steps FormData props); [contradiction | cbn; lia]. }
  revert H0. generalize (FormWizard.mount FormData initialData).
  induction events as [| e rest IH]; intros w Hlt; cbn [FormWizard.run].
  - exists w. split; [reflexivity | exact Hlt].
  - destruct (step_in_range w e Hlt) as (w' & -> & Hlt'). cbn [bind]. now apply IH.
Qed.

Lemma validateAllSteps_from_accepts (remaining : list (FormWizard.StepConfig FormData))
    (data : FormData) :
  FormWizard.validateAllSteps_from FormData remaining data = Ok true ->
  Forall (fun stepConfig =>
            match FormWizard.validate FormData stepConfig with
            | None => True
            | Some validateFn =>
                exists result, validateFn data = Ok result
                               /\ FormWizard.validity result = Ok true
            end) remaining.
Proof.
  induction remaining as [| stepConfig rest IH]; cbn [FormWizard.validateAllSteps_from].
  - constructor.
  - destruct (FormWizard.validate FormData stepConfig) as [validateFn |] eqn:Hv.
    + destruct (validateFn data) as [result | e] eqn:Hr; cbn [bind]; [| discriminate].
      destruct (FormWizard.validity result) as [[|] | e] eqn:Hvalid; cbn [bind];
        try discriminate.
      intros H. constructor; [| now apply IH].
      rewrite Hv. exists result. now split.
    + intros H. constructor; [now rewrite Hv | now apply IH].
Qed.

Lemma step_all_accepted (w w' : Wizard) (e : FormWizard.Event StepData) :
  all_accepted w -> step w e = Ok w' -> all_accepted w'.
Proof.
  unfold FormWizard.all_accepted. intros Hacc.
  destruct e as [| | stepIndex | stepData]; cbn [FormWizard.step].
  - unfold FormWizard.goToNextStep, FormWizard.validateCurrentStep.
    destruct (FormWizard.steps FormData props !! FormWizard.currentStep FormData w)
      as [config |]; [| discriminate].
    assert (Hdone : forall v : Wizard,
               FormWizard.completions FormData v = FormWizard.completions FormData w ->
               Forall (FormWizard.accepted_by_all FormData props)
                 (FormWizard.completions FormData
                    (FormWizard.handleComplete FormData props v))).
    { intros v Hv. unfold FormWizard.handleComplete. cbv zeta.
      destruct (FormWizard.validateAllSteps FormData props
                  (FormWizard.setLoading FormData true v)) as [[|] | e] eqn:Hall;
        cbn; rewrite ?Hv; try exact Hacc.
      destruct (FormWizard.onComplete FormData props) as [callback |]; cbn;
        rewrite ?Hv; try exact Hacc.
      assert (Hnew : Forall (FormWizard.accepted_by_all FormData props)
                       (FormWizard.completions FormData w
                        ++ [FormWizard.formData FormData v])).
      { apply Forall_app. split; [exact Hacc |]. constructor; [| constructor].
        apply validateAllSteps_from_accepts. exact Hall. }
      destruct (callback _); cbn; rewrite ?Hv; exact Hnew. }
    destruct (FormWizard.validate FormData config) as [validateFn |].
    + cbn [FormWizard.setLoading FormWizard.formData].
      destruct (validateFn (FormWizard.formData FormData w)) as [[[|] | [|] |] | e];
        cbn [FormWizard.validity bind negb];
        try (intros H; injection H as <-; cbn; exact Hacc);
        destruct (FormWizard.isLastStep FormData props _);
        intros H; injection H as <-; try (cbn; exact Hacc); now apply Hdone.
    + cbn [bind negb]. destruct (FormWizard.isLastStep FormData props w);
        intros H; injection H as <-; [now apply Hdone | cbn; exact Hacc].
  - intros H. injection H as <-. unfold FormWizard.goToPreviousStep.
    destruct (negb _ && _); cbn; exact Hacc.
  - intros H. injection H as <-. unfold FormWizard.jumpToStep.
    destruct (_ && _); cbn; exact Hacc.
  - intros H. injection H as <-. cbn. exact Hacc.
Qed.

(** Whatever the navigation does, including jumps over unvalidated steps,
    [onComplete] is only ever called with data that every step's validator
    has just accepted. *)
Theorem wizard_submits_validated_data (initialData : FormData)
    (events : list (FormWizard.Event StepData)) (w : Wizard) :
  run (FormWizard.mount FormData initialData) events = Ok w ->
  Forall (FormWizard.accepted_by_all FormData props) (FormWizard.completions FormData w).
Proof.
  assert (H0 : all_accepted (FormWizard.mount FormData initialData)) by constructor.
  revert H0. generalize (FormWizard.mount FormData initialData).
  induction events as [| e rest IH]; intros v Hacc; cbn [FormWizard.run].
  - intros H. injection H as <-. exact Hacc.
  - destruct (step v e) as [v' | err] eqn:Hstep; cbn [bind]; [| discriminate].
    apply IH. now apply (step_all_accepted v v' e).
Qed.

Lemma step_forward_only (w w' : Wizard) (e : FormWizard.Event StepData) :
  FormWizard.allowBackNavigation FormData props = false ->
  FormWizard.is_jump StepData e = false ->
  step w e = Ok w' ->
  (FormWizard.currentStep FormData w <= FormWizard.currentStep FormData w'
   <= S (FormWizard.currentStep FormData w))%nat.
Proof.
  intros Hback Hjump.
  destruct e as [| | stepIndex | stepData]; cbn [FormWizard.step]; try discriminate.
  - unfold FormWizard.goToNextStep.
    destruct (FormWizard.validateCurrentStep FormData props w) as [[v isValid] | err] eqn:Hv;
      cbn [bind]; [| discriminate].
    assert (Hcur : FormWizard.currentStep FormData v = FormWizard.currentStep FormData w).
    { unfold FormWizard.validateCurrentStep in Hv.
      destruct (FormWizard.steps FormData props !! FormWizard.currentStep FormData w)
        as [config |]; [| discriminate].
      destruct (FormWizard.validate FormData config) as [validateFn |].
      - cbn [FormWizard.setLoading FormWizard.formData] in Hv.
        destruct (validateFn (FormWizard.formData FormData w)) as [[b | b |] | e];
          cbn in Hv; injection Hv as <- _; reflexivity.
      - injection Hv as <- _. reflexivity. }
    destruct isValid; cbn [negb].
    + destruct (FormWizard.isLastStep FormData props v); intros H; injection H as <-.
      * rewrite (proj1 (handleComplete_keeps v)). lia.
      * cbn. lia.
    + intros H. injection H as <-. cbn. lia.
  - intros H. injection H as <-. unfold FormWizard.goToPreviousStep.
    rewrite Hback, andb_false_r. lia.
  - intros H. injection H as <-. cbn. lia.
Qed.

(** With [allowBackNavigation] off and no jump, the wizard only moves
    forward, one step at a time: after any sequence of next, previous and
    update events the current step is at least the starting one and at
    most the number of events further. *)
Theorem wizard_forward_only (w0 w : Wizard) (events : list (FormWizard.Event StepData)) :
  FormWizard.allowBackNavigation FormData props = false ->
  forallb (fun e => negb (FormWizard.is_jump StepData e)) events = true ->
  run w0 events = Ok w ->
  (FormWizard.currentStep FormData w0 <= FormWizard.currentStep FormData w
   <= FormWizard.currentStep FormData w0 + length events)%nat.
Proof.
  intros Hback. revert w0.
  induction events as [| e rest IH]; intros w0 Hev; cbn [FormWizard.run].
  - intros H. injection H as <-. cbn. lia.
  - cbn in Hev. apply andb_prop in Hev as [He Hrest]. apply negb_true_iff in He.
    destruct (step w0 e) as [v | err] eqn:Hstep; cbn [bind]; [| discriminate].
    intros Hrun. specialize (IH v Hrest Hrun).
    pose proof (step_forward_only w0 v e Hback He Hstep). cbn [length]. lia.
Qed.

End WizardProperties.

Lemma wizard_step_in_range_witness :
  exists w,
    FormWizard.run nat nat WizardSample.replace WizardSample.props
      (FormWizard.mount nat 0%nat) WizardSample.session = Ok w
    /\ (FormWizard.currentStep nat w < FormWizard.totalSteps nat WizardSample.props)%nat.
Proof.
  apply (wizard_step_in_range WizardSample.replace WizardSample.props 0%nat
           WizardSample.session).
  discriminate.
Defined.

Lemma wizard_submits_validated_witness :
  Forall (FormWizard.accepted_by_all nat WizardSample.props) [5%nat].
Proof.
  exact (wizard_submits_validated_data WizardSample.replace WizardSample.props 0%nat
           WizardSample.session _ eq_refl).
Defined.

Lemma wizard_forward_only_witness :
  exists w,
    FormWizard.run nat nat WizardSample.replace WizardSample.props
      (FormWizard.mount nat 0%nat) WizardSample.session = Ok w
    /\ (0 <= FormWizard.currentStep nat w <= 0 + 5)%nat.
Proof.
  eexists. split; [reflexivity |].
  exact (wizard_forward_only WizardSample.replace WizardSample.props
           (FormWizard.mount nat 0%nat) _ WizardSample.session eq_refl eq_refl eq_refl).
Defined.

(** ** Offline documents *)

Section CameraProperties.

Context {Json JSValue Upload : Type}.
Variable JSON_parse : string -> option Json.
Variable read_fields : Json -> option (JSValue * JSValue).
Variable not_nullish : JSValue -> bool.
Variable stringify_document : JSValue -> JSValue -> string -> string.
Variable clock : nat -> string * string.
Variable apiClient_post : JSValue -> JSValue -> Reply Upload.
Variable disk_ok : bool.

Local Abbreviation Device := CameraService.Device.
Local Abbreviation uploadDocument :=
  (CameraService.uploadDocument JSValue Upload not_nullish stringify_document clock
     apiClient_post disk_ok).
Local Abbreviation _saveForOfflineSync :=
  (CameraService._saveForOfflineSync JSValue stringify_document clock disk_ok).
Local Abbreviation getPendingDocuments :=
  (CameraService.getPendingDocuments Json JSON_parse disk_ok).
Local Abbreviation collect_documents :=
  (CameraService.collect_documents Json JSON_parse disk_ok).
Local Abbreviation sync_loop :=
  (CameraService.sync_loop Json JSValue Upload read_fields not_nullish stringify_document
     clock apiClient_post disk_ok).
Local Abbreviation syncPendingDocuments :=
  (CameraService.syncPendingDocuments Json JSValue Upload JSON_parse read_fields
     not_nullish stringify_document clock apiClient_post disk_ok).
Local Abbreviation uploads :=
  (CameraService.uploads Json JSValue Upload read_fields not_nullish apiClient_post).
Local Abbreviation readable := (CameraService.readable Json JSValue read_fields).

Lemma uploadDocument_success image personId device :
  CameraService.success Upload (snd (uploadDocument image personId device))
  = not_nullish image
    && match apiClient_post image personId with
       | Resolved (Some _) => true
       | _ => false
       end.
Proof.
  unfold CameraService.uploadDocument. destruct (not_nullish image); [| reflexivity].
  now destruct (apiClient_post image personId) as [[data |] | error].
Qed.

Lemma sync_loop_counts pendingDocs device synced failed :
  match snd (sync_loop pendingDocs device synced failed) with
  | Ok (synced', failed') =>
      (synced' = synced + length (List.filter uploads pendingDocs))%nat
      /\ (synced' + failed' = synced + failed + length pendingDocs)%nat
  | Throw _ => exists document, In document pendingDocs /\ ~ readable document
  end.
Proof.
  revert device synced failed.
  induction pendingDocs as [| [key data] rest IH]; intros device synced failed.
  - cbn. lia.
  - cbn [CameraService.sync_loop].
    destruct (read_fields data) as [[image personId] |] eqn:Hread.
    + pose proof (uploadDocument_success image personId device) as Hs.
      destruct (uploadDocument image personId device) as [device' result].
      cbn [snd] in Hs.
      assert (Hu : uploads (key, data) = CameraService.success Upload result).
      { unfold CameraService.uploads. cbn [snd]. now rewrite Hread, Hs. }
      cbn [List.filter]. rewrite Hu.
      destruct (CameraService.success Upload result).
      * match goal with |- context [sync_loop rest ?d ?a ?b] => specialize (IH d a b) end.
        destruct (snd (sync_loop rest _ _ _)) as [[s' f'] | e].
        -- cbn [length]. lia.
        -- destruct IH as (document & Hin & Hbad). exists document. split; [now right | exact Hbad].
      * specialize (IH device' synced (S failed)).
        destruct (snd (sync_loop rest _ _ _)) as [[s' f'] | e].
        -- cbn [length]. lia.
        -- destruct IH as (document & Hin & Hbad). exists document. split; [now right | exact Hbad].
    + cbn [snd]. exists (key, data). split; [now left |].
      unfold CameraService.readable. cbn [snd]. rewrite Hread. tauto.
Qed.

(** [syncPendingDocuments] answers "nothing pending" exactly when there is
    no pending document; otherwise its summary counts the documents whose
    upload succeeded, [synced + failed = total] is the number of pending
    documents, and it reports an error only when the data of some pending
    document is null. *)
Theorem syncPendingDocuments_summary (device : Device) :
  let pending := getPendingDocuments (CameraService.storage device) in
  match snd (syncPendingDocuments device) with
  | CameraService.NothingPending => pending = []
  | CameraService.Summary synced failed total =>
      synced = length (List.filter uploads pending)
      /\ (synced + failed = total)%nat
      /\ total = length pending /\ (1 <= total)%nat
  | CameraService.SyncError _ => exists document, In document pending /\ ~ readable document
  end.
Proof.
  intros pending. unfold CameraService.syncPendingDocuments. fold pending.
  destruct pending as [| first rest] eqn:Hp; [reflexivity |].
  pose proof (sync_loop_counts (first :: rest) device 0 0) as Hc.
  destruct (sync_loop (first :: rest) device 0 0) as [device' [[s f] | e]]; cbn [snd] in *.
  - destruct Hc as [Hs Hsum]. repeat split; cbn [length] in *; lia.
  - exact Hc.
Qed.

Lemma saved_key_is_document_key (now : string) :
  CameraService.is_document_key (String.append "offline_document_" now) = true.
Proof. unfold CameraService.is_document_key. simpl. now destruct now. Qed.

Lemma _saveForOfflineSync_storage image personId device :
  (forall key, is_Some (CameraService.storage device !! key) ->
               is_Some (CameraService.storage (_saveForOfflineSync image personId device) !! key))
  /\ CameraService.same_outside_documents
       (CameraService.storage device)
       (CameraService.storage (_saveForOfflineSync image personId device)).
Proof.
  unfold CameraService._saveForOfflineSync, setItem.
  destruct (clock (CameraService.saves device)) as [now iso].
  destruct disk_ok; cbn [fst CameraService.storage]; split; try tauto.
  - intros key Hk. destruct (decide (String.append "offline_document_" now = key)) as [<- | Hne].
    + rewrite lookup_insert_eq. eauto.
    + now rewrite lookup_insert_ne.
  - intros key Hk. rewrite lookup_insert_ne; [reflexivity |].
    intros <-. rewrite saved_key_is_document_key in Hk. discriminate.
  - intros key _. reflexivity.
Qed.

Lemma uploadDocument_storage image personId device :
  (forall key, is_Some (CameraService.storage device !! key) ->
               is_Some (CameraService.storage (fst (uploadDocument image personId device)) !! key))
  /\ CameraService.same_outside_documents
       (CameraService.storage device)
       (CameraService.storage (fst (uploadDocument image personId device))).
Proof.
  unfold CameraService.uploadDocument.
  destruct (not_nullish image).
  - destruct (apiClient_post image personId) as [[data |] | error]; cbn [fst];
      try (split; [tauto | intros key _; reflexivity]).
    apply _saveForOfflineSync_storage.
  - cbn [fst]. apply _saveForOfflineSync_storage.
Qed.

Lemma sync_loop_storage pendingDocs device synced failed :
  Forall (fun document => CameraService.is_document_key (fst document) = true) pendingDocs ->
  let device' := fst (sync_loop pendingDocs device synced failed) in
  (forall key,
      (forall document, In document pendingDocs -> uploads document = true ->
                        fst document <> key) ->
      is_Some (CameraService.storage device !! key) ->
      is_Some (CameraService.storage device' !! key))
  /\ CameraService.same_outside_documents (CameraService.storage device)
       (CameraService.storage device').
Proof.
  revert device synced failed.
  induction pendingDocs as [| [key0 data] rest IH]; intros device synced failed Hkeys.
  - cbn. split; [tauto | intros key _; reflexivity].
  - apply Forall_cons in Hkeys as [Hkey0 Hkeys]. cbn [fst] in Hkey0.
    cbn [CameraService.sync_loop].
    destruct (read_fields data) as [[image personId] |] eqn:Hread.
    + pose proof (uploadDocument_success image personId device) as Hs.
      destruct (uploadDocument_storage image personId device) as [Hkeep Hsame].
      destruct (uploadDocument image personId device) as [device1 result].
      cbn [fst snd] in *.
      assert (Hu : uploads (key0, data) = CameraService.success Upload result).
      { unfold CameraService.uploads. cbn [snd]. now rewrite Hread, Hs. }
      destruct (CameraService.success Upload result) eqn:Hres.
      * match goal with
        | |- context [sync_loop rest ?d ?a ?b] =>
            destruct (IH d a b Hkeys) as [IHkeep IHsame]
        end.
        cbv zeta. split.
        -- intros key Hother Hin. apply IHkeep.
           ++ intros document Hd. apply Hother. now right.
           ++ unfold CameraService.removeItem. destruct disk_ok; cbn [fst CameraService.storage].
              ** rewrite lookup_delete_ne; [now apply Hkeep |].
                 apply (Hother (key0, data)); [now left | exact Hu].
              ** now apply Hkeep.
        -- intros key Hk. rewrite <- (IHsame key Hk).
           unfold CameraService.removeItem. destruct disk_ok; cbn [fst CameraService.storage].
           ++ rewrite lookup_delete_ne; [now apply Hsame |].
              intros <-. congruence.
           ++ now apply Hsame.
      * destruct (IH device1 synced (S failed) Hkeys) as [IHkeep IHsame].
        cbv zeta. split.
        -- intros key Hother Hin. apply IHkeep.
           ++ intros document Hd. apply Hother. now right.
           ++ now apply Hkeep.
        -- intros key Hk. rewrite <- (IHsame key Hk). now apply Hsame.
    + cbn [fst]. split; [tauto | intros key _; reflexivity].
Qed.

Lemma getItem_found (ok : bool) (key data : string) (store : gmap string string) :
  getItem ok key store = Some data -> store !! key = Some data.
Proof. unfold getItem. destruct ok; [tauto | discriminate]. Qed.

Lemma collect_documents_keys keys store documents :
  collect_documents keys store = Some documents ->
  sublist (map fst documents) keys
  /\ Forall (fun document => is_Some (store !! fst document)) documents.
Proof.
  revert documents. induction keys as [| key rest IH]; intros documents;
    cbn [CameraService.collect_documents].
  - intros H. injection H as <-. split; constructor.
  - destruct (getItem disk_ok key store) as [data |] eqn:Hdata.
    + apply getItem_found in Hdata.
      destruct (String.eqb data "").
      * intros H. destruct (IH _ H) as [Hsub Hall].
        split; [now apply sublist_cons | exact Hall].
      * destruct (JSON_parse data) as [parsed |]; [| discriminate].
        destruct (collect_documents rest store) as [others |] eqn:Hrest; [| discriminate].
        intros H. injection H as <-. destruct (IH _ eq_refl) as [Hsub Hall].
        split; [now apply sublist_skip |].
        constructor; [cbn; rewrite Hdata; eauto | exact Hall].
    + intros H. destruct (IH _ H) as [Hsub Hall].
      split; [now apply sublist_cons | exact Hall].
Qed.

Lemma List_filter_sublist {A : Type} (f : A -> bool) (l : list A) :
  sublist (List.filter f l) l.
Proof.
  induction l as [| x l IH]; cbn; [constructor |].
  destruct (f x); [now apply sublist_skip | now apply sublist_cons].
Qed.

Lemma getPendingDocuments_keys store :
  NoDup (map fst (getPendingDocuments store))
  /\ Forall (fun document => CameraService.is_document_key (fst document) = true
                             /\ is_Some (store !! fst document))
            (getPendingDocuments store).
Proof.
  unfold CameraService.getPendingDocuments. cbv zeta.
  destruct (collect_documents _ store) as [documents |] eqn:Hc.
  - destruct (collect_documents_keys _ _ _ Hc) as [Hsub Hall].
    assert (Hnd : NoDup (List.filter CameraService.is_document_key
                           (CameraService.getAllKeys disk_ok store))).
    { apply (sublist_NoDup _ (CameraService.getAllKeys disk_ok store));
        [| apply List_filter_sublist].
      unfold CameraService.getAllKeys.
      destruct disk_ok; [apply NoDup_fst_map_to_list | constructor]. }
    split; [exact (sublist_NoDup _ _ Hnd Hsub) |].
    apply Forall_forall. intros document Hin. split.
    + assert (Hk : fst document ∈ map fst documents).
      { apply list_elem_of_In. apply in_map. now apply list_elem_of_In. }
      pose proof (elem_of_sublist _ _ _ Hk Hsub) as Hf.
      apply list_elem_of_In, filter_In in Hf. tauto.
    + rewrite Forall_forall in Hall. now apply Hall.
  - split; constructor.
Qed.

Lemma same_key_same_document (documents : list (string * Json)) (a b : string * Json) :
  NoDup (map fst documents) -> In a documents -> In b documents ->
  fst a = fst b -> a = b.
Proof.
  induction documents as [| x rest IH]; cbn; [contradiction |].
  intros Hnd [<- | Ha] [<- | Hb] Hk.
  - reflexivity.
  - apply NoDup_cons in Hnd as [Hx _]. exfalso. apply Hx.
    rewrite Hk. apply list_elem_of_In. now apply in_map.
  - apply NoDup_cons in Hnd as [Hx _]. exfalso. apply Hx.
    rewrite <- Hk. apply list_elem_of_In. now apply in_map.
  - apply NoDup_cons in Hnd as [_ Hnd]. now apply IH.
Qed.

(** A pending document whose upload does not succeed is never deleted:
    after [syncPendingDocuments], its key is still in the storage, whatever
    happens to the other documents. *)
Theorem syncPendingDocuments_keeps_failed (device : Device) (document : string * Json) :
  In document (getPendingDocuments (CameraService.storage device)) ->
  uploads document = false ->
  is_Some (CameraService.storage (fst (syncPendingDocuments device)) !! fst document).
Proof.
  intros Hin Hfail.
  destruct (getPendingDocuments_keys (CameraService.storage device)) as [Hnd Hall].
  rewrite Forall_forall in Hall.
  assert (Hhere : is_Some (CameraService.storage device !! fst document)).
  { apply Hall. now apply list_elem_of_In. }
  unfold CameraService.syncPendingDocuments. cbv zeta.
  destruct (getPendingDocuments (CameraService.storage device)) as [| first rest] eqn:Hp;
    [contradiction |].
  assert (Hkeys : Forall (fun d => CameraService.is_document_key (fst d) = true)
                         (first :: rest)).
  { apply Forall_forall. intros d Hd. now apply Hall. }
  destruct (sync_loop_storage (first :: rest) device 0 0 Hkeys) as [Hkeep _].
  assert (Hfinal : is_Some (CameraService.storage
                              (fst (sync_loop (first :: rest) device 0 0)) !! fst document)).
  { apply Hkeep; [| exact Hhere].
    intros other Hother Hup Hk.
    assert (other = document) by (now apply (same_key_same_document (first :: rest))).
    subst other. congruence. }
  destruct (sync_loop (first :: rest) device 0 0) as [device' [[s f] | e]]; exact Hfinal.
Qed.

(** Synchronising the documents never touches the scoring cache, which
    lives in the same storage: after [syncPendingDocuments], whatever the
    uploads do, [_getCachedAssessment] finds for every person what it
    found before. *)
Theorem syncPendingDocuments_leaves_assessments {Assessment : Type}
    (parse_assessment : string -> option Assessment) (device : Device)
    (reads_ok : bool) (personId : string) :
  _getCachedAssessment Assessment parse_assessment reads_ok personId
    (CameraService.storage (fst (syncPendingDocuments device)))
  = _getCachedAssessment Assessment parse_assessment reads_ok personId
      (CameraService.storage device).
Proof.
  assert (Hsame : CameraService.same_outside_documents (CameraService.storage device)
                    (CameraService.storage (fst (syncPendingDocuments device)))).
  { unfold CameraService.syncPendingDocuments. cbv zeta.
    destruct (getPendingDocuments_keys (CameraService.storage device)) as [_ Hall].
    destruct (getPendingDocuments (CameraService.storage device)) as [| first rest] eqn:Hp.
    - intros key _. reflexivity.
    - assert (Hkeys : Forall (fun d => CameraService.is_document_key (fst d) = true)
                             (first :: rest)).
      { eapply Forall_impl; [exact Hall |]. cbn. tauto. }
      destruct (sync_loop_storage (first :: rest) device 0 0 Hkeys) as [_ Hs].
      destruct (sync_loop (first :: rest) device 0 0) as [device' [[s f] | e]]; exact Hs. }
  unfold _getCachedAssessment, getItem. destruct reads_ok; [| reflexivity].
  now rewrite <- (Hsame (assessment_key personId)).
Qed.

Local Abbreviation rethrown :=
  (CameraService.rethrown Json JSValue Upload read_fields not_nullish apiClient_post).
Local Abbreviation saved_key := (CameraService.saved_key clock).

Lemma sync_loop_rethrown pendingDocs device synced failed :
  disk_ok = true ->
  Forall (fun document => rethrown document = true) pendingDocs ->
  let outcome := sync_loop pendingDocs device synced failed in
  snd outcome = Ok (synced, (failed + length pendingDocs)%nat)
  /\ CameraService.saves (fst outcome) = (CameraService.saves device + length pendingDocs)%nat
  /\ (forall key, is_Some (CameraService.storage device !! key) ->
                  is_Some (CameraService.storage (fst outcome) !! key))
  /\ (forall i, (i < length pendingDocs)%nat ->
         is_Some (CameraService.storage (fst outcome)
                  !! saved_key (CameraService.saves device + i))).
Proof.
  intros Hdisk. revert device synced failed.
  induction pendingDocs as [| [key data] rest IH]; intros device synced failed Hall.
  - cbn. rewrite !Nat.add_0_r. repeat split; try tauto. intros i Hi. lia.
  - apply Forall_cons in Hall as [Hthis Hall].
    unfold CameraService.rethrown in Hthis. cbn [snd] in Hthis.
    cbn [CameraService.sync_loop].
    destruct (read_fields data) as [[image personId] |]; [| discriminate].
    assert (Hup : uploadDocument image personId device
                  = (_saveForOfflineSync image personId device,
                     snd (uploadDocument image personId device))
                  /\ CameraService.success Upload (snd (uploadDocument image personId device))
                     = false).
    { unfold CameraService.uploadDocument.
      destruct (not_nullish image); cbn [negb orb] in Hthis.
      - destruct (apiClient_post image personId) as [[d |] | error]; try discriminate.
        split; reflexivity.
      - split; reflexivity. }
    destruct Hup as [Hdev Hfail]. rewrite Hdev, Hfail. cbv zeta.
    destruct (IH (_saveForOfflineSync image personId device) synced (S failed) Hall)
      as (Hres & Hsaves & Hkeep & Hnew).
    destruct (_saveForOfflineSync_storage image personId device) as [Hkeep0 _].
    assert (Hsaved : is_Some (CameraService.storage (_saveForOfflineSync image personId device)
                              !! saved_key (CameraService.saves device))).
    { unfold CameraService._saveForOfflineSync, CameraService.saved_key, setItem.
      destruct (clock (CameraService.saves device)) as [now iso]. rewrite Hdisk.
      cbn [fst CameraService.storage]. rewrite lookup_insert_eq. eauto. }
    assert (Hcount : CameraService.saves (_saveForOfflineSync image personId device)
                     = S (CameraService.saves device)).
    { unfold CameraService._saveForOfflineSync.
      now destruct (clock (CameraService.saves device)). }
    cbn [length]. repeat split.
    + rewrite Hres. do 2 f_equal. lia.
    + rewrite Hsaves, Hcount. lia.
    + intros k Hk. apply Hkeep, Hkeep0, Hk.
    + intros i Hi. destruct i as [| i].
      * rewrite Nat.add_0_r. now apply Hkeep.
      * replace (CameraService.saves device + S i)%nat
          with (CameraService.saves (_saveForOfflineSync image personId device) + i)%nat
          by (rewrite Hcount; lia).
        apply Hnew. lia.
Qed.

Lemma getPendingDocuments_needs_disk store :
  getPendingDocuments store <> [] -> disk_ok = true.
Proof.
  unfold CameraService.getPendingDocuments, CameraService.getAllKeys.
  destruct disk_ok; [reflexivity |]. cbn. tauto.
Qed.


End CameraProperties.

Lemma CameraSample_pending :
  CameraService.getPendingDocuments string Some true
    (CameraService.storage CameraSample.device)
  = [("offline_document_1699999999999", "photo")].
Proof. vm_compute. reflexivity. Qed.

Lemma syncPendingDocuments_keeps_failed_witness :
  is_Some (CameraService.storage (fst CameraSample.sync)
           !! "offline_document_1699999999999").
Proof.
  apply (syncPendingDocuments_keeps_failed Some CameraSample.read_fields
           CameraSample.not_nullish CameraSample.stringify_document CameraSample.clock
           CameraSample.apiClient_post true CameraSample.device
           ("offline_document_1699999999999", "photo")).
  - rewrite CameraSample_pending. now left.
  - reflexivity.
Defined.


(** ** Formatting helpers *)

(** [truncate] returns a text of at most [maxLength] code units unchanged;
    a longer one is cut to [maxLength] units followed by three dots, so the
    result is then three units longer than [maxLength]; and truncating a
    truncated text changes nothing. *)
Theorem truncate_shape (text : Formatters.JSString) (maxLength : Z) :
  0 <= maxLength ->
  (Z.of_nat (length text) <= maxLength -> Formatters.truncate (Some text) maxLength = text)
  /\ (maxLength < Z.of_nat (length text) ->
      Formatters.truncate (Some text) maxLength
      = take (Z.to_nat maxLength) text ++ Formatters.ellipsis
      /\ Z.of_nat (length (Formatters.truncate (Some text) maxLength)) = maxLength + 3)
  /\ Formatters.truncate (Some (Formatters.truncate (Some text) maxLength)) maxLength
     = Formatters.truncate (Some text) maxLength.
Proof.
  intros Hmax.
  assert (Hshort : Z.of_nat (length text) <= maxLength ->
                   Formatters.truncate (Some text) maxLength = text).
  { intros Hle. unfold Formatters.truncate. destruct text as [| c rest]; [reflexivity |].
    destruct (Z.leb_spec (Z.of_nat (length (c :: rest))) maxLength); [reflexivity | lia]. }
  assert (Hlong : maxLength < Z.of_nat (length text) ->
                  Formatters.truncate (Some text) maxLength
                  = take (Z.to_nat maxLength) text ++ Formatters.ellipsis).
  { intros Hlt. unfold Formatters.truncate. destruct text as [| c rest]; [cbn in Hlt; lia |].
    destruct (Z.leb_spec (Z.of_nat (length (c :: rest))) maxLength); [lia | reflexivity]. }
  split; [exact Hshort |]. split.
  - intros Hlt. split; [now apply Hlong |].
    rewrite (Hlong Hlt), length_app, length_take. cbn [Formatters.ellipsis length]. lia.
  - destruct (Z.le_gt_cases (Z.of_nat (length text)) maxLength) as [Hle | Hlt].
    + now rewrite !(Hshort Hle).
    + rewrite (Hlong Hlt).
      set (cut := take (Z.to_nat maxLength) text ++ Formatters.ellipsis).
      assert (Hcut : maxLength < Z.of_nat (length cut)).
      { subst cut. rewrite length_app, length_take. cbn [Formatters.ellipsis length]. lia. }
      unfold Formatters.truncate.
      destruct cut as [| c rest] eqn:Hc; [cbn in Hcut; lia |].
      destruct (Z.leb_spec (Z.of_nat (length (c :: rest))) maxLength); [lia |].
      rewrite <- Hc. subst cut. unfold Formatters.substring_from_start.
      rewrite take_app_le by (rewrite length_take; lia).
      rewrite take_take. now rewrite Nat.min_id.
Qed.

Lemma truncate_shape_witness :
  Formatters.truncate (Some (Formatters.truncate (Some [65; 66; 67; 68; 69]%N) 2)) 2
  = Formatters.truncate (Some [65; 66; 67; 68; 69]%N) 2.
Proof.
  apply (proj2 (proj2 (truncate_shape [65; 66; 67; 68; 69]%N 2 ltac:(lia)))).
Defined.

Lemma remove_whitespace_clean (text : Formatters.JSString) :
  Forall (fun c => Formatters.is_whitespace c = false) (Formatters.remove_whitespace text).
Proof.
  unfold Formatters.remove_whitespace. apply Forall_forall. intros c Hc.
  apply list_elem_of_In, filter_In in Hc. destruct Hc as [_ Hc].
  now apply negb_true_iff.
Qed.

Lemma format_of_eight (a b c d e f g h : N) :
  Forall (fun u => Formatters.is_whitespace u = false) [a; b; c; d; e; f; g; h] ->
  let shown := [a; b; 32; c; d; 32; e; f; 32; g; h]%N in
  Formatters.remove_whitespace (Formatters.strip_country_prefix shown)
  = [a; b; c; d; e; f; g; h].
Proof.
  intros Hclean shown. subst shown.
  repeat (apply Forall_cons in Hclean as [? Hclean]).
  unfold Formatters.strip_country_prefix.
  replace ((a =? 43) && (b =? 50) && (32 =? 52) && (c =? 49))%N with false
    by (now rewrite andb_false_r).
  unfold Formatters.remove_whitespace. cbn [List.filter].
  repeat match goal with
         | H : Formatters.is_whitespace ?u = false |- _ => rewrite H; clear H
         end.
  reflexivity.
Qed.

(** When the number, without the prefix +241 and without white space, has
    eight code units, [formatPhoneNumber] shows them as four pairs
    separated by single spaces; otherwise it returns its argument.  In both
    cases formatting the result again changes nothing. *)
Theorem formatPhoneNumber_pairs (phone : Formatters.JSString) :
  let cleaned := Formatters.remove_whitespace (Formatters.strip_country_prefix phone) in
  (length cleaned = 8%nat -> phone <> [] ->
   exists a b c d e f g h,
     cleaned = [a; b; c; d; e; f; g; h]
     /\ Formatters.formatPhoneNumber (Some phone)
        = [a; b; 32; c; d; 32; e; f; 32; g; h]%N)
  /\ (length cleaned <> 8%nat -> Formatters.formatPhoneNumber (Some phone) = phone)
  /\ Formatters.formatPhoneNumber (Some (Formatters.formatPhoneNumber (Some phone)))
     = Formatters.formatPhoneNumber (Some phone).
Proof.
  intros cleaned.
  assert (Hother : length cleaned <> 8%nat ->
                   Formatters.formatPhoneNumber (Some phone) = phone).
  { intros Hlen. unfold Formatters.formatPhoneNumber. destruct phone as [| u rest];
      [reflexivity |]. fold cleaned.
    destruct (Nat.eqb_spec (length cleaned) 8); [contradiction | reflexivity]. }
  assert (Height : length cleaned = 8%nat -> phone <> [] ->
                   exists a b c d e f g h,
                     cleaned = [a; b; c; d; e; f; g; h]
                     /\ Formatters.formatPhoneNumber (Some phone)
                        = [a; b; 32; c; d; 32; e; f; 32; g; h]%N).
  { intros Hlen Hne. unfold Formatters.formatPhoneNumber.
    destruct phone as [| u rest]; [contradiction |]. fold cleaned. rewrite Hlen.
    destruct cleaned as [| a [| b [| c [| d [| e [| f [| g [| h [| extra tail]]]]]]]]];
      try discriminate.
    exists a, b, c, d, e, f, g, h. split; reflexivity. }
  split; [exact Height |]. split; [exact Hother |].
  destruct phone as [| u rest]; [reflexivity |].
  destruct (Nat.eq_dec (length cleaned) 8%nat) as [Hlen | Hlen].
  - destruct (Height Hlen ltac:(discriminate)) as (a & b & c & d & e & f & g & h & Hc & ->).
    pose proof (remove_whitespace_clean (Formatters.strip_country_prefix (u :: rest))) as Hclean.
    fold cleaned in Hclean. rewrite Hc in Hclean.
    unfold Formatters.formatPhoneNumber.
    rewrite (format_of_eight a b c d e f g h Hclean). reflexivity.
  - rewrite (Hother Hlen). now apply Hother.
Qed.

Lemma formatPhoneNumber_witness :
  Formatters.formatPhoneNumber
    (Some [43; 50; 52; 49; 32; 48; 55; 49; 50; 51; 52; 53; 54]%N)
  = [48; 55; 32; 49; 50; 32; 51; 52; 32; 53; 54]%N.
Proof.
  destruct (proj1 (formatPhoneNumber_pairs
                     [43; 50; 52; 49; 32; 48; 55; 49; 50; 51; 52; 53; 54]%N)
              eq_refl ltac:(discriminate))
    as (a & b & c & d & e & f & g & h & Hc & Hshown).
  vm_compute in Hc. injection Hc as <- <- <- <- <- <- <- <-. exact Hshown.
Defined.

Lemma scoreWith_in_range_witness :
  in_range (vulnerability_score
              (scoreWith DEFAULT_WEIGHTING_PROFILE Sample.adult (Some Sample.large_household))).
Proof.
  apply (scoreWith_in_range DEFAULT_WEIGHTING_PROFILE Sample.adult
           (Some Sample.large_household)).
  - repeat split; unfold Qle; simpl; lia.
  - reflexivity.
Defined.
